(** * ptutils: the epoch loop and the checkpoint life cycle of the trainers

    A shallow embedding of [ptutils/model_training/trainer.py] (class
    [Trainer]) and [ptutils/model_training/supervised_imagenet_trainer.py]
    (class [SupervisedImageNetTrainer]).

    Python integers are [Z], metric values (Python floats obtained with
    [.item()]) are rationals [Q], dictionaries are stdpp [gmap]s keyed by
    strings, an attribute that [hasattr] may find absent is an [option],
    and a raised exception is the [Raise] branch of [Result].  Printing
    and the switch between training and evaluation mode are left out: they
    change none of the state modelled here.  The helpers of
    [ptutils.model_training.train_utils] and the database interface are
    not among the sources; each is introduced where it is used, from what
    the specification says of it. *)

From Stdlib Require Import ZArith QArith Qminmax Lia List.
From stdpp Require Import gmap strings list fin_maps.

Open Scope Z_scope.

(** ** Exceptions *)

Inductive Error : Set :=
| AssertionError
| ValueError
| KeyError
| AttributeError
| TypeError
| ZeroDivisionError
| UnboundLocalError.

Inductive Result (A : Type) : Type :=
| Ok (a : A)
| Raise (e : Error).

Arguments Ok {A} a.
Arguments Raise {A} e.

#[global] Instance Result_ret : MRet Result := fun _ a => Ok a.
#[global] Instance Result_bind : MBind Result := fun _ _ f m =>
  match m with
  | Ok a => f a
  | Raise e => Raise e
  end.

Definition raises {A : Type} (m : Result A) : Prop :=
  match m with
  | Ok _ => False
  | Raise _ => True
  end.

Definition py_assert (b : bool) : Result unit :=
  if b then Ok tt else Raise AssertionError.

(** ** Values held by configurations and checkpoints *)

(** [state_dict()] of a model or of an optimizer: an opaque blob. *)
Definition StateDict : Set := Z.

(** One metric over the epochs, as in [{"train": [], "val": []}]. *)
Record Series : Set := mkSeries {
  train_series : list Q;
  val_series : list Q
}.

(** [self.results]: the keys "losses", "accs_top1" and "accs_top5". *)
Record Results : Set := mkResults {
  losses : Series;
  accs_top1 : Series;
  accs_top5 : Series
}.

#[local] Unset Elimination Schemes.

Inductive Value : Set :=
| VNone
| VBool (b : bool)
| VInt (z : Z)
| VFloat (q : Q)
| VStr (s : string)
| VList (l : list Z)
| VDict (d : list (string * Value))
| VResults (r : Results)
| VState (s : StateDict).

#[local] Set Elimination Schemes.

(** Python truth value, as [if v:] computes it. *)
Definition truthy (v : Value) : bool :=
  match v with
  | VNone => false
  | VBool b => b
  | VInt z => negb (z =? 0)
  | VFloat q => negb (Qeq_bool q 0)
  | VStr s => negb (String.eqb s "")
  | VList l => negb (Nat.eqb (length l) 0)
  | VDict d => negb (Nat.eqb (length d) 0)
  | VResults _ => true
  | VState _ => true
  end.

(** [v is not None]. *)
Definition is_not_None (v : Value) : bool :=
  match v with
  | VNone => false
  | _ => true
  end.

(** [d[k]]. *)
Definition getitem (d : gmap string Value) (k : string) : Result Value :=
  match d !! k with
  | Some v => Ok v
  | None => Raise KeyError
  end.

(** A nested dictionary is a list of its items; [assoc k d] is the value
    of the key [k]. *)
Fixpoint assoc (k : string) (d : list (string * Value)) : option Value :=
  match d with
  | [] => None
  | (k', v) :: d' => if String.eqb k k' then Some v else assoc k d'
  end.

(** [v[k]] for a value [v]. *)
Definition subscript (v : Value) (k : string) : Result Value :=
  match v with
  | VDict d =>
      match assoc k d with
      | Some x => Ok x
      | None => Raise KeyError
      end
  | _ => Raise TypeError
  end.

(** [k in d.keys()]. *)
Definition has_key (d : gmap string Value) (k : string) : bool :=
  match d !! k with
  | Some _ => true
  | None => false
  end.

(** [d.get(k, default)]. *)
Definition dict_get (d : gmap string Value) (k : string) (default : Value)
  : Value :=
  match d !! k with
  | Some v => v
  | None => default
  end.

(** A value used where Python needs an integer ([range], the right-hand
    side of [%]).  [bool] is a subclass of [int].  A float [save_freq],
    which Python's [%] would also take, is outside the model and reported
    as [TypeError]. *)
Definition as_int (v : Value) : Result Z :=
  match v with
  | VInt z => Ok z
  | VBool b => Ok (Z.b2z b)
  | _ => Raise TypeError
  end.

(** [e % v == 0] for an integer [e]; Python's [%] takes the sign of the
    divisor, as [Z.modulo] does, and raises on a zero divisor. *)
Definition mod_is_zero (e : Z) (v : Value) : Result bool :=
  f ← as_int v;
  if f =? 0 then Raise ZeroDivisionError else Ok (e mod f =? 0).

(** [e == v] for an integer [e]: never raises, false across kinds. *)
Definition int_eq_value (e : Z) (v : Value) : bool :=
  match v with
  | VInt z => e =? z
  | VBool b => e =? Z.b2z b
  | VFloat q => Qeq_bool (inject_Z e) q
  | _ => false
  end.

(** ** The metadata store and the local checkpoint store *)

(** Modelled from the spec: [ptutils.model_training.dbinterface] is not
    among the sources.  The metadata store offers [save(record)] and a
    final close ([sync_with_host]); the model keeps the records it was
    given, oldest first, and counts the closes. *)
Record MongoInterface : Type := mkMongo {
  mongo_records : list (gmap string Value);
  mongo_syncs : nat
}.

Definition mongo_save (db : MongoInterface) (record : gmap string Value)
  : MongoInterface :=
  mkMongo (mongo_records db ++ [record]) (mongo_syncs db).

Definition mongo_sync_with_host (db : MongoInterface) : MongoInterface :=
  mkMongo (mongo_records db) (S (mongo_syncs db)).

(** One call of [train_utils.save_checkpoint], with its keyword arguments. *)
Record SaveCall : Type := mkSaveCall {
  sc_state : gmap string Value;
  sc_is_best : bool;
  sc_save_epoch : option Z;
  sc_rank : nat;
  sc_tpu : bool
}.

(** ** Best-accuracy tracking and running averages *)

Definition Qgtb (x y : Q) : bool := negb (Qle_bool x y).

(** Modelled from the spec: [train_utils.check_best_accuracy] is not among
    the sources.  The new best is the maximum of candidate and previous
    best, and the flag is the strict comparison [candidate > previous
    best].  Returned in the order the caller unpacks it,
    [(best_acc, is_best)]. *)
Definition check_best_accuracy (curr_acc best_acc : Q) : Q * bool :=
  (Qmax curr_acc best_acc, Qgtb curr_acc best_acc).

(** The value [SupervisedImageNetTrainer.__init__] gives [best_acc] when
    no checkpoint supplied one. *)
Definition initial_best_acc : Q := (-1)%Q.

(** Modelled from the spec: [train_utils.AverageMeter] is not among the
    sources.  A running average over the examples seen: every update
    carries a batch value and a weight, the batch size. *)
Record AverageMeter : Set := mkMeter {
  am_sum : Q;
  am_count : Z;
  am_avg : Q
}.

Definition meter_new : AverageMeter := mkMeter 0 0 0.

Definition meter_update (m : AverageMeter) (val : Q) (n : positive)
  : AverageMeter :=
  let s := (am_sum m + val * inject_Z (Z.pos n))%Q in
  let c := am_count m + Z.pos n in
  mkMeter s c (s / inject_Z c)%Q.

(** ** Reductions across workers *)

Definition Qsum (l : list Q) : Q := fold_right Qplus 0%Q l.

(** The values of all workers, by rank. *)
Definition gather (world_size : nat) (f : nat → Q) : list Q :=
  map f (seq 0 world_size).

(** Modelled from the spec: [train_utils.reduce_metric] is not among the
    sources.  The per-worker values are summed by a collective all-reduce
    and divided by [world_size]; every worker receives the result. *)
Definition reduce_metric (f : nat → Q) (world_size : nat) : Q :=
  (Qsum (gather world_size f) / inject_Z (Z.of_nat world_size))%Q.

(** [np.mean] of a list. *)
Definition np_mean (l : list Q) : Q :=
  (Qsum l / inject_Z (Z.of_nat (length l)))%Q.

(** [xm.mesh_reduce(tag, value, np.mean)]: the values of all workers are
    gathered and every worker applies the reduction to them. *)
Definition mesh_reduce (f : nat → Q) (world_size : nat) : Q :=
  np_mean (gather world_size f).

(** ** Collaborators: data source and compute engine *)

(** What one worker sees of one batch: the loss of [loss_func], the two
    accuracies of [compute_accuracy], and [data.size(0)]. *)
Record Shard : Set := mkShard {
  sh_loss : Q;
  sh_acc1 : Q;
  sh_acc5 : Q;
  sh_size : positive
}.

(** A batch across the cluster: the shard of every rank. *)
Definition Batch : Set := nat → Shard.

(** The outcome of the opaque collaborators: the batches of the training
    loader once [sampler.set_epoch(i)] was called, those of the validation
    loader, and the effect of one optimizer step on the pair (model state,
    optimizer state). *)
Record Engine : Set := mkEngine {
  train_batches : Z → list Batch;
  val_batches : Z → list Batch;
  optimizer_step : StateDict * StateDict → StateDict * StateDict
}.

(** The three meters of a phase. *)
Record Meters : Set := mkMeters {
  m_losses : AverageMeter;
  m_top1 : AverageMeter;
  m_top5 : AverageMeter
}.

Definition meters_new : Meters := mkMeters meter_new meter_new meter_new.

(** [rep_loss, rep_acc1, rep_acc5] of one batch on the worker [r]: the
    local [.item()] values on TPU, the [reduce_metric] values otherwise. *)
Definition rep_values (tpu : bool) (world_size r : nat) (b : Batch)
  : Q * Q * Q :=
  if tpu then (sh_loss (b r), sh_acc1 (b r), sh_acc5 (b r))
  else (reduce_metric (fun w => sh_loss (b w)) world_size,
        reduce_metric (fun w => sh_acc1 (b w)) world_size,
        reduce_metric (fun w => sh_acc5 (b w)) world_size).

(** The body of the batch loop, as far as the meters go. *)
Definition meters_step (tpu : bool) (world_size r : nat) (ms : Meters)
  (b : Batch) : Meters :=
  let '(rep_loss, rep_acc1, rep_acc5) := rep_values tpu world_size r b in
  let n := sh_size (b r) in
  mkMeters (meter_update (m_losses ms) rep_loss n)
           (meter_update (m_top1 ms) rep_acc1 n)
           (meter_update (m_top5 ms) rep_acc5 n).

Definition run_meters (tpu : bool) (world_size r : nat) (bs : list Batch)
  : Meters :=
  fold_left (meters_step tpu world_size r) bs meters_new.

(** [average_loss, average_top1, average_top5] at the end of a phase on
    the worker [r], whose meters are [ms]: the meter averages, on TPU
    mesh-reduced with those of the other workers, who ran the same loop on
    their shards. *)
Definition averages_of (tpu : bool) (world_size r : nat) (bs : list Batch)
  (ms : Meters) : Q * Q * Q :=
  if tpu then
    let meters_on := fun w =>
      if Nat.eqb w r then ms else run_meters tpu world_size w bs in
    (mesh_reduce (fun w => am_avg (m_losses (meters_on w))) world_size,
     mesh_reduce (fun w => am_avg (m_top1 (meters_on w))) world_size,
     mesh_reduce (fun w => am_avg (m_top5 (meters_on w))) world_size)
  else (am_avg (m_losses ms), am_avg (m_top1 ms), am_avg (m_top5 ms)).

(** The averages of a phase whose batch loop does nothing but update the
    meters, as the loop of [validate]. *)
Definition phase_averages (tpu : bool) (world_size r : nat)
  (bs : list Batch) : Q * Q * Q :=
  averages_of tpu world_size r bs (run_meters tpu world_size r bs).

(** ** The trainer object *)

Record Trainer : Type := mkTrainer {
  config : gmap string Value;
  use_tpu : bool;
  rank : nat;
  world_size : nat;
  gpu_ids : option (list Z);
  model : StateDict;
  optimizer : StateDict;
  database : option MongoInterface;
  current_epoch : Z;
  results : option Results;
  best_acc : option Q;
  is_best : bool;
  (** the calls of [train_utils.save_checkpoint] so far, oldest first *)
  snapshots : list SaveCall;
  (** the epochs in which the body of [validate] ran, oldest first *)
  validated : list Z
}.

Definition set_config (c : gmap string Value) (t : Trainer) : Trainer :=
  mkTrainer c (use_tpu t) (rank t) (world_size t) (gpu_ids t) (model t)
    (optimizer t) (database t) (current_epoch t) (results t) (best_acc t)
    (is_best t) (snapshots t) (validated t).

Definition set_states (s : StateDict * StateDict) (t : Trainer) : Trainer :=
  mkTrainer (config t) (use_tpu t) (rank t) (world_size t) (gpu_ids t)
    (fst s) (snd s) (database t) (current_epoch t) (results t) (best_acc t)
    (is_best t) (snapshots t) (validated t).

Definition set_database (d : option MongoInterface) (t : Trainer) : Trainer :=
  mkTrainer (config t) (use_tpu t) (rank t) (world_size t) (gpu_ids t)
    (model t) (optimizer t) d (current_epoch t) (results t) (best_acc t)
    (is_best t) (snapshots t) (validated t).

Definition set_current_epoch (e : Z) (t : Trainer) : Trainer :=
  mkTrainer (config t) (use_tpu t) (rank t) (world_size t) (gpu_ids t)
    (model t) (optimizer t) (database t) e (results t) (best_acc t)
    (is_best t) (snapshots t) (validated t).

Definition set_results (r : option Results) (t : Trainer) : Trainer :=
  mkTrainer (config t) (use_tpu t) (rank t) (world_size t) (gpu_ids t)
    (model t) (optimizer t) (database t) (current_epoch t) r (best_acc t)
    (is_best t) (snapshots t) (validated t).

Definition set_best (b : option Q) (flag : bool) (t : Trainer) : Trainer :=
  mkTrainer (config t) (use_tpu t) (rank t) (world_size t) (gpu_ids t)
    (model t) (optimizer t) (database t) (current_epoch t) (results t) b
    flag (snapshots t) (validated t).

Definition add_snapshot (c : SaveCall) (t : Trainer) : Trainer :=
  mkTrainer (config t) (use_tpu t) (rank t) (world_size t) (gpu_ids t)
    (model t) (optimizer t) (database t) (current_epoch t) (results t)
    (best_acc t) (is_best t) (snapshots t ++ [c]) (validated t).

Definition add_validated (e : Z) (t : Trainer) : Trainer :=
  mkTrainer (config t) (use_tpu t) (rank t) (world_size t) (gpu_ids t)
    (model t) (optimizer t) (database t) (current_epoch t) (results t)
    (best_acc t) (is_best t) (snapshots t) (validated t ++ [e]).

(** Reading an attribute that may not have been set yet. *)
Definition getattr {A : Type} (a : option A) : Result A :=
  match a with
  | Some x => Ok x
  | None => Raise AttributeError
  end.

(** [hasattr]. *)
Definition hasattr {A : Type} (a : option A) : bool :=
  match a with
  | Some _ => true
  | None => false
  end.

(** ** [Trainer]: the methods of trainer.py *)

(** [check_key]. *)
Definition check_key (cfg : gmap string Value) (key : string) : Result unit :=
  py_assert (has_key cfg key).

(** [{k: curr_state[k] for k in save_keys}]. *)
Fixpoint dict_select (d : gmap string Value) (keys : list string)
  : Result (gmap string Value) :=
  match keys with
  | [] => Ok ∅
  | k :: ks =>
      v ← getitem d k;
      rest ← dict_select d ks;
      Ok (<[k := v]> rest)
  end.

(** [record.update(other)]: the entries of [other] win. *)
Definition dict_update (record other : gmap string Value)
  : gmap string Value :=
  other ∪ record.

(** The record [_save_to_db] builds before it decides whether to push. *)
Definition db_record (t : Trainer) (curr_state : gmap string Value)
  (save_keys : list string) : Result (gmap string Value) :=
  exp_id ← getitem (config t) "exp_id";
  picked ← dict_select curr_state save_keys;
  Ok (dict_update {["exp_id" := exp_id]} picked).

Definition _save_to_db (t : Trainer) (curr_state : gmap string Value)
  (save_keys : list string) : Result Trainer :=
  record ← db_record t curr_state save_keys;
  match database t with
  | Some db =>
      if Nat.eqb (rank t) 0
      then Ok (set_database (Some (mongo_save db record)) t)
      else Ok t
  | None => Ok t
  end.

Definition close_db (t : Trainer) : Trainer :=
  match database t with
  | Some db =>
      if Nat.eqb (rank t) 0
      then set_database (Some (mongo_sync_with_host db)) t
      else t
  | None => t
  end.

(** ** [SupervisedImageNetTrainer]: the epoch phases *)

Definition append_train (l a1 a5 : Q) (r : Results) : Results :=
  mkResults
    (mkSeries (train_series (losses r) ++ [l]) (val_series (losses r)))
    (mkSeries (train_series (accs_top1 r) ++ [a1]) (val_series (accs_top1 r)))
    (mkSeries (train_series (accs_top5 r) ++ [a5]) (val_series (accs_top5 r))).

Definition append_val (l a1 a5 : Q) (r : Results) : Results :=
  mkResults
    (mkSeries (train_series (losses r)) (val_series (losses r) ++ [l]))
    (mkSeries (train_series (accs_top1 r)) (val_series (accs_top1 r) ++ [a1]))
    (mkSeries (train_series (accs_top5 r)) (val_series (accs_top5 r) ++ [a5])).

(** [batch_size] of [train_one_epoch]:
    [config["optimizer_params"]["train_batch_size"] // world_size]. *)
Definition train_batch_size (t : Trainer) : Result Z :=
  params ← getitem (config t) "optimizer_params";
  n ← subscript params "train_batch_size" ≫= as_int;
  if Nat.eqb (world_size t) 0 then Raise ZeroDivisionError
  else Ok (n / Z.of_nat (world_size t)).

(** The progress message of one training batch.  Rank 0 without TPU
    prints the reduced values.  Every other worker takes the [else]
    branch, which every tenth step formats [tracker.rate()]; [tracker] is
    a local that is assigned only when a TPU is used. *)
Definition log_step (t : Trainer) (curr_step : Z) : Result unit :=
  if negb (use_tpu t) && Nat.eqb (rank t) 0 then Ok tt
  else if curr_step mod 10 =? 0 then
    if use_tpu t then Ok tt else Raise UnboundLocalError
  else Ok tt.

(** The batch loop of [train_one_epoch] from the index [i] on: the state
    dicts after the optimizer steps and the three meters. *)
Fixpoint train_steps (E : Engine) (t : Trainer) (num_batches i : Z)
  (bs : list Batch) (s : StateDict * StateDict) (ms : Meters)
  : Result (StateDict * StateDict * Meters) :=
  match bs with
  | [] => Ok (s, ms)
  | b :: bs' =>
      let curr_step := current_epoch t * num_batches + i in
      let s' := optimizer_step E s in
      let ms' := meters_step (use_tpu t) (world_size t) (rank t) ms b in
      log_step t curr_step;;
      train_steps E t num_batches (i + 1) bs' s' ms'
  end.

Definition train_one_epoch (E : Engine) (t : Trainer) : Result Trainer :=
  let bs := train_batches E (current_epoch t) in
  let num_batches := Z.of_nat (length bs) in
  batch_size ← train_batch_size t;
  '(s, ms) ← train_steps E t num_batches 0 bs (model t, optimizer t)
               meters_new;
  let t1 := set_states s t in
  let '(average_loss, average_top1, average_top5) :=
    averages_of (use_tpu t) (world_size t) (rank t) bs ms in
  r ← getattr (results t1);
  Ok (set_results (Some (append_train average_loss average_top1 average_top5 r))
        t1).

(** The condition that opens the body of [validate] and the database
    branch of [save_checkpoint]:
    [(current_epoch % save_freq == 0) or (current_epoch + 1 == num_epochs)],
    with Python's short-circuit [or]. *)
Definition cadence_hit (t : Trainer) : Result bool :=
  save_freq ← getitem (config t) "save_freq";
  hit ← mod_is_zero (current_epoch t) save_freq;
  if hit : bool then Ok true
  else
    num_epochs ← getitem (config t) "num_epochs";
    Ok (int_eq_value (current_epoch t + 1) num_epochs).

Definition validate (E : Engine) (t : Trainer) : Result Trainer :=
  hit ← cadence_hit t;
  if hit : bool then
    let bs := val_batches E (current_epoch t) in
    let '(average_loss, average_top1, average_top5) :=
      phase_averages (use_tpu t) (world_size t) (rank t) bs in
    r ← getattr (results t);
    let t1 :=
      set_results
        (Some (append_val average_loss average_top1 average_top5 r)) t in
    best ← getattr (best_acc t1);
    let '(new_best, flag) := check_best_accuracy average_top1 best in
    Ok (add_validated (current_epoch t) (set_best (Some new_best) flag t1))
  else Ok t.

(** [curr_state] of [save_checkpoint]. *)
Definition curr_state_of (epoch : Z) (m o : StateDict) (r : Results) (b : Q)
  : gmap string Value :=
  <["epoch" := VInt epoch]>
  (<["state_dict" := VState m]>
  (<["optimizer" := VState o]>
  (<["results" := VResults r]>
  (<["curr_best_acc" := VFloat b]> ∅)))).

Definition save_keys_db : list string := ["epoch"; "results"; "curr_best_acc"].

Definition save_checkpoint (t : Trainer) : Result Trainer :=
  py_assert (hasattr (results t));;
  py_assert (has_key (config t) "save_freq");;
  r ← getattr (results t);
  b ← getattr (best_acc t);
  let curr_state :=
    curr_state_of (current_epoch t) (model t) (optimizer t) r b in
  hit ← cadence_hit t;
  '(save_epoch, t1) ←
    (if hit : bool then
       t1 ← _save_to_db t curr_state save_keys_db;
       Ok (Some (current_epoch t), t1)
     else Ok (None, t));
  Ok (add_snapshot
        (mkSaveCall curr_state (is_best t1) save_epoch (rank t1) (use_tpu t1))
        t1).

(** ** The epoch loop *)

(** The body of the [for] loop of [train] for the index [i]. *)
Definition run_epoch (E : Engine) (i : Z) (t : Trainer) : Result Trainer :=
  t1 ← train_one_epoch E (set_current_epoch i t);
  t2 ← validate E t1;
  save_checkpoint t2.

(** [n] iterations of the loop, from the index [i] on. *)
Fixpoint train_loop (E : Engine) (n : nat) (i : Z) (t : Trainer)
  : Result Trainer :=
  match n with
  | O => Ok t
  | S n' =>
      t1 ← run_epoch E i t;
      train_loop E n' (i + 1) t1
  end.

(** [train]: [range(current_epoch, num_epochs)] has
    [max 0 (num_epochs - current_epoch)] indices. *)
Definition train (E : Engine) (t : Trainer) : Result Trainer :=
  check_key (config t) "save_freq";;
  check_key (config t) "num_epochs";;
  num_epochs ← getitem (config t) "num_epochs" ≫= as_int;
  t1 ← train_loop E (Z.to_nat (num_epochs - current_epoch t))
         (current_epoch t) t;
  Ok (close_db t1).

(** ** Restoring a checkpoint *)

(** A checkpoint field of another kind than the one [save_checkpoint]
    writes is reported as [TypeError]; Python would store it and fail at
    its first use. *)
Definition as_results (v : Value) : Result Results :=
  match v with
  | VResults r => Ok r
  | _ => Raise TypeError
  end.

Definition as_state (v : Value) : Result StateDict :=
  match v with
  | VState s => Ok s
  | _ => Raise TypeError
  end.

Definition as_float (v : Value) : Result Q :=
  match v with
  | VFloat q => Ok q
  | VInt z => Ok (inject_Z z)
  | VBool b => Ok (inject_Z (Z.b2z b))
  | _ => Raise TypeError
  end.

(** [load_checkpoint].  [files] gives, for every path that is an existing
    regular file, the dictionary [torch.load] returns for it. *)
Definition load_checkpoint (files : gmap string (gmap string Value))
  (t : Trainer) : Result Trainer :=
  check_key (config t) "resume_checkpoint";;
  checkpoint_path ← getitem (config t) "resume_checkpoint";
  cpt ←
    match checkpoint_path with
    | VStr path =>
        match files !! path with
        | Some cpt =>
            if use_tpu t then Ok cpt
            else
              ids ← getattr (gpu_ids t);
              py_assert (Nat.eqb (length ids) 1);;
              Ok cpt
        | None => Raise ValueError
        end
    | _ => Raise TypeError
    end;
  py_assert (has_key cpt "epoch");;
  py_assert (has_key cpt "results");;
  py_assert (has_key cpt "state_dict");;
  py_assert (has_key cpt "optimizer");;
  py_assert (has_key cpt "curr_best_acc");;
  epoch ← getitem cpt "epoch" ≫= as_int;
  let t1 := set_current_epoch (epoch + 1) t in
  py_assert (negb (hasattr (results t1)));;
  r ← getitem cpt "results" ≫= as_results;
  let t2 := set_results (Some r) t1 in
  m ← getitem cpt "state_dict" ≫= as_state;
  o ← getitem cpt "optimizer" ≫= as_state;
  let t3 := set_states (m, o) t2 in
  b ← getitem cpt "curr_best_acc" ≫= as_float;
  Ok (set_best (Some b) (is_best t3) t3).

(** ** Construction *)

(** What construction takes from outside the program. *)
Record Env : Type := mkEnv {
  (** the regular files [torch.load] can read, with what it returns *)
  env_files : gmap string (gmap string Value);
  (** [torch.cuda.is_available()] *)
  env_cuda : bool;
  (** [xm.get_ordinal()] or [dist.get_rank()] *)
  env_rank : nat;
  (** [xm.xrt_world_size()] or [dist.get_world_size()] *)
  env_world_size : nat;
  (** [ptutils.core.default_constants.USE_MONGODB], a constant that is
      not among the sources *)
  USE_MONGODB : Value;
  (** the outcome of [initialize_model], [initialize_dataloader],
      [initialize_loss_function], [initialize_optimizer] and
      [initialize_scheduler]: the two initial state dicts, or the
      exception one of them raised *)
  env_initialize : gmap string Value → Result (StateDict * StateDict);
  (** [download_file_from_bucket(filename, ordinal)]: the local path *)
  env_download : string → nat → string
}.

(** [_set_device]: whether a TPU is used, and [gpu_ids] when it is set. *)
Definition _set_device (env : Env) (cfg : gmap string Value)
  : Result (bool * option (list Z)) :=
  check_key cfg "gpus";;
  check_key cfg "tpu";;
  tpu ← getitem cfg "tpu";
  gpus ← getitem cfg "gpus";
  if truthy tpu then
    py_assert (negb (truthy gpus));;
    Ok (true, None)
  else if truthy gpus then
    py_assert (env_cuda env);;
    py_assert (negb (truthy tpu));;
    match gpus with
    | VList ids => py_assert (Nat.eqb (length ids) 1);; Ok (false, Some ids)
    | _ => Raise TypeError
    end
  else Raise ValueError.

Definition cfg_save_keys : list string := ["db_name"; "coll_name"; "exp_id"].

(** [for k in cfg_save_keys: assert self.config[k] is not None]. *)
Fixpoint assert_not_None (cfg : gmap string Value) (keys : list string)
  : Result unit :=
  match keys with
  | [] => Ok tt
  | k :: ks =>
      v ← getitem cfg k;
      py_assert (is_not_None v);;
      assert_not_None cfg ks
  end.

(** [Trainer.__init__] for a configuration given as a dictionary.  Making
    the directory, seeding, copying the configuration file and removing
    the downloaded checkpoint touch only the file system and the
    generators; their key checks are kept. *)
Definition Trainer_init (env : Env) (cfg : gmap string Value)
  : Result Trainer :=
  check_key cfg "save_dir";;
  check_key cfg "seed";;
  '(tpu, ids) ← _set_device env cfg;
  check_key cfg "model";;
  '(m, o) ← env_initialize env cfg;
  py_assert (forallb (has_key cfg) cfg_save_keys);;
  assert_not_None cfg cfg_save_keys;;
  db ←
    (if truthy (dict_get cfg "use_mongodb" (USE_MONGODB env)) then
       py_assert (has_key cfg "port");;
       port ← getitem cfg "port";
       py_assert (is_not_None port);;
       Ok (Some (mkMongo [] 0))
     else Ok None);
  let t :=
    mkTrainer cfg tpu (env_rank env) (env_world_size env) ids m o db 0
      None None false [] [] in
  getitem cfg "filepath";;
  check_key cfg "resume_checkpoint";;
  resume ← getitem cfg "resume_checkpoint";
  if is_not_None resume then
    if tpu then
      match resume with
      | VStr filename =>
          let local := env_download env filename (rank t) in
          load_checkpoint (env_files env)
            (set_config (<["resume_checkpoint" := VStr local]> cfg) t)
      | _ => Raise TypeError
      end
    else load_checkpoint (env_files env) t
  else Ok t.

Definition empty_results : Results :=
  mkResults (mkSeries [] []) (mkSeries [] []) (mkSeries [] []).

(** [SupervisedImageNetTrainer.__init__]. *)
Definition SupervisedImageNetTrainer_init (env : Env)
  (cfg : gmap string Value) : Result Trainer :=
  t ← Trainer_init env cfg;
  let t1 :=
    if hasattr (results t) then t else set_results (Some empty_results) t in
  let t2 :=
    if hasattr (best_acc t1) then t1
    else set_best (Some initial_best_acc) (is_best t1) t1 in
  Ok (set_best (best_acc t2) false t2).

(** ** The cadence, as a function of the two configured integers *)

(** [gate F N e]: the cadence condition at epoch [e] for [save_freq = F]
    and [num_epochs = N]. *)
Definition gate (F N e : Z) : bool := (e mod F =? 0) || (e + 1 =? N).

(** The trainer is past [SupervisedImageNetTrainer.__init__]: the history
    and the best value exist. *)
Definition ready (t : Trainer) : Prop :=
  is_Some (results t) ∧ is_Some (best_acc t).

(** The worker can say what it has to say after a training batch: it is
    rank 0 or it uses a TPU. *)
Definition can_log (t : Trainer) : Prop :=
  use_tpu t = true ∨ rank t = 0%nat.

(** What the epoch loop reads: an integer cadence that is not zero, the
    number of epochs, the experiment identifier, and a training batch
    size to divide by a world size that is not zero; and the worker can
    log. *)
Definition configured (F N : Z) (t : Trainer) : Prop :=
  config t !! "save_freq" = Some (VInt F) ∧
  config t !! "num_epochs" = Some (VInt N) ∧
  is_Some (config t !! "exp_id") ∧
  F ≠ 0 ∧
  (∃ params B, config t !! "optimizer_params" = Some params ∧
               subscript params "train_batch_size" = Ok (VInt B)) ∧
  world_size t ≠ 0%nat ∧
  can_log t.

(** The records the metadata store holds, oldest first. *)
Definition records (t : Trainer) : list (gmap string Value) :=
  match database t with
  | Some db => mongo_records db
  | None => []
  end.

(** [_set_device] returned: either a TPU is used or [gpu_ids] holds one
    identifier. *)
Definition device_set (t : Trainer) : Prop :=
  use_tpu t = true ∨ ∃ id, gpu_ids t = Some [id].

(** The fields [load_checkpoint] asserts, in the order it asserts them. *)
Definition required_keys : list string :=
  ["epoch"; "results"; "state_dict"; "optimizer"; "curr_best_acc"].

(** The three training lists of [r] have [n] entries and the three
    validation lists have [v]. *)
Definition shape (r : Results) (n v : nat) : Prop :=
  length (train_series (losses r)) = n ∧
  length (train_series (accs_top1 r)) = n ∧
  length (train_series (accs_top5 r)) = n ∧
  length (val_series (losses r)) = v ∧
  length (val_series (accs_top1 r)) = v ∧
  length (val_series (accs_top5 r)) = v.

(** Every list of [r] is an initial segment of the same list of [r']. *)
Definition extends (r r' : Results) : Prop :=
  train_series (losses r) `prefix_of` train_series (losses r') ∧
  train_series (accs_top1 r) `prefix_of` train_series (accs_top1 r') ∧
  train_series (accs_top5 r) `prefix_of` train_series (accs_top5 r') ∧
  val_series (losses r) `prefix_of` val_series (losses r') ∧
  val_series (accs_top1 r) `prefix_of` val_series (accs_top1 r') ∧
  val_series (accs_top5 r) `prefix_of` val_series (accs_top5 r').

(** The record a cadence epoch hands to the metadata store. *)
Definition partial_record (exp_id : Value) (epoch : Z) (r : Results) (b : Q)
  : gmap string Value :=
  <["exp_id" := exp_id]>
  (<["epoch" := VInt epoch]>
  (<["results" := VResults r]>
  (<["curr_best_acc" := VFloat b]> ∅))).

(** The state one iteration of the loop leaves, written out field by
    field.  [s] is the pair of state dicts after the optimizer steps, [tr]
    the training averages and [va] the validation averages of the epoch
    [i]; [r], [b] and [exp_id] are the history, the best value and the
    experiment identifier the iteration started with.  [run_epoch_step]
    below shows that [run_epoch] computes it. *)
Definition after_epoch (F N i : Z) (exp_id : Value) (t : Trainer)
  (r : Results) (b : Q) (s : StateDict * StateDict) (tr va : Q * Q * Q)
  : Trainer :=
  let hit := gate F N i in
  let r1 := append_train (fst (fst tr)) (snd (fst tr)) (snd tr) r in
  let r' :=
    if hit then append_val (fst (fst va)) (snd (fst va)) (snd va) r1
    else r1 in
  let b' := if hit then fst (check_best_accuracy (snd (fst va)) b) else b in
  let flag :=
    if hit then snd (check_best_accuracy (snd (fst va)) b) else is_best t in
  let db' :=
    match database t with
    | Some db =>
        if hit && Nat.eqb (rank t) 0
        then Some (mongo_save db (partial_record exp_id i r' b'))
        else Some db
    | None => None
    end in
  mkTrainer (config t) (use_tpu t) (rank t) (world_size t) (gpu_ids t)
    (fst s) (snd s) db' i (Some r') (Some b') flag
    (snapshots t ++
       [mkSaveCall (curr_state_of i (fst s) (snd s) r' b') flag
          (if hit then Some i else None) (rank t) (use_tpu t)])
    (if hit then validated t ++ [i] else validated t).

(** ** A two-worker job, for concrete runs *)

Definition sample_config (F N : Z) (resume : Value) : gmap string Value :=
  list_to_map
    [("save_dir", VStr "out"); ("seed", VInt 0); ("gpus", VList [0]);
     ("tpu", VBool false); ("model", VStr "resnet18");
     ("db_name", VStr "db"); ("coll_name", VStr "coll");
     ("exp_id", VStr "exp0"); ("use_mongodb", VBool true);
     ("port", VInt 27017); ("filepath", VStr "config.json");
     ("resume_checkpoint", resume); ("save_freq", VInt F);
     ("num_epochs", VInt N);
     ("optimizer_params",
      VDict [("train_batch_size", VInt 8); ("val_batch_size", VInt 8)])].

Definition sample_env (files : gmap string (gmap string Value)) : Env :=
  mkEnv files true 0 2 (VBool false) (fun _ => Ok (0, 0)) (fun s _ => s).

(** Three training batches whose losses on the two workers are 1 and 2,
    3 and 4, 5 and 6, each shard of 4 examples; one validation batch whose
    top-1 accuracy at epoch [e] is [e / 10]. *)
Definition sample_shard (l : Q) : Shard := mkShard l (1 # 2) (3 # 4) 4.

Definition sample_batch (l0 l1 : Q) : Batch :=
  fun r => sample_shard (if Nat.eqb r 0 then l0 else l1).

Definition sample_engine : Engine :=
  mkEngine
    (fun _ => [sample_batch 1 2; sample_batch 3 4; sample_batch 5 6])
    (fun e => [fun _ => mkShard 1 (inject_Z e / 10) 1 4])
    (fun s => (fst s + 1, snd s + 1)).

(** The trainer [SupervisedImageNetTrainer.__init__] builds from the
    sample configuration when nothing is resumed. *)
Definition sample_trainer (F N : Z) : Trainer :=
  mkTrainer (sample_config F N VNone) false 0 2 (Some [0]) 0 0
    (Some (mkMongo [] 0)) 0 (Some empty_results) (Some initial_best_acc)
    false [] [].

(** The same trainer on the second GPU worker. *)
Definition sample_trainer_rank1 (F N : Z) : Trainer :=
  mkTrainer (sample_config F N VNone) false 1 2 (Some [0]) 0 0
    (Some (mkMongo [] 0)) 0 (Some empty_results) (Some initial_best_acc)
    false [] [].

(** The trainer as [Trainer.__init__] hands it to [load_checkpoint]: the
    device is set, and neither the history nor the best value exists. *)
Definition resuming_trainer (path : string) : Trainer :=
  mkTrainer (sample_config 3 10 (VStr path)) false 0 2 (Some [0]) 0 0
    (Some (mkMongo [] 0)) 0 None None false [] [].

(** A history with one training entry and one validation entry. *)
Definition sample_history : Results :=
  (mkResults (mkSeries [7 # 2] [1]) (mkSeries [1 # 2] [0])
     (mkSeries [3 # 4] [1]))%Q.

(** A checkpoint as [save_checkpoint] builds it at the end of epoch 0. *)
Definition sample_checkpoint : gmap string Value :=
  curr_state_of 0 3 3 sample_history 0%Q.

(** The epoch field of every [save_checkpoint] call, oldest first. *)
Definition snapshot_epochs (t : Trainer) : list (option Value) :=
  map (fun c => sc_state c !! "epoch") (snapshots t).

(** The epoch field of every record of the metadata store. *)
Definition record_epochs (t : Trainer) : list (option Value) :=
  map (fun rec : gmap string Value => rec !! "epoch") (records t).

(** Whether this worker pushes to a metadata store. *)
Definition pushing (t : Trainer) : bool :=
  match database t with
  | Some _ => Nat.eqb (rank t) 0
  | None => false
  end.

(** ** Observations used by the further properties *)

(** How often the metadata store was closed. *)
Definition syncs (t : Trainer) : nat :=
  match database t with
  | Some db => mongo_syncs db
  | None => O
  end.

(** The epochs whose local save was given a [save_epoch], oldest first. *)
Definition tagged_epochs (t : Trainer) : list Z :=
  omap sc_save_epoch (snapshots t).

(** The best value after the candidates [new], oldest first, were each
    handed to [check_best_accuracy], starting from [b0]. *)
Definition best_over (b0 : Q) (new : list Q) : Q :=
  fold_left (fun b x => fst (check_best_accuracy x b)) new b0.

(** ** The data loaders: training_dataloader_utils.py and the loader
    methods of [SupervisedImageNetTrainer]

    [torch.utils.data] and [torch_xla] are not part of the program: a
    sampler, a loader and a device loader are the keyword arguments they
    were built with.  The dataset classes of [ptutils.datasets] and the
    constants [MODEL_TRANSFORMS] and [IMAGENET_DATA_DIR] are not among the
    sources; [Imports] holds what the loader code takes from them. *)

(** The exceptions of the loader code: those of [Error], and [NameError]
    for a name that neither the module nor the builtins bind. *)
Inductive Exn : Type :=
| Builtin (e : Error)
| NameError (name : string).

Inductive Outcome (A : Type) : Type :=
| Returns (a : A)
| Throws (e : Exn).

Arguments Returns {A} a.
Arguments Throws {A} e.

#[global] Instance Outcome_ret : MRet Outcome := fun _ a => Returns a.
#[global] Instance Outcome_bind : MBind Outcome := fun _ _ f m =>
  match m with
  | Returns a => f a
  | Throws e => Throws e
  end.

Definition lift {A : Type} (m : Result A) : Outcome A :=
  match m with
  | Ok a => Returns a
  | Raise e => Throws (Builtin e)
  end.

(** A composed transform pipeline, by the names of its steps. *)
Definition Transform : Set := list string.

(** A dataset class: its name, [issubclass(cls, ImageNetBase)], and
    whether its instances are [data.Dataset]s. *)
Record DatasetClass : Set := mkClass {
  cls_name : string;
  cls_is_ImageNetBase : bool;
  cls_is_Dataset : bool
}.

(** A value of the [params] dictionary: a configuration value or a
    dataset class. *)
Inductive ParamValue : Set :=
| PVal (v : Value)
| PClass (c : DatasetClass).

(** [dataset_class(is_train=..., imagenet_dir=..., image_transforms=...)]. *)
Record Dataset : Set := mkDataset {
  ds_class : DatasetClass;
  ds_is_train : bool;
  ds_imagenet_dir : ParamValue;
  ds_image_transforms : option Transform
}.

(** [data.distributed.DistributedSampler(dataset=..., num_replicas=...,
    rank=..., shuffle=...)]. *)
Record Sampler : Set := mkSampler {
  sampler_dataset : Dataset;
  sampler_num_replicas : nat;
  sampler_rank : nat;
  sampler_shuffle : bool
}.

(** [data.DataLoader(dataset=..., batch_size=..., sampler=...,
    collate_fn=..., **loader_kwargs)]; [pin_memory] is [None] when the
    keyword is not passed. *)
Record DataLoader : Set := mkDataLoader {
  dl_dataset : Dataset;
  dl_batch_size : ParamValue;
  dl_sampler : Sampler;
  dl_collate_fn : option string;
  dl_num_workers : ParamValue;
  dl_pin_memory : option bool;
  dl_shuffle : bool;
  dl_drop_last : ParamValue
}.

(** A [torch.device]: its [type] and its index. *)
Record Device : Set := mkDevice {
  device_type : string;
  device_index : option Z
}.

(** What [wrap_dataloaders] returns for one loader: the loader itself, or
    [pl.MpDeviceLoader(loader=..., device=...)]. *)
Inductive Loader : Set :=
| Plain (l : DataLoader)
| MpDeviceLoader (loader : option DataLoader) (device : Device).

Record Imports : Type := mkImports {
  (** what calling a dataset class with these arguments raises, if it
      raises *)
  dataset_init : Dataset → option Exn;
  (** [ptutils.models.model_transforms.MODEL_TRANSFORMS] *)
  MODEL_TRANSFORMS : gmap string (gmap string Transform);
  (** [ptutils.core.default_dirs.IMAGENET_DATA_DIR] *)
  IMAGENET_DATA_DIR : Value;
  (** [ptutils.datasets.ImageNetSupervised] *)
  ImageNetSupervised : DatasetClass
}.

(** [d[k]] and [k in d.keys()] for the dictionaries of the loader code. *)
Definition item {A : Type} (d : gmap string A) (k : string) : Result A :=
  match d !! k with
  | Some v => Ok v
  | None => Raise KeyError
  end.

Definition in_keys {A : Type} (d : gmap string A) (k : string) : bool :=
  match d !! k with
  | Some _ => true
  | None => false
  end.

(** A parameter used as an integer; as for [as_int], a float batch size
    is outside the model. *)
Definition param_int (p : ParamValue) : Result Z :=
  match p with
  | PVal v => as_int v
  | PClass _ => Raise TypeError
  end.

(** [p % world_size == 0] and [p // world_size]. *)
Definition param_mod_is_zero (p : ParamValue) (world_size : nat)
  : Result bool :=
  n ← param_int p;
  if Nat.eqb world_size 0 then Raise ZeroDivisionError
  else Ok (n mod Z.of_nat world_size =? 0).

Definition param_floordiv (p : ParamValue) (world_size : nat)
  : Result ParamValue :=
  n ← param_int p;
  if Nat.eqb world_size 0 then Raise ZeroDivisionError
  else Ok (PVal (VInt (n / Z.of_nat world_size))).

(** [_acquire_dataloader]. *)
Definition _acquire_dataloader (dataset : Dataset) (train : bool)
  (batch_size num_workers : ParamValue) (rank world_size : nat)
  (drop_last : ParamValue) (tpu : bool) (collate_fn : option string)
  : Outcome DataLoader :=
  lift (py_assert (cls_is_Dataset (ds_class dataset)));;
  let sampler := mkSampler dataset world_size rank train in
  let pin_memory := if tpu then None else Some true in
  Returns
    (mkDataLoader dataset batch_size sampler collate_fn num_workers
       pin_memory false drop_last).

(** The callable [_acquire_dataloader] is called through. *)
Definition Acquire : Type :=
  Dataset → bool → ParamValue → ParamValue → nat → nat → ParamValue → bool →
  option string → Outcome DataLoader.

(** A [dataloader_func]: called with [params], [my_transforms], [rank],
    [world_size] and [tpu], it returns the training loader, which may be
    [None], and the validation loader. *)
Definition LoaderFunc : Type :=
  gmap string ParamValue → gmap string (option Transform) → nat → nat →
  bool → Outcome (option DataLoader * option DataLoader).

(** [wrap_dataloaders]: the two loaders, and [params] as the call leaves
    it, since the dictionary is changed in place. *)
Definition wrap_dataloaders (dataloader_func : LoaderFunc)
  (params : gmap string ParamValue)
  (my_transforms : gmap string (option Transform)) (device : Device)
  (rank world_size : nat)
  : Outcome (option Loader * option Loader * gmap string ParamValue) :=
  let tpu := String.eqb (device_type device) "xla" in
  lift (b ← item params "train_batch_size";
        ok ← param_mod_is_zero b world_size;
        py_assert ok);;
  lift (if in_keys params "val_batch_size" then
          b ← item params "val_batch_size";
          ok ← param_mod_is_zero b world_size;
          py_assert ok
        else Ok tt);;
  params1 ← lift (b ← item params "train_batch_size";
                  q ← param_floordiv b world_size;
                  Ok (<["train_batch_size" := q]> params));
  params2 ← lift (if in_keys params1 "val_batch_size" then
                    b ← item params1 "val_batch_size";
                    q ← param_floordiv b world_size;
                    Ok (<["val_batch_size" := q]> params1)
                  else Ok params1);
  '(train_loader, val_loader) ←
    dataloader_func params2 my_transforms rank world_size tpu;
  if tpu then
    Returns
      (Some (MpDeviceLoader train_loader device),
       match val_loader with
       | Some l => Some (MpDeviceLoader (Some l) device)
       | None => None
       end,
       params2)
  else Returns (Plain <$> train_loader, Plain <$> val_loader, params2).

(** Looking a name up among the callables a module binds. *)
Fixpoint global (globals : list (string * Acquire)) (name : string)
  : Outcome Acquire :=
  match globals with
  | [] => Throws (NameError name)
  | (bound, f) :: rest =>
      if String.eqb name bound then Returns f else global rest name
  end.

Definition construct (I : Imports) (d : Dataset) : Outcome Dataset :=
  match dataset_init I d with
  | None => Returns d
  | Some e => Throws e
  end.

(** The body the function [get_imagenet_loaders] of
    training_dataloader_utils.py and the method of the same name of
    [SupervisedImageNetTrainer] share line by line, up to the name
    [acquire] through which each builds its loaders, looked up in the
    [globals] of its own module at each call. *)
Definition imagenet_loaders (I : Imports) (globals : list (string * Acquire))
  (acquire : string) : LoaderFunc :=
  fun params my_transforms rank world_size tpu =>
  lift (py_assert (in_keys params "image_dir"));;
  lift (py_assert (in_keys params "dataset_class"));;
  lift (py_assert (in_keys params "train_batch_size"));;
  lift (py_assert (in_keys params "val_batch_size"));;
  lift (py_assert (in_keys params "num_workers"));;
  lift (py_assert (in_keys my_transforms "train"));;
  lift (py_assert (in_keys my_transforms "val"));;
  train_batch_size ← lift (item params "train_batch_size");
  val_batch_size ← lift (item params "val_batch_size");
  num_workers ← lift (item params "num_workers");
  let drop_last := default (PVal (VBool false)) (params !! "drop_last") in
  dataset_class ← lift (item params "dataset_class");
  cls ← match dataset_class with
        | PClass c => Returns c
        | PVal _ => Throws (Builtin TypeError)
        end;
  lift (py_assert (cls_is_ImageNetBase cls));;
  imagenet_dir ← lift (item params "image_dir");
  train_transforms ← lift (item my_transforms "train");
  val_transforms ← lift (item my_transforms "val");
  train_set ←
    match train_transforms with
    | Some _ =>
        d ← construct I (mkDataset cls true imagenet_dir train_transforms);
        Returns (Some d)
    | None => Returns None
    end;
  val_set ← construct I (mkDataset cls false imagenet_dir val_transforms);
  train_loader ←
    match train_transforms, train_set with
    | Some _, Some d =>
        f ← global globals acquire;
        l ← f d true train_batch_size num_workers rank world_size drop_last
              tpu None;
        Returns (Some l)
    | _, _ => Returns None
    end;
  f ← global globals acquire;
  val_loader ← f val_set false val_batch_size num_workers rank world_size
                 drop_last tpu None;
  Returns (train_loader, Some val_loader).

(** The callables training_dataloader_utils.py binds, and those
    supervised_imagenet_trainer.py imports from it. *)
Definition training_dataloader_utils_globals : list (string * Acquire) :=
  [("_acquire_dataloader", _acquire_dataloader)].

Definition supervised_imagenet_trainer_globals : list (string * Acquire) :=
  [("_acquire_dataloader", _acquire_dataloader)].

(** [get_imagenet_loaders] of training_dataloader_utils.py. *)
Definition get_imagenet_loaders (I : Imports) : LoaderFunc :=
  imagenet_loaders I training_dataloader_utils_globals "_acquire_dataloader".

(** [SupervisedImageNetTrainer.get_imagenet_loaders]. *)
Definition SupervisedImageNetTrainer_get_imagenet_loaders (I : Imports)
  : LoaderFunc :=
  imagenet_loaders I supervised_imagenet_trainer_globals
    "_acquire_data_loader".

(** [d.keys()] of a configuration value. *)
Definition keys_of (v : Value) : Result (list string) :=
  match v with
  | VDict d => Ok (map fst d)
  | _ => Raise AttributeError
  end.

(** [initialize_dataloader].  [self.get_imagenet_loaders] is whatever the
    class of [self] binds the name to; [device] is [self.device] and
    [model_name] is [self.model_name], the key under which
    [initialize_model] found the model. *)
Definition initialize_dataloader (I : Imports)
  (self_get_imagenet_loaders : LoaderFunc) (t : Trainer) (device : Device)
  (model_name : string) : Outcome (option Loader * option Loader) :=
  lift (check_key (config t) "optimizer_params");;
  lift (check_key (config t) "dataloader_workers");;
  optimizer_params ← lift (getitem (config t) "optimizer_params");
  keys ← lift (keys_of optimizer_params);
  lift (py_assert (bool_decide ("train_batch_size" ∈ keys)));;
  lift (py_assert (bool_decide ("val_batch_size" ∈ keys)));;
  let image_dir := dict_get (config t) "image_dir" (IMAGENET_DATA_DIR I) in
  train_batch_size ← lift (subscript optimizer_params "train_batch_size");
  val_batch_size ← lift (subscript optimizer_params "val_batch_size");
  num_workers ← lift (getitem (config t) "dataloader_workers");
  let params : gmap string ParamValue :=
    <["num_workers" := PVal num_workers]>
      (<["val_batch_size" := PVal val_batch_size]>
         (<["train_batch_size" := PVal train_batch_size]>
            (<["image_dir" := PVal image_dir]>
               (<["dataset_class" := PClass (ImageNetSupervised I)]> ∅)))) in
  of_model ← lift (item (MODEL_TRANSFORMS I) model_name);
  train_transforms ← lift (item of_model "train");
  of_model' ← lift (item (MODEL_TRANSFORMS I) model_name);
  val_transforms ← lift (item of_model' "val");
  let my_transforms : gmap string (option Transform) :=
    <["val" := Some val_transforms]>
      (<["train" := Some train_transforms]> ∅) in
  '(train_loader, val_loader, _) ←
    wrap_dataloaders self_get_imagenet_loaders params my_transforms device
      (rank t) (world_size t);
  Returns (train_loader, val_loader).

(** The per-worker batch size of a loader [wrap_dataloaders] returned. *)
Definition loader_batch_size (l : Loader) : option ParamValue :=
  match l with
  | Plain d => Some (dl_batch_size d)
  | MpDeviceLoader (Some d) _ => Some (dl_batch_size d)
  | MpDeviceLoader None _ => None
  end.

(** A sample: the five parameters, both transforms, two workers. *)
Definition sample_imports : Imports :=
  mkImports (fun _ => None)
    {["resnet18" := {["train" := ["RandomResizedCrop"; "ToTensor"];
                      "val" := ["CenterCrop"; "ToTensor"]]}]}
    (VStr "/data/imagenet")
    (mkClass "ImageNetSupervised" true true).

Definition sample_params : gmap string ParamValue :=
  list_to_map
    [("dataset_class", PClass (ImageNetSupervised sample_imports));
     ("image_dir", PVal (VStr "/data/imagenet"));
     ("train_batch_size", PVal (VInt 8));
     ("val_batch_size", PVal (VInt 6));
     ("num_workers", PVal (VInt 4))].

Definition sample_transforms (train : option Transform)
  : gmap string (option Transform) :=
  list_to_map [("train", train); ("val", Some ["CenterCrop"; "ToTensor"])].

(** The sampler whose epoch [train] sets before each epoch:
    [self.train_loader._loader.sampler] with a TPU and
    [self.train_loader.sampler] without.  [None] has neither attribute, a
    [DataLoader] has no [_loader] and a device loader has no [sampler]. *)
Definition epoch_sampler (use_tpu : bool) (train_loader : option Loader)
  : Result Sampler :=
  match train_loader with
  | None => Raise AttributeError
  | Some (Plain l) =>
      if use_tpu then Raise AttributeError else Ok (dl_sampler l)
  | Some (MpDeviceLoader inner _) =>
      if use_tpu then
        match inner with
        | Some l => Ok (dl_sampler l)
        | None => Raise AttributeError
        end
      else Raise AttributeError
  end.

(** ** Basic facts *)

#[global] Arguments curr_state_of : simpl never.
#[global] Arguments partial_record : simpl never.
#[global] Arguments phase_averages : simpl never.
#[global] Arguments check_best_accuracy : simpl never.
#[global] Arguments cadence_hit : simpl never.
#[global] Arguments _save_to_db : simpl never.
#[global] Arguments has_key : simpl never.

Lemma bind_Ok {A B : Type} (a : A) (f : A → Result B) : (Ok a ≫= f) = f a.
Proof. reflexivity. Qed.

Lemma bind_Raise {A B : Type} (e : Error) (f : A → Result B) :
  (Raise e ≫= f) = Raise e.
Proof. reflexivity. Qed.

Lemma bind_inv {A B : Type} (m : Result A) (f : A → Result B) (b : B) :
  m ≫= f = Ok b → ∃ a, m = Ok a ∧ f a = Ok b.
Proof. destruct m as [a|e]; [eauto | discriminate]. Qed.

Lemma py_assert_inv (b : bool) (u : unit) : py_assert b = Ok u → b = true.
Proof. destruct b; [reflexivity | discriminate]. Qed.

Lemma getitem_Some (d : gmap string Value) (k : string) (v : Value) :
  d !! k = Some v → getitem d k = Ok v.
Proof. intros H. unfold getitem. rewrite H. reflexivity. Qed.

Lemma has_key_Some (d : gmap string Value) (k : string) (v : Value) :
  d !! k = Some v → has_key d k = true.
Proof. intros H. unfold has_key. rewrite H. reflexivity. Qed.

Lemma has_key_None (d : gmap string Value) (k : string) :
  d !! k = None → has_key d k = false.
Proof. intros H. unfold has_key. rewrite H. reflexivity. Qed.

Lemma gate_iff (F N e : Z) :
  gate F N e = true ↔ e mod F = 0 ∨ e = N - 1.
Proof.
  unfold gate. rewrite orb_true_iff, !Z.eqb_eq. split; intros [H|H]; auto.
  - right. lia.
  - right. lia.
Qed.

Lemma cadence_hit_gate (F N : Z) (t : Trainer) :
  configured F N t → cadence_hit t = Ok (gate F N (current_epoch t)).
Proof.
  intros (HF & HN & _ & Hnz & _). unfold cadence_hit, gate.
  rewrite (getitem_Some _ _ _ HF). cbn.
  destruct (F =? 0) eqn:E0; [apply Z.eqb_eq in E0; contradiction|].
  cbn. destruct (current_epoch t mod F =? 0); cbn; [reflexivity|].
  rewrite (getitem_Some _ _ _ HN). reflexivity.
Qed.

Example sample_construction (F N : Z) :
  SupervisedImageNetTrainer_init (sample_env ∅) (sample_config F N VNone)
  = Ok (sample_trainer F N).
Proof. reflexivity. Qed.

(** Without TPU a worker of rank other than 0 does not get past the
    progress message of its first training batch. *)
Example sample_rank1_first_batch :
  train_one_epoch sample_engine (sample_trainer_rank1 3 10)
  = Raise UnboundLocalError.
Proof. reflexivity. Qed.

Example sample_epoch_loss :
  (fst (fst (phase_averages false 2 0 (train_batches sample_engine 0)))
   == 7 # 2)%Q.
Proof. reflexivity. Qed.

(** ** What each phase does when it returns *)

Ltac bind_step H :=
  let a := fresh "a" in
  let Ha := fresh "Ha" in
  apply bind_inv in H as (a & Ha & H).

Lemma getattr_inv {A : Type} (o : option A) (x : A) :
  getattr o = Ok x → o = Some x.
Proof. destruct o; intros H; inversion H; reflexivity. Qed.

Lemma gather_ext (n : nat) (f g : nat → Q) :
  (∀ w, f w = g w) → gather n f = gather n g.
Proof. intros H. unfold gather. apply map_ext. exact H. Qed.

Lemma averages_of_run_meters (tpu : bool) (world r : nat) (bs : list Batch) :
  averages_of tpu world r bs (run_meters tpu world r bs)
  = if tpu then
      (mesh_reduce
         (fun w => am_avg (m_losses (run_meters tpu world w bs))) world,
       mesh_reduce
         (fun w => am_avg (m_top1 (run_meters tpu world w bs))) world,
       mesh_reduce
         (fun w => am_avg (m_top5 (run_meters tpu world w bs))) world)
    else
      (am_avg (m_losses (run_meters tpu world r bs)),
       am_avg (m_top1 (run_meters tpu world r bs)),
       am_avg (m_top5 (run_meters tpu world r bs))).
Proof.
  unfold averages_of. destruct tpu; [|reflexivity].
  unfold mesh_reduce.
  assert (Hw : ∀ w, (if Nat.eqb w r then run_meters true world r bs
                     else run_meters true world w bs)
                    = run_meters true world w bs).
  { intros w. destruct (Nat.eqb w r) eqn:Ew; [|reflexivity].
    apply Nat.eqb_eq in Ew. subst w. reflexivity. }
  rewrite (gather_ext world _
             (fun w => am_avg (m_losses (run_meters true world w bs))))
    by (intros w; cbv beta; rewrite Hw; reflexivity).
  rewrite (gather_ext world
             (fun w => am_avg (m_top1 (if Nat.eqb w r
                                       then run_meters true world r bs
                                       else run_meters true world w bs)))
             (fun w => am_avg (m_top1 (run_meters true world w bs))))
    by (intros w; cbv beta; rewrite Hw; reflexivity).
  rewrite (gather_ext world
             (fun w => am_avg (m_top5 (if Nat.eqb w r
                                       then run_meters true world r bs
                                       else run_meters true world w bs)))
             (fun w => am_avg (m_top5 (run_meters true world w bs))))
    by (intros w; cbv beta; rewrite Hw; reflexivity).
  reflexivity.
Qed.

Lemma iter_shift {A : Type} (f : A → A) (n : nat) (x : A) :
  Nat.iter n f (f x) = f (Nat.iter n f x).
Proof. rewrite <- Nat.iter_succ_r. reflexivity. Qed.

(** When the batch loop returns, it returns the state dicts after one
    optimizer step per batch and the meters folded over the batches. *)
Lemma train_steps_inv (E : Engine) (t : Trainer) (nb : Z) (bs : list Batch) :
  ∀ (i : Z) (s : StateDict * StateDict) (ms : Meters)
    (out : StateDict * StateDict * Meters),
    train_steps E t nb i bs s ms = Ok out →
    out = (Nat.iter (length bs) (optimizer_step E) s,
           fold_left (meters_step (use_tpu t) (world_size t) (rank t)) bs ms).
Proof.
  induction bs as [|b bs IH]; intros i s ms out H.
  - inversion H; reflexivity.
  - cbn [train_steps] in H. cbv zeta in H.
    apply bind_inv in H as (_ & _ & H).
    rewrite (IH _ _ _ _ H). cbn [length fold_left].
    rewrite iter_shift. reflexivity.
Qed.

(** A worker that can log goes through the batch loop. *)
Lemma train_steps_ok (E : Engine) (t : Trainer) (nb : Z) (bs : list Batch) :
  can_log t →
  ∀ (i : Z) (s : StateDict * StateDict) (ms : Meters),
    train_steps E t nb i bs s ms
    = Ok (Nat.iter (length bs) (optimizer_step E) s,
          fold_left (meters_step (use_tpu t) (world_size t) (rank t)) bs ms).
Proof.
  intros Hlog. induction bs as [|b bs IH]; intros i s ms; [reflexivity|].
  cbn [train_steps]. cbv zeta.
  assert (Hl : log_step t (current_epoch t * nb + i) = Ok tt).
  { unfold log_step. destruct Hlog as [Htpu | Hrk].
    - rewrite Htpu. cbn [negb andb].
      destruct ((current_epoch t * nb + i) mod 10 =? 0); reflexivity.
    - rewrite Hrk. destruct (use_tpu t); cbn [negb andb Nat.eqb];
        [destruct ((current_epoch t * nb + i) mod 10 =? 0)|]; reflexivity. }
  rewrite Hl, bind_Ok, IH. cbn [length fold_left].
  rewrite iter_shift. reflexivity.
Qed.

Lemma train_one_epoch_inv (E : Engine) (t t' : Trainer) :
  train_one_epoch E t = Ok t' →
  ∃ r l a1 a5 s,
    results t = Some r ∧
    phase_averages (use_tpu t) (world_size t) (rank t)
      (train_batches E (current_epoch t)) = (l, a1, a5) ∧
    t' = set_results (Some (append_train l a1 a5 r)) (set_states s t).
Proof.
  unfold train_one_epoch. cbv zeta. intros H.
  apply bind_inv in H as (_ & _ & H).
  apply bind_inv in H as ([s ms] & Hsteps & H).
  apply train_steps_inv in Hsteps. inversion Hsteps; subst s ms.
  fold (run_meters (use_tpu t) (world_size t) (rank t)
          (train_batches E (current_epoch t))) in H.
  fold (phase_averages (use_tpu t) (world_size t) (rank t)
          (train_batches E (current_epoch t))) in H.
  destruct (phase_averages _ _ _ _) as [[l a1] a5].
  apply bind_inv in H as (r & Hr & H). apply getattr_inv in Hr.
  cbn [results set_states] in Hr.
  inversion H; subst. eauto 10.
Qed.

Lemma validate_inv (E : Engine) (t t' : Trainer) :
  validate E t = Ok t' →
  ∃ hit, cadence_hit t = Ok hit ∧
    if hit : bool then
      ∃ r b l a1 a5,
        results t = Some r ∧ best_acc t = Some b ∧
        phase_averages (use_tpu t) (world_size t) (rank t)
          (val_batches E (current_epoch t)) = (l, a1, a5) ∧
        t' = add_validated (current_epoch t)
               (set_best (Some (fst (check_best_accuracy a1 b)))
                  (snd (check_best_accuracy a1 b))
                  (set_results (Some (append_val l a1 a5 r)) t))
    else t' = t.
Proof.
  unfold validate. intros H. bind_step H. exists a. split; [exact Ha|].
  destruct a.
  - destruct (phase_averages _ _ _ _) as [[l a1] a5].
    bind_step H. apply getattr_inv in Ha0.
    bind_step H. apply getattr_inv in Ha1. cbn in Ha1.
    cbn in H. inversion H; subst. eauto 10.
  - inversion H; reflexivity.
Qed.

Lemma _save_to_db_inv (t t' : Trainer) (cs : gmap string Value)
  (keys : list string) :
  _save_to_db t cs keys = Ok t' →
  ∃ record, db_record t cs keys = Ok record ∧
    t' = match database t with
         | Some db =>
             if Nat.eqb (rank t) 0
             then set_database (Some (mongo_save db record)) t
             else t
         | None => t
         end.
Proof.
  unfold _save_to_db. intros H. bind_step H. exists a. split; [exact Ha|].
  destruct (database t); [destruct (Nat.eqb (rank t) 0)|];
    inversion H; reflexivity.
Qed.

Lemma save_checkpoint_inv (t t' : Trainer) :
  save_checkpoint t = Ok t' →
  ∃ r b hit t1,
    results t = Some r ∧ best_acc t = Some b ∧ cadence_hit t = Ok hit ∧
    (if hit : bool
     then _save_to_db t
            (curr_state_of (current_epoch t) (model t) (optimizer t) r b)
            save_keys_db = Ok t1
     else t1 = t) ∧
    t' = add_snapshot
           (mkSaveCall
              (curr_state_of (current_epoch t) (model t) (optimizer t) r b)
              (is_best t1)
              (if hit then Some (current_epoch t) else None)
              (rank t1) (use_tpu t1)) t1.
Proof.
  unfold save_checkpoint. intros H.
  bind_step H. bind_step H. bind_step H. apply getattr_inv in Ha1.
  bind_step H. apply getattr_inv in Ha2.
  bind_step H. bind_step H. destruct a4 as [save_epoch t1].
  inversion H; subst. exists a1, a2, a3, t1.
  repeat split; try assumption; destruct a3.
  - bind_step Ha4. inversion Ha4; subst. exact Ha5.
  - inversion Ha4; reflexivity.
  - bind_step Ha4. inversion Ha4; subst. reflexivity.
  - inversion Ha4; reflexivity.
Qed.

Lemma run_epoch_inv (E : Engine) (i : Z) (t t' : Trainer) :
  run_epoch E i t = Ok t' →
  ∃ t1 t2,
    train_one_epoch E (set_current_epoch i t) = Ok t1 ∧
    validate E t1 = Ok t2 ∧
    save_checkpoint t2 = Ok t'.
Proof.
  unfold run_epoch. intros H. bind_step H. bind_step H. eauto.
Qed.

(** ** One iteration of the loop, computed *)

Lemma db_record_curr_state (t : Trainer) (x : Value) (e : Z)
  (m o : StateDict) (r : Results) (b : Q) :
  config t !! "exp_id" = Some x →
  db_record t (curr_state_of e m o r b) save_keys_db
  = Ok (partial_record x e r b).
Proof.
  intros Hx. unfold db_record. rewrite (getitem_Some _ _ _ Hx).
  reflexivity.
Qed.


Ltac fields :=
  cbn [config use_tpu rank world_size gpu_ids model optimizer database
       current_epoch results best_acc is_best snapshots validated
       add_snapshot add_validated set_best set_results set_states
       set_current_epoch set_database set_config].

Lemma train_one_epoch_ok (E : Engine) (F N : Z) (t : Trainer) (r : Results) :
  configured F N t →
  results t = Some r →
  train_one_epoch E t
  = Ok (let pa := phase_averages (use_tpu t) (world_size t) (rank t)
                    (train_batches E (current_epoch t)) in
        set_results (Some (append_train (fst (fst pa)) (snd (fst pa)) (snd pa) r))
          (set_states
             (Nat.iter (length (train_batches E (current_epoch t)))
                (optimizer_step E) (model t, optimizer t)) t)).
Proof.
  intros (_ & _ & _ & _ & (params & B & Hp & HB) & Hws & Hlog) Hr.
  unfold train_one_epoch, train_batch_size. cbv zeta.
  rewrite (getitem_Some _ _ _ Hp), bind_Ok, HB, bind_Ok. cbn [as_int].
  rewrite bind_Ok.
  destruct (Nat.eqb (world_size t) 0) eqn:Ew;
    [apply Nat.eqb_eq in Ew; contradiction|].
  rewrite bind_Ok.
  rewrite (train_steps_ok E t _ _ Hlog), bind_Ok.
  fold (run_meters (use_tpu t) (world_size t) (rank t)
          (train_batches E (current_epoch t))).
  fold (phase_averages (use_tpu t) (world_size t) (rank t)
          (train_batches E (current_epoch t))).
  destruct (phase_averages _ _ _ _) as [[l a1] a5].
  cbn [results set_states]. rewrite Hr. reflexivity.
Qed.

Lemma validate_ok (E : Engine) (t : Trainer) (hit : bool) (r : Results)
  (b : Q) :
  cadence_hit t = Ok hit → results t = Some r → best_acc t = Some b →
  validate E t
  = Ok (if hit then
          let pa := phase_averages (use_tpu t) (world_size t) (rank t)
                      (val_batches E (current_epoch t)) in
          add_validated (current_epoch t)
            (set_best (Some (fst (check_best_accuracy (snd (fst pa)) b)))
               (snd (check_best_accuracy (snd (fst pa)) b))
               (set_results
                  (Some (append_val (fst (fst pa)) (snd (fst pa)) (snd pa) r))
                  t))
        else t).
Proof.
  intros Hh Hr Hb. unfold validate. rewrite Hh, bind_Ok.
  destruct hit; [|reflexivity].
  destruct (phase_averages _ _ _ _) as [[l a1] a5].
  cbn iota beta. rewrite Hr. cbn [getattr]. rewrite bind_Ok.
  cbn [best_acc set_results]. rewrite Hb. cbn [getattr]. rewrite bind_Ok.
  cbn [fst snd]. destruct (check_best_accuracy a1 b) as [nb fl]. reflexivity.
Qed.

Lemma _save_to_db_ok (t : Trainer) (x : Value) (e : Z) (m o : StateDict)
  (r : Results) (b : Q) :
  config t !! "exp_id" = Some x →
  _save_to_db t (curr_state_of e m o r b) save_keys_db
  = Ok (match database t with
        | Some db =>
            if Nat.eqb (rank t) 0
            then set_database (Some (mongo_save db (partial_record x e r b))) t
            else t
        | None => t
        end).
Proof.
  intros Hx. unfold _save_to_db.
  rewrite (db_record_curr_state t x e m o r b Hx), bind_Ok.
  destruct (database t); [destruct (Nat.eqb (rank t) 0)|]; reflexivity.
Qed.

Lemma save_checkpoint_ok (t : Trainer) (hit : bool) (x : Value)
  (r : Results) (b : Q) :
  cadence_hit t = Ok hit → config t !! "exp_id" = Some x →
  has_key (config t) "save_freq" = true →
  results t = Some r → best_acc t = Some b →
  save_checkpoint t
  = Ok (let cs := curr_state_of (current_epoch t) (model t) (optimizer t) r b in
        let t1 :=
          if hit then
            match database t with
            | Some db =>
                if Nat.eqb (rank t) 0
                then set_database
                       (Some (mongo_save db
                                (partial_record x (current_epoch t) r b))) t
                else t
            | None => t
            end
          else t in
        add_snapshot
          (mkSaveCall cs (is_best t)
             (if hit then Some (current_epoch t) else None) (rank t)
             (use_tpu t)) t1).
Proof.
  intros Hh Hx Hsf Hr Hb. unfold save_checkpoint.
  rewrite Hr, Hb, Hsf, Hh. cbn [hasattr py_assert getattr].
  rewrite !bind_Ok.
  destruct hit.
  - rewrite (_save_to_db_ok t x _ _ _ r b Hx), !bind_Ok.
    destruct (database t); [destruct (Nat.eqb (rank t) 0)|]; reflexivity.
  - rewrite !bind_Ok. reflexivity.
Qed.

Lemma run_epoch_step (E : Engine) (F N i : Z) (t : Trainer) (x : Value)
  (r : Results) (b : Q) :
  configured F N t →
  config t !! "exp_id" = Some x →
  results t = Some r →
  best_acc t = Some b →
  run_epoch E i t
  = Ok (after_epoch F N i x t r b
          (Nat.iter (length (train_batches E i)) (optimizer_step E)
             (model t, optimizer t))
          (phase_averages (use_tpu t) (world_size t) (rank t)
             (train_batches E i))
          (phase_averages (use_tpu t) (world_size t) (rank t)
             (val_batches E i))).
Proof.
  intros Hc Hx Hr Hb.
  assert (Hsf : has_key (config t) "save_freq" = true).
  { destruct Hc as (HF & _). exact (has_key_Some _ _ _ HF). }
  destruct t as [cfg tpu rk ws ids m o db ce res best ib snaps vals].
  cbn [config] in Hx, Hsf. cbn [results] in Hr. cbn [best_acc] in Hb.
  subst res best.
  unfold run_epoch.
  rewrite (train_one_epoch_ok E F N _ r) by (exact Hc || reflexivity).
  rewrite bind_Ok.
  cbv zeta.
  set (t1 := set_results _ _).
  assert (Hh1 : cadence_hit t1 = Ok (gate F N i)).
  { apply (cadence_hit_gate F N t1). exact Hc. }
  rewrite (validate_ok E t1 (gate F N i) _ b Hh1 eq_refl eq_refl), bind_Ok.
  unfold after_epoch. cbv zeta.
  destruct (gate F N i) eqn:Eg.
  - set (t2 := add_validated _ _).
    assert (Hh2 : cadence_hit t2 = Ok true).
    { rewrite <- Eg. apply (cadence_hit_gate F N t2). exact Hc. }
    rewrite (save_checkpoint_ok t2 true x _ _ Hh2 Hx Hsf eq_refl eq_refl).
    subst t2 t1. fields.
    destruct db; [destruct (Nat.eqb rk 0)|]; reflexivity.
  - assert (Hh2 : cadence_hit t1 = Ok false) by exact Hh1.
    rewrite (save_checkpoint_ok t1 false x _ _ Hh2 Hx Hsf eq_refl eq_refl).
    subst t1. fields.
    destruct db; reflexivity.
Qed.

(** ** The loop rule *)

Lemma after_epoch_steady (F N i : Z) (x : Value) (t : Trainer) (r : Results)
  (b : Q) (s : StateDict * StateDict) (tr va : Q * Q * Q) :
  configured F N t →
  configured F N (after_epoch F N i x t r b s tr va) ∧
  ready (after_epoch F N i x t r b s tr va).
Proof.
  intros Hc. split; [exact Hc|]. split; cbn; eauto.
Qed.

(** An invariant that holds before the first iteration and that every
    iteration carries over holds after any number of iterations, and the
    loop does not raise. *)
Lemma train_loop_rule (E : Engine) (F N i0 : Z) (I : nat → Trainer → Prop) :
  (∀ k t, I k t → configured F N t ∧ ready t) →
  (∀ k t x r b s tr va,
     I k t → config t !! "exp_id" = Some x → results t = Some r →
     best_acc t = Some b →
     I (S k) (after_epoch F N (i0 + Z.of_nat k) x t r b s tr va)) →
  ∀ n k t, I k t →
    ∃ t', train_loop E n (i0 + Z.of_nat k) t = Ok t' ∧ I (k + n)%nat t'.
Proof.
  intros Hbase Hstep. induction n as [|n IH]; intros k t HI.
  - exists t. split; [reflexivity|]. rewrite Nat.add_0_r. exact HI.
  - destruct (Hbase k t HI) as [Hc [[r Hr] [b Hb]]].
    pose proof Hc as (_ & _ & [x Hx] & _).
    cbn [train_loop].
    rewrite (run_epoch_step E F N _ t x r b Hc Hx Hr Hb). rewrite bind_Ok.
    specialize (Hstep k t x r b
      (Nat.iter (length (train_batches E (i0 + Z.of_nat k)))
         (optimizer_step E) (model t, optimizer t))
      (phase_averages (use_tpu t) (world_size t) (rank t)
         (train_batches E (i0 + Z.of_nat k)))
      (phase_averages (use_tpu t) (world_size t) (rank t)
         (val_batches E (i0 + Z.of_nat k))) HI Hx Hr Hb).
    destruct (IH (S k) _ Hstep) as [t' [Hrun HI']].
    exists t'. split.
    + replace (i0 + Z.of_nat k + 1) with (i0 + Z.of_nat (S k)) by lia.
      exact Hrun.
    + replace (k + S n)%nat with (S k + n)%nat by lia. exact HI'.
Qed.

Lemma filter_snoc_gate (F N e : Z) (l : list Z) :
  filter (λ e, e mod F = 0 ∨ e = N - 1) (l ++ [e])
  = filter (λ e, e mod F = 0 ∨ e = N - 1) l
    ++ (if gate F N e then [e] else []).
Proof.
  rewrite filter_app. f_equal.
  rewrite filter_cons, filter_nil.
  destruct (gate F N e) eqn:Eg.
  - apply gate_iff in Eg. rewrite decide_True by exact Eg. reflexivity.
  - rewrite decide_False; [reflexivity|].
    intros H. apply gate_iff in H. congruence.
Qed.

Lemma validated_loop (E : Engine) (F N : Z) (t : Trainer) (n : nat) :
  configured F N t → ready t →
  ∃ t', train_loop E n (current_epoch t) t = Ok t' ∧
    validated t'
    = validated t
      ++ filter (λ e, e mod F = 0 ∨ e = N - 1)
           (seqZ (current_epoch t) (Z.of_nat n)).
Proof.
  intros Hc Hr.
  pose (I := fun (k : nat) (t' : Trainer) =>
    configured F N t' ∧ ready t' ∧
    validated t'
    = validated t
      ++ filter (λ e, e mod F = 0 ∨ e = N - 1)
           (seqZ (current_epoch t) (Z.of_nat k))).
  destruct (train_loop_rule E F N (current_epoch t) I) with (n := n)
    (k := O) (t := t) as [t' [Hrun (_ & _ & Hv)]].
  - intros k t1 (H1 & H2 & _). split; assumption.
  - intros k t1 x r b s tr va (H1 & H2 & H3) Hx Hr1 Hb1.
    destruct (after_epoch_steady F N (current_epoch t + Z.of_nat k) x t1 r b
                s tr va H1) as [H4 H5].
    split; [exact H4|]. split; [exact H5|].
    rewrite seqZ_S, filter_snoc_gate, app_assoc, <- H3.
    cbn [validated after_epoch].
    destruct (gate F N (current_epoch t + Z.of_nat k));
      [reflexivity | rewrite app_nil_r; reflexivity].
  - split; [exact Hc|]. split; [exact Hr|].
    rewrite seqZ_nil by reflexivity. rewrite filter_nil, app_nil_r.
    reflexivity.
  - exists t'. split; [|exact Hv].
    rewrite Z.add_0_r in Hrun. exact Hrun.
Qed.

(** ** Validation gating *)

(** C1.  With [save_freq = F] (an integer other than zero) and
    [num_epochs = N], the body of [validate] runs at epoch [e] exactly
    when [e mod F = 0] or [e = N - 1]; over the loop, the epochs in which
    it ran are exactly those epochs, in order.  For [N = 10] and [F = 3]
    these are the epochs 0, 3, 6 and 9 (see the instance after this
    theorem). *)
Theorem validation_gating (E : Engine) (F N : Z) (t : Trainer) :
  configured F N t → ready t →
  (∃ t', validate E t = Ok t' ∧
     (validated t' = validated t ++ [current_epoch t]
      ↔ current_epoch t mod F = 0 ∨ current_epoch t = N - 1) ∧
     (t' = t ↔ ¬ (current_epoch t mod F = 0 ∨ current_epoch t = N - 1)))
  ∧
  (∀ n : nat, ∃ t', train_loop E n (current_epoch t) t = Ok t' ∧
     validated t'
     = validated t
       ++ filter (λ e, e mod F = 0 ∨ e = N - 1)
            (seqZ (current_epoch t) (Z.of_nat n))).
Proof.
  intros Hc Hr. split.
  - destruct Hr as [[r Hr] [b Hb]].
    unfold validate. rewrite (cadence_hit_gate F N t Hc). cbn.
    destruct (gate F N (current_epoch t)) eqn:Eg.
    + destruct (phase_averages _ _ _ _) as [[l a1] a5].
      rewrite Hr. cbn. rewrite Hb. cbn.
      eexists. split; [reflexivity|]. cbn. apply gate_iff in Eg.
      split; [tauto|]. split; [|tauto].
      intros Heq. apply (f_equal validated) in Heq. cbn in Heq.
      apply (f_equal length) in Heq. rewrite length_app in Heq.
      cbn in Heq. lia.
    + exists t. split; [reflexivity|].
      assert (Hn : ¬ (current_epoch t mod F = 0 ∨ current_epoch t = N - 1)).
      { intros H. apply gate_iff in H. congruence. }
      split; [|tauto]. split; [|tauto].
      intros Heq. apply (f_equal length) in Heq. rewrite length_app in Heq.
      cbn in Heq. lia.
  - intros n. apply validated_loop; assumption.
Qed.

Lemma sample_configured (F N : Z) :
  F ≠ 0 → configured F N (sample_trainer F N).
Proof.
  intros HF. unfold configured.
  split; [reflexivity|]. split; [reflexivity|].
  split; [exists (VStr "exp0"); reflexivity|]. split; [exact HF|].
  split; [eexists; exists 8; split; reflexivity|].
  split; [discriminate | right; reflexivity].
Qed.

Lemma sample_ready (F N : Z) : ready (sample_trainer F N).
Proof. split; eexists; reflexivity. Qed.

(** C1 at ten epochs with a cadence of three: a job with [num_epochs = 10] and
    [save_freq = 3] validates at the epochs 0, 3, 6, 9 and at no other. *)
Lemma validation_gating_witness :
  ∃ t', train_loop sample_engine 10 0 (sample_trainer 3 10) = Ok t' ∧
        validated t' = [0; 3; 6; 9].
Proof.
  destruct (validation_gating sample_engine 3 10 (sample_trainer 3 10))
    as [_ H].
  - apply sample_configured. discriminate.
  - apply sample_ready.
  - destruct (H 10%nat) as [t' [Hrun Hv]].
    exists t'. split; [exact Hrun|]. rewrite Hv. reflexivity.
Defined.

(** ** The best value *)

Lemma Qgtb_true (x y : Q) : Qgtb x y = true ↔ (y < x)%Q.
Proof.
  unfold Qgtb. rewrite negb_true_iff. split.
  - intros H. apply Qnot_le_lt. intros Hle.
    apply Qle_bool_iff in Hle. congruence.
  - intros H. destruct (Qle_bool x y) eqn:Hb; [|reflexivity].
    apply Qle_bool_iff in Hb. exfalso. exact (Qlt_not_le _ _ H Hb).
Qed.

Lemma Qgtb_false (x y : Q) : Qgtb x y = false ↔ (x <= y)%Q.
Proof.
  unfold Qgtb. rewrite negb_false_iff. apply Qle_bool_iff.
Qed.

Lemma run_epoch_best (E : Engine) (i : Z) (t t' : Trainer) (b : Q) :
  best_acc t = Some b → run_epoch E i t = Ok t' →
  ∃ b', best_acc t' = Some b' ∧ (b <= b')%Q.
Proof.
  intros Hb H.
  apply run_epoch_inv in H as (t1 & t2 & H1 & H2 & H3).
  apply train_one_epoch_inv in H1 as (r & l & a1 & a5 & s & _ & _ & ->).
  apply validate_inv in H2 as (hit & _ & H2).
  apply save_checkpoint_inv in H3 as (r3 & b3 & hit3 & t3 & _ & Hb3 & _ & Hdb & ->).
  assert (Hsame : best_acc t3 = best_acc t2).
  { destruct hit3; [|subst; reflexivity].
    apply _save_to_db_inv in Hdb as (rec & _ & ->).
    destruct (database t2); [destruct (Nat.eqb (rank t2) 0)|]; reflexivity. }
  cbn. rewrite Hsame. destruct hit.
  - destruct H2 as (r2 & b2 & vl & va1 & va5 & _ & Hb2 & _ & ->).
    cbn in Hb2. rewrite Hb in Hb2. inversion Hb2; subst b2.
    cbn. eexists. split; [reflexivity|]. apply Q.le_max_r.
  - subst t2. cbn. exists b. split; [exact Hb|]. apply Qle_refl.
Qed.

Lemma train_loop_best (E : Engine) (n : nat) :
  ∀ (i : Z) (t t' : Trainer) (b : Q),
    best_acc t = Some b → train_loop E n i t = Ok t' →
    ∃ b', best_acc t' = Some b' ∧ (b <= b')%Q.
Proof.
  induction n as [|n IH]; intros i t t' b Hb H.
  - inversion H; subst. exists b. split; [exact Hb|]. apply Qle_refl.
  - cbn [train_loop] in H. bind_step H.
    destruct (run_epoch_best E i t a b Hb Ha) as (b1 & Hb1 & Hle1).
    destruct (IH _ _ _ _ Hb1 H) as (b' & Hb' & Hle').
    exists b'. split; [exact Hb'|]. exact (Qle_trans _ _ _ Hle1 Hle').
Qed.



(** ** Reduction of the per-batch metrics *)

Lemma train_one_epoch_entry (E : Engine) (t t' : Trainer) :
  train_one_epoch E t = Ok t' →
  ∃ r, results t = Some r ∧
    results t'
    = Some (append_train
              (fst (fst (phase_averages (use_tpu t) (world_size t) (rank t)
                           (train_batches E (current_epoch t)))))
              (snd (fst (phase_averages (use_tpu t) (world_size t) (rank t)
                           (train_batches E (current_epoch t)))))
              (snd (phase_averages (use_tpu t) (world_size t) (rank t)
                      (train_batches E (current_epoch t))))
              r).
Proof.
  intros H. apply train_one_epoch_inv in H
    as (r & l & a1 & a5 & s & Hr & Hpa & ->).
  exists r. split; [exact Hr|]. rewrite Hpa. reflexivity.
Qed.

(** C4, as stated, fails on a mesh: with two workers whose losses on a
    batch are 1 and 2, the value the worker 0 folds into its running
    average on TPU is its own 1, not the cluster-wide 3/2. *)
Lemma per_batch_reduction_counterexample :
  ¬ (fst (fst (rep_values true 2 0 (sample_batch 1 2)))
     == reduce_metric (fun w => sh_loss (sample_batch 1 2 w)) 2)%Q.
Proof. vm_compute. discriminate. Qed.

(** C4, amended.  Without TPU every batch value folded into the running
    averages is the [reduce_metric] value, the same on every worker.  On
    TPU the value folded is the worker's own, and the cluster-wide view is
    taken once per epoch: the averages the epoch appends to the history
    are the [mesh_reduce] of the workers' running averages, the same on
    every worker. *)
Theorem metric_reduction_by_topology (world : nat) (r : nat) (b : Batch)
  (bs : list Batch) :
  rep_values false world r b
  = (reduce_metric (fun w => sh_loss (b w)) world,
     reduce_metric (fun w => sh_acc1 (b w)) world,
     reduce_metric (fun w => sh_acc5 (b w)) world) ∧
  rep_values true world r b = (sh_loss (b r), sh_acc1 (b r), sh_acc5 (b r)) ∧
  run_meters true world r (bs ++ [b])
  = mkMeters
      (meter_update (m_losses (run_meters true world r bs)) (sh_loss (b r))
         (sh_size (b r)))
      (meter_update (m_top1 (run_meters true world r bs)) (sh_acc1 (b r))
         (sh_size (b r)))
      (meter_update (m_top5 (run_meters true world r bs)) (sh_acc5 (b r))
         (sh_size (b r))) ∧
  run_meters false world r (bs ++ [b])
  = mkMeters
      (meter_update (m_losses (run_meters false world r bs))
         (reduce_metric (fun w => sh_loss (b w)) world) (sh_size (b r)))
      (meter_update (m_top1 (run_meters false world r bs))
         (reduce_metric (fun w => sh_acc1 (b w)) world) (sh_size (b r)))
      (meter_update (m_top5 (run_meters false world r bs))
         (reduce_metric (fun w => sh_acc5 (b w)) world) (sh_size (b r))) ∧
  phase_averages true world r bs
  = (mesh_reduce
       (fun w => am_avg (m_losses (run_meters true world w bs))) world,
     mesh_reduce
       (fun w => am_avg (m_top1 (run_meters true world w bs))) world,
     mesh_reduce
       (fun w => am_avg (m_top5 (run_meters true world w bs))) world) ∧
  (∀ r', phase_averages true world r bs = phase_averages true world r' bs) ∧
  (∀ r', rep_values false world r b = rep_values false world r' b) ∧
  (∀ (E : Engine) (t t' : Trainer),
     train_one_epoch E t = Ok t' →
     ∃ h, results t = Some h ∧
       results t'
       = Some (append_train
                 (fst (fst (phase_averages (use_tpu t) (world_size t) (rank t)
                              (train_batches E (current_epoch t)))))
                 (snd (fst (phase_averages (use_tpu t) (world_size t) (rank t)
                              (train_batches E (current_epoch t)))))
                 (snd (phase_averages (use_tpu t) (world_size t) (rank t)
                         (train_batches E (current_epoch t))))
                 h)).
Proof.
  split; [reflexivity|]. split; [reflexivity|].
  split; [unfold run_meters; rewrite fold_left_app; reflexivity|].
  split; [unfold run_meters; rewrite fold_left_app; reflexivity|].
  split; [exact (averages_of_run_meters true world r bs)|].
  split.
  { intros r'. unfold phase_averages.
    rewrite !averages_of_run_meters. reflexivity. }
  split; [reflexivity|].
  intros E t t'. apply train_one_epoch_entry.
Qed.

(** C4, amended, on the two-worker sample: without TPU the three batch
    losses fold as 3/2, 7/2 and 11/2 on both workers and the epoch average
    is 7/2; on TPU the epoch average is the mean of the two workers'
    running averages, again 7/2. *)
Lemma metric_reduction_by_topology_witness :
  (∃ h, results (sample_trainer 3 10) = Some h) ∧
  (fst (fst (rep_values false 2 1 (sample_batch 1 2))) == 3 # 2)%Q ∧
  (fst (fst (phase_averages true 2 1 (train_batches sample_engine 0)))
   == 7 # 2)%Q.
Proof.
  destruct (metric_reduction_by_topology 2 1 (sample_batch 1 2)
              (train_batches sample_engine 0))
    as (H1 & _ & _ & _ & H5 & _ & _ & H8).
  split; [|split].
  - destruct (train_one_epoch sample_engine (sample_trainer 3 10))
      as [t'|e] eqn:Hrun; [|vm_compute in Hrun; discriminate].
    destruct (H8 sample_engine (sample_trainer 3 10) t' Hrun) as (h & Hh & _).
    exists h. exact Hh.
  - rewrite H1. reflexivity.
  - rewrite H5. reflexivity.
Defined.

(** ** Restoring *)

Lemma load_checkpoint_open (files : gmap string (gmap string Value))
  (t : Trainer) (path : string) (cpt : gmap string Value) :
  config t !! "resume_checkpoint" = Some (VStr path) →
  files !! path = Some cpt →
  device_set t →
  load_checkpoint files t
  = (py_assert (has_key cpt "epoch");;
     py_assert (has_key cpt "results");;
     py_assert (has_key cpt "state_dict");;
     py_assert (has_key cpt "optimizer");;
     py_assert (has_key cpt "curr_best_acc");;
     epoch ← getitem cpt "epoch" ≫= as_int;
     let t1 := set_current_epoch (epoch + 1) t in
     py_assert (negb (hasattr (results t1)));;
     r ← getitem cpt "results" ≫= as_results;
     let t2 := set_results (Some r) t1 in
     m ← getitem cpt "state_dict" ≫= as_state;
     o ← getitem cpt "optimizer" ≫= as_state;
     let t3 := set_states (m, o) t2 in
     b ← getitem cpt "curr_best_acc" ≫= as_float;
     Ok (set_best (Some b) (is_best t3) t3)).
Proof.
  intros Hp Hf Hd. unfold load_checkpoint, check_key.
  rewrite (has_key_Some _ _ _ Hp), (getitem_Some _ _ _ Hp).
  cbn [py_assert]. rewrite !bind_Ok. rewrite Hf.
  destruct Hd as [Htpu | [id Hid]].
  - rewrite Htpu. rewrite bind_Ok. reflexivity.
  - destruct (use_tpu t); [rewrite bind_Ok; reflexivity|].
    rewrite Hid. cbn [getattr length Nat.eqb py_assert].
    rewrite !bind_Ok. reflexivity.
Qed.

Lemma load_checkpoint_ok (files : gmap string (gmap string Value))
  (t : Trainer) (path : string) (cpt : gmap string Value) (e : Z)
  (r : Results) (m o : StateDict) (b : Q) :
  config t !! "resume_checkpoint" = Some (VStr path) →
  files !! path = Some cpt →
  device_set t →
  results t = None →
  cpt !! "epoch" = Some (VInt e) →
  cpt !! "results" = Some (VResults r) →
  cpt !! "state_dict" = Some (VState m) →
  cpt !! "optimizer" = Some (VState o) →
  cpt !! "curr_best_acc" = Some (VFloat b) →
  load_checkpoint files t
  = Ok (set_best (Some b) (is_best t)
          (set_states (m, o)
             (set_results (Some r) (set_current_epoch (e + 1) t)))).
Proof.
  intros Hp Hf Hd Hres He Hr Hm Ho Hb.
  rewrite (load_checkpoint_open files t path cpt Hp Hf Hd).
  rewrite (has_key_Some _ _ _ He), (has_key_Some _ _ _ Hr),
    (has_key_Some _ _ _ Hm), (has_key_Some _ _ _ Ho), (has_key_Some _ _ _ Hb).
  rewrite (getitem_Some _ _ _ He), (getitem_Some _ _ _ Hr),
    (getitem_Some _ _ _ Hm), (getitem_Some _ _ _ Ho), (getitem_Some _ _ _ Hb).
  cbn [py_assert as_int as_results as_state as_float]. rewrite !bind_Ok.
  cbv zeta. cbn [results set_current_epoch]. rewrite Hres.
  cbn [hasattr negb py_assert as_results as_state as_float].
  rewrite ?bind_Ok. reflexivity.
Qed.

Lemma load_checkpoint_missing_key (files : gmap string (gmap string Value))
  (t : Trainer) (path k : string) (cpt : gmap string Value) :
  config t !! "resume_checkpoint" = Some (VStr path) →
  files !! path = Some cpt →
  device_set t →
  k ∈ required_keys →
  cpt !! k = None →
  load_checkpoint files t = Raise AssertionError.
Proof.
  intros Hp Hf Hd Hk Hnone.
  rewrite (load_checkpoint_open files t path cpt Hp Hf Hd).
  apply has_key_None in Hnone.
  unfold required_keys in Hk.
  repeat (apply elem_of_cons in Hk as [-> | Hk]);
    [ | | | | | apply elem_of_nil in Hk; contradiction ];
    repeat match goal with
      | |- context [py_assert (has_key cpt ?s)] =>
          let Hs := fresh "Hs" in
          destruct (has_key cpt s) eqn:Hs; try congruence;
          cbn [py_assert]; rewrite ?bind_Ok, ?bind_Raise
      end; reflexivity.
Qed.

(** C8.  [load_checkpoint] raises [ValueError] when the configured path is
    not an existing file; when the file loads, it raises [AssertionError]
    when one of the fields epoch, results, state_dict, optimizer,
    curr_best_acc is absent; and with all five present it returns, the
    trainer holding the epoch after the saved one, the saved history, the
    two saved state dicts and the saved best value. *)
Theorem restore_outcomes (files : gmap string (gmap string Value))
  (t : Trainer) (path : string) :
  config t !! "resume_checkpoint" = Some (VStr path) →
  device_set t →
  results t = None →
  (files !! path = None → load_checkpoint files t = Raise ValueError) ∧
  (∀ cpt k,
     files !! path = Some cpt → k ∈ required_keys → cpt !! k = None →
     load_checkpoint files t = Raise AssertionError) ∧
  (∀ cpt e r m o b,
     files !! path = Some cpt →
     cpt !! "epoch" = Some (VInt e) →
     cpt !! "results" = Some (VResults r) →
     cpt !! "state_dict" = Some (VState m) →
     cpt !! "optimizer" = Some (VState o) →
     cpt !! "curr_best_acc" = Some (VFloat b) →
     ∃ t', load_checkpoint files t = Ok t' ∧
       current_epoch t' = e + 1 ∧ results t' = Some r ∧
       model t' = m ∧ optimizer t' = o ∧ best_acc t' = Some b).
Proof.
  intros Hp Hd Hres. split; [|split].
  - intros Hf. unfold load_checkpoint, check_key.
    rewrite (has_key_Some _ _ _ Hp), (getitem_Some _ _ _ Hp).
    cbn [py_assert]. rewrite !bind_Ok. rewrite Hf. reflexivity.
  - intros cpt k Hf Hk Hnone.
    exact (load_checkpoint_missing_key files t path k cpt Hp Hf Hd Hk Hnone).
  - intros cpt e r m o b Hf He Hr Hm Ho Hb.
    eexists. split.
    + exact (load_checkpoint_ok files t path cpt e r m o b Hp Hf Hd Hres
               He Hr Hm Ho Hb).
    + repeat split.
Qed.

Lemma resuming_device (path : string) : device_set (resuming_trainer path).
Proof. right. exists 0. reflexivity. Qed.

(** C8 on the sample: no file at the path, a checkpoint without its
    optimizer field, and a complete checkpoint. *)
Lemma restore_outcomes_witness :
  load_checkpoint ∅ (resuming_trainer "ckpt") = Raise ValueError ∧
  load_checkpoint {["ckpt" := delete "optimizer" sample_checkpoint]}
    (resuming_trainer "ckpt") = Raise AssertionError ∧
  ∃ t', load_checkpoint {["ckpt" := sample_checkpoint]}
          (resuming_trainer "ckpt") = Ok t' ∧
        current_epoch t' = 1 ∧ best_acc t' = Some 0%Q.
Proof.
  split; [|split].
  - apply (restore_outcomes ∅ (resuming_trainer "ckpt") "ckpt");
      [reflexivity | apply resuming_device | reflexivity | reflexivity].
  - destruct (restore_outcomes
                {["ckpt" := delete "optimizer" sample_checkpoint]}
                (resuming_trainer "ckpt") "ckpt")
      as (_ & H & _);
      [reflexivity | apply resuming_device | reflexivity |].
    apply (H (delete "optimizer" sample_checkpoint) "optimizer").
    + reflexivity.
    + unfold required_keys. do 3 apply list_elem_of_further.
      apply list_elem_of_here.
    + reflexivity.
  - destruct (restore_outcomes {["ckpt" := sample_checkpoint]}
                (resuming_trainer "ckpt") "ckpt")
      as (_ & _ & H);
      [reflexivity | apply resuming_device | reflexivity |].
    destruct (H sample_checkpoint 0 sample_history 3 3 0%Q)
      as (t' & Hload & He & _ & _ & _ & Hb);
      [reflexivity | reflexivity | reflexivity | reflexivity | reflexivity
      | reflexivity |].
    exists t'. split; [exact Hload|]. split; [exact He | exact Hb].
Defined.

(** ** What the loop leaves in the two stores *)

Lemma curr_state_epoch (e : Z) (m o : StateDict) (r : Results) (b : Q) :
  curr_state_of e m o r b !! "epoch" = Some (VInt e).
Proof. reflexivity. Qed.

Lemma partial_record_epoch (x : Value) (e : Z) (r : Results) (b : Q) :
  partial_record x e r b !! "epoch" = Some (VInt e).
Proof. reflexivity. Qed.

Lemma after_epoch_snapshot_epochs (F N i : Z) (x : Value) (t : Trainer)
  (r : Results) (b : Q) (s : StateDict * StateDict) (tr va : Q * Q * Q) :
  snapshot_epochs (after_epoch F N i x t r b s tr va)
  = snapshot_epochs t ++ [Some (VInt i)].
Proof.
  unfold snapshot_epochs. cbn [snapshots after_epoch].
  rewrite map_app. cbn [map sc_state]. rewrite curr_state_epoch.
  reflexivity.
Qed.

Lemma after_epoch_pushing (F N i : Z) (x : Value) (t : Trainer)
  (r : Results) (b : Q) (s : StateDict * StateDict) (tr va : Q * Q * Q) :
  pushing (after_epoch F N i x t r b s tr va) = pushing t.
Proof.
  unfold pushing. cbn [database rank after_epoch].
  destruct (database t); [|reflexivity].
  destruct (gate F N i && Nat.eqb (rank t) 0); reflexivity.
Qed.

Lemma after_epoch_record_epochs (F N i : Z) (x : Value) (t : Trainer)
  (r : Results) (b : Q) (s : StateDict * StateDict) (tr va : Q * Q * Q) :
  record_epochs (after_epoch F N i x t r b s tr va)
  = record_epochs t
    ++ (if gate F N i && pushing t then [Some (VInt i)] else []).
Proof.
  unfold record_epochs, records, pushing. cbn [database rank after_epoch].
  destruct (database t) as [db|].
  - destruct (gate F N i); cbn [andb].
    + destruct (Nat.eqb (rank t) 0).
      * cbn [mongo_save mongo_records]. rewrite map_app. cbn [map].
        rewrite partial_record_epoch. reflexivity.
      * rewrite app_nil_r. reflexivity.
    + rewrite app_nil_r. reflexivity.
  - rewrite andb_false_r. reflexivity.
Qed.

Lemma stores_loop (E : Engine) (F N i : Z) (t : Trainer) (n : nat) :
  configured F N t → ready t →
  ∃ t', train_loop E n i t = Ok t' ∧
    config t' = config t ∧
    snapshot_epochs t'
    = snapshot_epochs t ++ ((fun e => Some (VInt e)) <$> seqZ i (Z.of_nat n)) ∧
    record_epochs t'
    = record_epochs t
      ++ (if pushing t
          then (fun e => Some (VInt e))
                 <$> filter (λ e, e mod F = 0 ∨ e = N - 1)
                       (seqZ i (Z.of_nat n))
          else []).
Proof.
  intros Hc Hr.
  pose (I := fun (k : nat) (t' : Trainer) =>
    configured F N t' ∧ ready t' ∧ config t' = config t ∧
    pushing t' = pushing t ∧
    snapshot_epochs t'
    = snapshot_epochs t ++ ((fun e => Some (VInt e)) <$> seqZ i (Z.of_nat k)) ∧
    record_epochs t'
    = record_epochs t
      ++ (if pushing t
          then (fun e => Some (VInt e))
                 <$> filter (λ e, e mod F = 0 ∨ e = N - 1)
                       (seqZ i (Z.of_nat k))
          else [])).
  destruct (train_loop_rule E F N i I) with (n := n) (k := O) (t := t)
    as [t' [Hrun (_ & _ & H3 & _ & H5 & H6)]].
  - intros k t1 (H1 & H2 & _). split; assumption.
  - intros k t1 x r b s tr va (H1 & H2 & H3 & H4 & H5 & H6) Hx Hr1 Hb1.
    destruct (after_epoch_steady F N (i + Z.of_nat k) x t1 r b s tr va H1)
      as [H7 H8].
    split; [exact H7|]. split; [exact H8|]. split; [exact H3|].
    split; [rewrite after_epoch_pushing; exact H4|]. split.
    + rewrite after_epoch_snapshot_epochs, H5, seqZ_S, fmap_app, app_assoc.
      reflexivity.
    + rewrite after_epoch_record_epochs, H6, H4, seqZ_S, filter_snoc_gate.
      rewrite <- app_assoc. f_equal.
      destruct (pushing t).
      * rewrite andb_true_r, fmap_app.
        destruct (gate F N (i + Z.of_nat k)); reflexivity.
      * rewrite andb_false_r. reflexivity.
  - split; [exact Hc|]. split; [exact Hr|]. split; [reflexivity|].
    split; [reflexivity|].
    rewrite seqZ_nil by reflexivity. rewrite filter_nil, fmap_nil, !app_nil_r.
    destruct (pushing t); rewrite ?app_nil_r; split; reflexivity.
  - exists t'. rewrite Z.add_0_r in Hrun. cbn [Nat.add] in *.
    split; [exact Hrun|]. split; [exact H3|]. split; assumption.
Qed.

(** ** Counting the cadence epochs *)

Lemma multiples_step (F m : Z) :
  1 ≤ F → 0 ≤ m →
  (m + 1 + F - 1) / F = (m + F - 1) / F + (if m mod F =? 0 then 1 else 0).
Proof.
  intros HF Hm.
  destruct (m mod F =? 0) eqn:E0.
  - apply Z.eqb_eq in E0. symmetry.
    apply (Z.div_unique_pos _ _ _ 0); [lia|].
    assert (H1 : (m + F - 1) / F = m / F).
    { symmetry. apply (Z.div_unique_pos _ _ _ (F - 1)); [lia|].
      pose proof (Z.div_mod m F). lia. }
    rewrite H1. pose proof (Z.div_mod m F). lia.
  - apply Z.eqb_neq in E0. rewrite Z.add_0_r.
    pose proof (Z.mod_pos_bound m F ltac:(lia)) as Hb.
    pose proof (Z.div_mod m F ltac:(lia)) as Hdm.
    assert (H1 : (m + F - 1) / F = m / F + 1).
    { symmetry. apply (Z.div_unique_pos _ _ _ (m mod F - 1)); lia. }
    rewrite H1. symmetry.
    apply (Z.div_unique_pos _ _ _ (m mod F)); lia.
Qed.

Lemma count_multiples (F : Z) (n : nat) :
  1 ≤ F →
  Z.of_nat (length (filter (λ e, e mod F = 0) (seqZ 0 (Z.of_nat n))))
  = (Z.of_nat n + F - 1) / F.
Proof.
  intros HF. induction n as [|n IH].
  - cbn. symmetry. apply Z.div_small. lia.
  - rewrite seqZ_S, filter_app, length_app, Nat2Z.inj_add, IH.
    rewrite Nat2Z.inj_succ. unfold Z.succ.
    rewrite (multiples_step F (Z.of_nat n)) by lia.
    f_equal. rewrite filter_cons, filter_nil. cbn [Z.add].
    destruct (Z.of_nat n mod F =? 0) eqn:E0.
    + apply Z.eqb_eq in E0. rewrite decide_True by exact E0. reflexivity.
    + apply Z.eqb_neq in E0. rewrite decide_False by exact E0. reflexivity.
Qed.

Lemma ceil_floor (F m : Z) :
  1 ≤ F → 0 ≤ m →
  (m + F - 1) / F = m / F + (if m mod F =? 0 then 0 else 1).
Proof.
  intros HF Hm.
  pose proof (Z.mod_pos_bound m F ltac:(lia)) as Hb.
  pose proof (Z.div_mod m F ltac:(lia)) as Hdm.
  destruct (m mod F =? 0) eqn:E0.
  - apply Z.eqb_eq in E0. symmetry.
    apply (Z.div_unique_pos _ _ _ (F - 1)); lia.
  - apply Z.eqb_neq in E0. symmetry.
    apply (Z.div_unique_pos _ _ _ (m mod F - 1)); lia.
Qed.

Lemma filter_gate_below (F N : Z) (n : nat) :
  Z.of_nat n ≤ N - 1 →
  filter (λ e, e mod F = 0 ∨ e = N - 1) (seqZ 0 (Z.of_nat n))
  = filter (λ e, e mod F = 0) (seqZ 0 (Z.of_nat n)).
Proof.
  induction n as [|n IH]; intros Hn; [reflexivity|].
  rewrite seqZ_S, !filter_app, IH by lia. f_equal.
  rewrite !filter_cons, !filter_nil, !Z.add_0_l.
  destruct (decide (Z.of_nat n mod F = 0)) as [H0|H0].
  - rewrite decide_True by (left; exact H0). reflexivity.
  - rewrite decide_False; [reflexivity|].
    intros [H|H]; [contradiction | lia].
Qed.

(** The number of epochs [e] of [0 .. N-1] with [e mod F = 0] or
    [e = N - 1]. *)
Lemma count_cadence (F N : Z) :
  1 ≤ F → 1 ≤ N →
  Z.of_nat (length (filter (λ e, e mod F = 0 ∨ e = N - 1) (seqZ 0 N)))
  = (N - 1) / F + 1 + (if (N - 1) mod F =? 0 then 0 else 1).
Proof.
  intros HF HN.
  replace (seqZ 0 N) with (seqZ 0 (Z.of_nat (S (Z.to_nat (N - 1)))))
    by (f_equal; lia).
  rewrite seqZ_S, filter_app, length_app, Nat2Z.inj_add.
  rewrite filter_gate_below by lia.
  rewrite count_multiples by exact HF.
  rewrite Z2Nat.id by lia.
  rewrite (ceil_floor F (N - 1)) by lia.
  rewrite filter_cons, filter_nil.
  rewrite decide_True by (right; lia).
  cbn [length]. lia.
Qed.

(** ** The whole run *)

Lemma train_unfold (E : Engine) (F N : Z) (t : Trainer) :
  configured F N t →
  train E t
  = (train_loop E (Z.to_nat (N - current_epoch t)) (current_epoch t) t
     ≫= λ t1, Ok (close_db t1)).
Proof.
  intros (HF & HN & _). unfold train, check_key.
  rewrite (has_key_Some _ _ _ HF), (has_key_Some _ _ _ HN),
    (getitem_Some _ _ _ HN).
  reflexivity.
Qed.

Lemma close_db_record_epochs (t : Trainer) :
  record_epochs (close_db t) = record_epochs t.
Proof.
  unfold record_epochs, records, close_db.
  destruct (database t) as [db|] eqn:Edb.
  - destruct (Nat.eqb (rank t) 0); cbn [database set_database];
      rewrite ?Edb; reflexivity.
  - rewrite Edb. reflexivity.
Qed.

Lemma close_db_snapshots (t : Trainer) :
  snapshots (close_db t) = snapshots t.
Proof.
  unfold close_db.
  destruct (database t); [destruct (Nat.eqb (rank t) 0)|]; reflexivity.
Qed.

Lemma record_epochs_length (t : Trainer) :
  length (record_epochs t) = length (records t).
Proof. unfold record_epochs. apply length_map. Qed.

Lemma snapshot_epochs_length (t : Trainer) :
  length (snapshot_epochs t) = length (snapshots t).
Proof. unfold snapshot_epochs. apply length_map. Qed.

(** C3, as stated, fails: with [save_freq = 4] and [num_epochs = 10] the
    store is pushed at the epochs 0, 4, 8 and 9, four times, while
    [floor((10 - 1) / 4) + 1] is 3. *)
Lemma checkpoint_cadence_counterexample :
  match train sample_engine (sample_trainer 4 10) with
  | Ok t' =>
      length (records t') = 4%nat ∧
      length (records t') ≠ Z.to_nat ((10 - 1) / 4 + 1)
  | Raise _ => False
  end.
Proof. vm_compute. split; [reflexivity | discriminate]. Qed.

(** C3, amended.  On the coordinating worker with the store enabled, a
    run from epoch 0 with [save_freq = F ≥ 1] and [num_epochs = N ≥ 1]
    pushes one record at every epoch [e] with [e mod F = 0] and one at the
    final epoch [N - 1]: [floor((N-1)/F) + 1] pushes when [F] divides
    [N - 1], one more otherwise.  [train_utils.save_checkpoint] is called
    once in each of the [N] epochs. *)
Theorem checkpoint_cadence (E : Engine) (F N : Z) (t : Trainer) :
  configured F N t → ready t → 1 ≤ F → 1 ≤ N →
  current_epoch t = 0 → pushing t = true →
  ∃ t', train E t = Ok t' ∧
    record_epochs t'
    = record_epochs t
      ++ ((fun e => Some (VInt e))
            <$> filter (λ e, e mod F = 0 ∨ e = N - 1) (seqZ 0 N)) ∧
    Z.of_nat (length (records t'))
    = Z.of_nat (length (records t))
      + ((N - 1) / F + 1 + (if (N - 1) mod F =? 0 then 0 else 1)) ∧
    snapshot_epochs t'
    = snapshot_epochs t ++ ((fun e => Some (VInt e)) <$> seqZ 0 N) ∧
    Z.of_nat (length (snapshots t')) = Z.of_nat (length (snapshots t)) + N.
Proof.
  intros Hc Hr HF HN H0 Hp.
  rewrite (train_unfold E F N t Hc), H0, Z.sub_0_r.
  destruct (stores_loop E F N 0 t (Z.to_nat N) Hc Hr)
    as (t1 & Hrun & _ & Hs & Hd).
  rewrite Hrun, bind_Ok. rewrite Z2Nat.id in Hs, Hd by lia.
  rewrite Hp in Hd.
  exists (close_db t1). split; [reflexivity|].
  assert (Hd' : record_epochs (close_db t1)
                = record_epochs t
                  ++ ((fun e => Some (VInt e))
                        <$> filter (λ e, e mod F = 0 ∨ e = N - 1) (seqZ 0 N))).
  { rewrite close_db_record_epochs. exact Hd. }
  assert (Hs' : snapshot_epochs (close_db t1)
                = snapshot_epochs t ++ ((fun e => Some (VInt e)) <$> seqZ 0 N)).
  { unfold snapshot_epochs. rewrite close_db_snapshots. exact Hs. }
  split; [exact Hd'|]. split; [|split; [exact Hs'|]].
  - rewrite <- !record_epochs_length, Hd', length_app, length_fmap.
    rewrite Nat2Z.inj_add, (count_cadence F N HF HN). reflexivity.
  - rewrite <- !snapshot_epochs_length, Hs', length_app, length_fmap.
    rewrite length_seqZ, Nat2Z.inj_add, Z2Nat.id by lia. reflexivity.
Qed.

(** C3, amended, on the sample job: [save_freq = 3] and [num_epochs = 10]
    give four pushes and ten snapshot calls. *)
Lemma checkpoint_cadence_witness :
  ∃ t', train sample_engine (sample_trainer 3 10) = Ok t' ∧
    length (records t') = 4%nat ∧ length (snapshots t') = 10%nat.
Proof.
  destruct (checkpoint_cadence sample_engine 3 10 (sample_trainer 3 10))
    as (t' & Hrun & _ & Hd & _ & Hs).
  - apply sample_configured. discriminate.
  - apply sample_ready.
  - lia.
  - lia.
  - reflexivity.
  - reflexivity.
  - exists t'. split; [exact Hrun|].
    assert (Hd4 : Z.of_nat (length (records t')) = 4)
      by (rewrite Hd; reflexivity).
    assert (Hs10 : Z.of_nat (length (snapshots t')) = 10)
      by (rewrite Hs; reflexivity).
    split; lia.
Defined.

(** ** The history *)

Lemma extends_refl (r : Results) : extends r r.
Proof. repeat split; reflexivity. Qed.

Lemma extends_trans (r1 r2 r3 : Results) :
  extends r1 r2 → extends r2 r3 → extends r1 r3.
Proof.
  intros (A1 & A2 & A3 & A4 & A5 & A6) (B1 & B2 & B3 & B4 & B5 & B6).
  repeat split; etransitivity; eassumption.
Qed.

Lemma append_train_extends (l a1 a5 : Q) (r : Results) :
  extends r (append_train l a1 a5 r).
Proof.
  repeat split; cbn; try reflexivity; apply prefix_app_r; reflexivity.
Qed.

Lemma append_val_extends (l a1 a5 : Q) (r : Results) :
  extends r (append_val l a1 a5 r).
Proof.
  repeat split; cbn; try reflexivity; apply prefix_app_r; reflexivity.
Qed.

Lemma append_train_shape (l a1 a5 : Q) (r : Results) (n v : nat) :
  shape r n v → shape (append_train l a1 a5 r) (S n) v.
Proof.
  intros (A1 & A2 & A3 & A4 & A5 & A6).
  repeat split; cbn; rewrite ?length_app; cbn; lia.
Qed.

Lemma append_val_shape (l a1 a5 : Q) (r : Results) (n v : nat) :
  shape r n v → shape (append_val l a1 a5 r) n (S v).
Proof.
  intros (A1 & A2 & A3 & A4 & A5 & A6).
  repeat split; cbn; rewrite ?length_app; cbn; lia.
Qed.

Lemma history_loop (E : Engine) (F N i : Z) (t : Trainer) (r : Results)
  (n0 v0 n : nat) :
  configured F N t → results t = Some r → is_Some (best_acc t) →
  shape r n0 v0 →
  ∃ t' r', train_loop E n i t = Ok t' ∧ results t' = Some r' ∧
    extends r r' ∧
    shape r' (n0 + n)
      (v0 + length (filter (λ e, e mod F = 0 ∨ e = N - 1)
                      (seqZ i (Z.of_nat n)))).
Proof.
  intros Hc Hr Hb Hs.
  pose (I := fun (k : nat) (t' : Trainer) =>
    configured F N t' ∧ ready t' ∧
    ∃ r', results t' = Some r' ∧ extends r r' ∧
      shape r' (n0 + k)
        (v0 + length (filter (λ e, e mod F = 0 ∨ e = N - 1)
                        (seqZ i (Z.of_nat k))))).
  destruct (train_loop_rule E F N i I) with (n := n) (k := O) (t := t)
    as [t' [Hrun (_ & _ & r' & Hr' & He & Hs')]].
  - intros k t1 (H1 & H2 & _). split; assumption.
  - intros k t1 x r1 b s tr va (H1 & H2 & r' & Hr' & He & Hs') Hx Hr1 Hb1.
    destruct (after_epoch_steady F N (i + Z.of_nat k) x t1 r1 b s tr va H1)
      as [H7 H8].
    split; [exact H7|]. split; [exact H8|].
    rewrite Hr1 in Hr'. inversion Hr'; subst r'.
    rewrite seqZ_S, filter_snoc_gate, length_app.
    set (c := length (filter (λ e, e mod F = 0 ∨ e = N - 1)
                        (seqZ i (Z.of_nat k)))) in *.
    cbn [results after_epoch].
    destruct (gate F N (i + Z.of_nat k)); eexists; (split; [reflexivity|]).
    + split.
      * eapply extends_trans; [exact He|].
        eapply extends_trans;
          [apply append_train_extends | apply append_val_extends].
      * replace (n0 + S k)%nat with (S (n0 + k)) by lia.
        cbn [length].
        replace (v0 + (c + 1))%nat with (S (v0 + c)) by lia.
        apply append_val_shape, append_train_shape. exact Hs'.
    + split.
      * eapply extends_trans; [exact He | apply append_train_extends].
      * replace (n0 + S k)%nat with (S (n0 + k)) by lia.
        cbn [length]. rewrite Nat.add_0_r.
        apply append_train_shape. exact Hs'.
  - split; [exact Hc|]. split; [split; [eauto | exact Hb]|].
    exists r. split; [exact Hr|]. split; [apply extends_refl|].
    rewrite seqZ_nil by reflexivity. rewrite filter_nil. cbn [length].
    rewrite !Nat.add_0_r. exact Hs.
  - exists t', r'. rewrite Z.add_0_r in Hrun. cbn [Nat.add] in Hs'.
    split; [exact Hrun|]. split; [exact Hr'|]. split; assumption.
Qed.

(** C6, as stated, fails: after the first two epochs of the sample job
    ([save_freq = 3]) every training list has two entries and every
    validation list has one, epoch 1 having appended none. *)
Lemma history_pairs_counterexample :
  match train_loop sample_engine 2 0 (sample_trainer 3 10) with
  | Ok t' =>
      match results t' with
      | Some r => shape r 2 1 ∧ ¬ shape r 2 2
      | None => False
      end
  | Raise _ => False
  end.
Proof.
  vm_compute. split; [repeat split|].
  intros (_ & _ & _ & H & _). discriminate H.
Qed.

(** C6, amended.  The history is append-only: after [n] more epochs every
    list still starts with what it held.  Every epoch appends one entry to
    each training list; an epoch appends one entry to each validation list
    only when validation runs in it, [e mod F = 0] or [e = N - 1]. *)
Theorem history_append_only (E : Engine) (F N i : Z) (t : Trainer)
  (r : Results) (n0 v0 n : nat) :
  configured F N t → results t = Some r → is_Some (best_acc t) →
  shape r n0 v0 →
  ∃ t' r', train_loop E n i t = Ok t' ∧ results t' = Some r' ∧
    extends r r' ∧
    shape r' (n0 + n)
      (v0 + length (filter (λ e, e mod F = 0 ∨ e = N - 1)
                      (seqZ i (Z.of_nat n)))).
Proof. apply history_loop. Qed.

(** C6, amended, on the sample job: after ten epochs from an empty history
    the training lists hold ten entries and the validation lists four. *)
Lemma history_append_only_witness :
  ∃ t' r', train_loop sample_engine 10 0 (sample_trainer 3 10) = Ok t' ∧
    results t' = Some r' ∧ shape r' 10 4.
Proof.
  destruct (history_append_only sample_engine 3 10 0 (sample_trainer 3 10)
              empty_results 0 0 10)
    as (t' & r' & Hrun & Hr' & _ & Hs).
  - apply sample_configured. discriminate.
  - reflexivity.
  - eexists. reflexivity.
  - repeat split.
  - exists t', r'. split; [exact Hrun|]. split; [exact Hr' | exact Hs].
Defined.

(** ** The flag handed to the checkpoint save *)

(** C7, as stated, fails: in epoch 1 of the sample job ([save_freq = 3])
    the body of [validate] does not run, so no best-tracker update takes
    place and the best value stays, yet [save_checkpoint] is handed
    [is_best = True], the flag epoch 0 left behind. *)
Lemma is_best_recomputed_counterexample :
  match train_loop sample_engine 1 0 (sample_trainer 3 10) with
  | Ok t1 =>
      match run_epoch sample_engine 1 t1 with
      | Ok t2 =>
          validated t2 = validated t1 ∧
          best_acc t2 = best_acc t1 ∧
          is_best t1 = true ∧
          sc_is_best <$> last (snapshots t2) = Some true
      | Raise _ => False
      end
  | Raise _ => False
  end.
Proof. vm_compute. repeat split. Qed.

(** C7, amended.  In every epoch in which validation runs, [e mod F = 0]
    or [e = N - 1], the flag handed to the checkpoint save of that epoch
    is the flag [check_best_accuracy] returned in that epoch, for that
    epoch's validation top-1 average against the best value the epoch
    started with. *)
Theorem is_best_at_cadence (E : Engine) (F N i : Z) (t : Trainer) (b : Q) :
  configured F N t → is_Some (results t) → best_acc t = Some b →
  i mod F = 0 ∨ i = N - 1 →
  ∃ t' c, run_epoch E i t = Ok t' ∧
    last (snapshots t') = Some c ∧
    validated t' = validated t ++ [i] ∧
    sc_is_best c
    = snd (check_best_accuracy
             (snd (fst (phase_averages (use_tpu t) (world_size t) (rank t)
                          (val_batches E i)))) b) ∧
    is_best t' = sc_is_best c ∧
    best_acc t'
    = Some (fst (check_best_accuracy
                   (snd (fst (phase_averages (use_tpu t) (world_size t)
                                (rank t) (val_batches E i)))) b)).
Proof.
  intros Hc [r Hr] Hb Hg.
  pose proof Hc as (_ & _ & [x Hx] & _).
  rewrite (run_epoch_step E F N i t x r b Hc Hx Hr Hb).
  apply gate_iff in Hg.
  eexists. eexists. split; [reflexivity|].
  cbn [snapshots validated is_best best_acc after_epoch].
  rewrite Hg. rewrite last_snoc. cbn [sc_is_best fst snd].
  repeat split.
Qed.

(** C7, amended, at epoch 0 of the sample job: the validation top-1
    average 0 exceeds the initial best, and the save is handed [True]. *)
Lemma is_best_at_cadence_witness :
  ∃ t' c, run_epoch sample_engine 0 (sample_trainer 3 10) = Ok t' ∧
    last (snapshots t') = Some c ∧ sc_is_best c = true.
Proof.
  destruct (is_best_at_cadence sample_engine 3 10 0 (sample_trainer 3 10)
              initial_best_acc)
    as (t' & c & Hrun & Hlast & _ & Hflag & _).
  - apply sample_configured. discriminate.
  - eexists. reflexivity.
  - reflexivity.
  - left. reflexivity.
  - exists t', c. split; [exact Hrun|]. split; [exact Hlast|].
    rewrite Hflag. reflexivity.
Defined.

(** ** Saving, then restoring *)

Lemma seqZ_to_nat (m n : Z) : seqZ m (Z.of_nat (Z.to_nat n)) = seqZ m n.
Proof. unfold seqZ. rewrite Nat2Z.id. reflexivity. Qed.

Lemma resumed_run (E : Engine) (F N : Z) (t : Trainer) :
  configured F N t → ready t →
  ∃ t', train E t = Ok t' ∧
    snapshot_epochs t'
    = snapshot_epochs t
      ++ ((fun e => Some (VInt e))
            <$> seqZ (current_epoch t) (N - current_epoch t)).
Proof.
  intros Hc Hr. rewrite (train_unfold E F N t Hc).
  destruct (stores_loop E F N (current_epoch t) t
              (Z.to_nat (N - current_epoch t)) Hc Hr)
    as (t1 & Hrun & _ & Hs & _).
  rewrite Hrun, bind_Ok. exists (close_db t1). split; [reflexivity|].
  unfold snapshot_epochs in *. rewrite close_db_snapshots, Hs.
  rewrite seqZ_to_nat. reflexivity.
Qed.

(** C2.  Let [c] be the checkpoint [save_checkpoint] hands over at the end
    of epoch [i].  Restoring it into a trainer under construction sets
    [current_epoch] to [i + 1], puts the saved history, best value and
    state dicts in place, and the run that follows starts at epoch
    [i + 1]: the epochs it checkpoints are [i + 1, ..., N - 1], so no
    completed epoch runs again. *)
Theorem resume_round_trip (E : Engine) (F N i : Z) (t0 : Trainer)
  (files : gmap string (gmap string Value)) (path : string) (t : Trainer) :
  configured F N t0 → ready t0 →
  config t !! "resume_checkpoint" = Some (VStr path) →
  device_set t → results t = None →
  ∃ t1 c, run_epoch E i t0 = Ok t1 ∧
    last (snapshots t1) = Some c ∧
    sc_state c !! "epoch" = Some (VInt i) ∧
    (files !! path = Some (sc_state c) →
     ∃ t', load_checkpoint files t = Ok t' ∧
       current_epoch t' = i + 1 ∧
       results t' = results t1 ∧
       best_acc t' = best_acc t1 ∧
       model t' = model t1 ∧
       optimizer t' = optimizer t1 ∧
       ∀ (E' : Engine) (F' N' : Z),
         configured F' N' t →
         ∃ t'', train E' t' = Ok t'' ∧
           snapshot_epochs t''
           = snapshot_epochs t'
             ++ ((fun e => Some (VInt e)) <$> seqZ (i + 1) (N' - (i + 1)))).
Proof.
  intros Hc [[r Hr] [b Hb]] Hp Hd Hres.
  pose proof Hc as (_ & _ & [x Hx] & _).
  rewrite (run_epoch_step E F N i t0 x r b Hc Hx Hr Hb).
  eexists. eexists. split; [reflexivity|].
  cbn [snapshots after_epoch]. rewrite last_snoc.
  split; [reflexivity|]. cbn [sc_state]. split; [reflexivity|].
  intros Hf.
  eexists. split.
  - eapply (load_checkpoint_ok files t path _ _ _ _ _ _ Hp Hf Hd Hres);
      reflexivity.
  - cbn [current_epoch results best_acc model optimizer set_best set_states
         set_results set_current_epoch fst snd].
    repeat split.
    intros E' F' N' Hc'.
    match goal with
    | |- ∃ t'', train E' ?t' = _ ∧ _ =>
        destruct (resumed_run E' F' N' t') as (t'' & Hrun & Hs)
    end.
    + exact Hc'.
    + split; eexists; reflexivity.
    + exists t''. split; [exact Hrun|]. exact Hs.
Qed.

(** C2 on the sample job: the checkpoint of epoch 0 restores to a trainer
    that resumes at epoch 1. *)
Lemma resume_round_trip_witness :
  ∃ files t',
    load_checkpoint files (resuming_trainer "ckpt") = Ok t' ∧
    current_epoch t' = 1.
Proof.
  destruct (resume_round_trip sample_engine 3 10 0 (sample_trainer 3 10)
              ∅ "ckpt" (resuming_trainer "ckpt"))
    as (t1 & c & Hrun & Hlast & _ & _).
  - apply sample_configured. discriminate.
  - apply sample_ready.
  - reflexivity.
  - apply resuming_device.
  - reflexivity.
  - destruct (resume_round_trip sample_engine 3 10 0 (sample_trainer 3 10)
                {["ckpt" := sc_state c]} "ckpt" (resuming_trainer "ckpt"))
      as (t1' & c' & Hrun' & Hlast' & _ & Hload').
    + apply sample_configured. discriminate.
    + apply sample_ready.
    + reflexivity.
    + apply resuming_device.
    + reflexivity.
    + rewrite Hrun in Hrun'. inversion Hrun'; subst t1'.
      rewrite Hlast in Hlast'. inversion Hlast'; subst c'.
      destruct Hload' as (t' & Hl & He & _).
      { apply lookup_singleton_eq. }
      exists {["ckpt" := sc_state c]}, t'.
      split; [exact Hl | exact He].
Defined.

(** ** The record pushed to the metadata store *)

Lemma getitem_inv (d : gmap string Value) (k : string) (v : Value) :
  getitem d k = Ok v → d !! k = Some v.
Proof.
  unfold getitem. destruct (d !! k); intros H; inversion H; reflexivity.
Qed.

Lemma partial_record_dom (x : Value) (e : Z) (r : Results) (b : Q) :
  dom (partial_record x e r b)
  = ({["exp_id"; "epoch"; "results"; "curr_best_acc"]} : gset string).
Proof.
  unfold partial_record. rewrite !dom_insert_L, dom_empty_L. set_solver.
Qed.

Lemma curr_state_dom (e : Z) (m o : StateDict) (r : Results) (b : Q) :
  dom (curr_state_of e m o r b)
  = ({["epoch"; "state_dict"; "optimizer"; "results"; "curr_best_acc"]}
     : gset string).
Proof.
  unfold curr_state_of. rewrite !dom_insert_L, dom_empty_L. set_solver.
Qed.

Lemma _save_to_db_frame (t t' : Trainer) (cs : gmap string Value)
  (keys : list string) :
  _save_to_db t cs keys = Ok t' →
  t' = set_database (database t') t ∧ (rank t ≠ 0%nat → t' = t).
Proof.
  intros H. apply _save_to_db_inv in H as (rec & _ & ->).
  destruct t as [cfg tpu rk ws ids m o db ce res best ib snaps vals].
  cbn [database rank].
  destruct db as [db|]; [|split; reflexivity].
  destruct (Nat.eqb rk 0) eqn:Erk; [|split; reflexivity].
  split; [reflexivity|]. intros Hne. apply Nat.eqb_eq in Erk. contradiction.
Qed.

(** C9.  When [save_checkpoint] returns, the metadata store holds either
    what it held or one record more; the new record was pushed by rank 0,
    its keys are exactly exp_id, epoch, results and curr_best_acc, with the
    values of the trainer, and it has neither a state_dict nor an
    optimizer entry.  A worker of another rank leaves the store alone.
    The state handed to the local save still holds all five fields, and no
    attribute of the trainer other than the store and the list of local
    saves changes.  [_save_to_db], whatever state and keys it is given,
    changes no attribute but the store. *)
Theorem metadata_push_frame (t t' : Trainer) :
  save_checkpoint t = Ok t' →
  (records t' = records t ∨
   ∃ record,
     records t' = records t ++ [record] ∧ rank t = 0%nat ∧
     dom record
     = ({["exp_id"; "epoch"; "results"; "curr_best_acc"]} : gset string) ∧
     record !! "exp_id" = config t !! "exp_id" ∧
     record !! "epoch" = Some (VInt (current_epoch t)) ∧
     record !! "results" = VResults <$> results t ∧
     record !! "curr_best_acc" = VFloat <$> best_acc t ∧
     record !! "state_dict" = None ∧
     record !! "optimizer" = None) ∧
  (rank t ≠ 0%nat → database t' = database t) ∧
  (∃ c, snapshots t' = snapshots t ++ [c] ∧
     dom (sc_state c)
     = ({["epoch"; "state_dict"; "optimizer"; "results"; "curr_best_acc"]}
        : gset string) ∧
     sc_state c !! "state_dict" = Some (VState (model t)) ∧
     sc_state c !! "optimizer" = Some (VState (optimizer t))) ∧
  (config t' = config t ∧ model t' = model t ∧ optimizer t' = optimizer t ∧
   current_epoch t' = current_epoch t ∧ results t' = results t ∧
   best_acc t' = best_acc t ∧ is_best t' = is_best t ∧
   validated t' = validated t ∧ rank t' = rank t ∧
   use_tpu t' = use_tpu t) ∧
  (∀ cs keys t2,
     _save_to_db t cs keys = Ok t2 →
     t2 = set_database (database t2) t ∧ (rank t ≠ 0%nat → t2 = t)).
Proof.
  intros H.
  apply save_checkpoint_inv in H
    as (r & b & hit & t1 & Hr & Hb & _ & Hdb & ->).
  assert (Hcase :
    t1 = t ∨
    ∃ db x, hit = true ∧ database t = Some db ∧ rank t = 0%nat ∧
      config t !! "exp_id" = Some x ∧
      t1 = set_database
             (Some (mongo_save db (partial_record x (current_epoch t) r b)))
             t).
  { destruct hit; [|left; exact Hdb].
    pose proof Hdb as Hdb'.
    apply _save_to_db_inv in Hdb as (rec & Hrec & ->).
    unfold db_record in Hrec. bind_step Hrec. apply getitem_inv in Ha.
    destruct (database t) as [db|] eqn:Edb; [|left; reflexivity].
    destruct (Nat.eqb (rank t) 0) eqn:Erk; [|left; reflexivity].
    right. exists db, a. apply Nat.eqb_eq in Erk.
    repeat split; try assumption.
    assert (Hrec' : db_record t
                      (curr_state_of (current_epoch t) (model t)
                         (optimizer t) r b) save_keys_db
                    = Ok rec).
    { unfold db_record. rewrite (getitem_Some _ _ _ Ha), bind_Ok.
      exact Hrec. }
    rewrite (db_record_curr_state t a _ _ _ r b Ha) in Hrec'.
    inversion Hrec'; reflexivity. }
  split; [|split; [|split; [|split]]].
  - destruct Hcase as [-> | (db & x & _ & Edb & Erk & Hx & ->)].
    + left. reflexivity.
    + right. exists (partial_record x (current_epoch t) r b).
      unfold records. cbn [database add_snapshot set_database].
      rewrite Edb, Hx, Hr, Hb. cbn [mongo_save mongo_records].
      split; [reflexivity|]. split; [exact Erk|].
      split; [apply partial_record_dom|]. repeat split.
  - intros Hne. destruct Hcase as [-> | (db & x & _ & _ & Erk & _)].
    + reflexivity.
    + contradiction.
  - eexists. split.
    + destruct Hcase as [-> | (db & x & _ & _ & _ & _ & ->)]; reflexivity.
    + cbn [sc_state]. split; [apply curr_state_dom|]. split; reflexivity.
  - destruct Hcase as [-> | (db & x & _ & _ & _ & _ & ->)]; repeat split.
  - intros cs keys t2. apply _save_to_db_frame.
Qed.

(** C9 at epoch 0 of the sample job: one record is pushed, without the
    state dicts. *)
Lemma metadata_push_frame_witness :
  ∃ t' record,
    save_checkpoint (sample_trainer 3 10) = Ok t' ∧
    records t' = [record] ∧ record !! "state_dict" = None ∧
    record !! "optimizer" = None.
Proof.
  pose proof (save_checkpoint_ok (sample_trainer 3 10) true (VStr "exp0")
                empty_results initial_best_acc eq_refl eq_refl eq_refl
                eq_refl eq_refl) as Hrun.
  destruct (metadata_push_frame _ _ Hrun) as (Hpush & _).
  destruct Hpush as [Hsame | (record & Hrec & _ & _ & _ & _ & _ & _ & Hs & Ho)].
  - discriminate Hsame.
  - eexists. exists record. split; [exact Hrun|].
    split; [exact Hrec|]. split; assumption.
Defined.

(** ** Construction and the metadata store keys *)

Lemma raises_bind {A B : Type} (m : Result A) (f : A → Result B) :
  (∀ a, m = Ok a → raises (f a)) → raises (m ≫= f).
Proof. destruct m as [a|e]; intros H; [exact (H a eq_refl) | exact I]. Qed.

Lemma raises_bind_l {A B : Type} (m : Result A) (f : A → Result B) :
  raises m → raises (m ≫= f).
Proof. destruct m; [contradiction | intros _; exact I]. Qed.

Lemma forallb_has_key (cfg : gmap string Value) (keys : list string)
  (k : string) :
  k ∈ keys → cfg !! k = None → forallb (has_key cfg) keys = false.
Proof.
  intros Hk Hnone. induction keys as [|k' ks IH].
  - apply elem_of_nil in Hk. contradiction.
  - cbn [forallb]. apply elem_of_cons in Hk as [-> | Hk].
    + rewrite (has_key_None _ _ Hnone). reflexivity.
    + rewrite (IH Hk). apply andb_false_r.
Qed.

Lemma assert_not_None_raises (cfg : gmap string Value) (keys : list string)
  (k : string) :
  k ∈ keys → cfg !! k = Some VNone → raises (assert_not_None cfg keys).
Proof.
  intros Hk Hv. induction keys as [|k' ks IH].
  - apply elem_of_nil in Hk. contradiction.
  - cbn [assert_not_None]. apply raises_bind. intros v Hget.
    apply getitem_inv in Hget.
    apply elem_of_cons in Hk as [-> | Hk].
    + rewrite Hv in Hget. inversion Hget; subst v. exact I.
    + destruct (is_not_None v); [|exact I].
      cbn [py_assert]. rewrite bind_Ok. exact (IH Hk).
Qed.

Lemma store_keys_required (env : Env) (cfg : gmap string Value) (k : string) :
  k ∈ cfg_save_keys → cfg !! k = None ∨ cfg !! k = Some VNone →
  raises (Trainer_init env cfg).
Proof.
  intros Hk Hbad. unfold Trainer_init.
  apply raises_bind. intros _ _.
  apply raises_bind. intros _ _.
  apply raises_bind. intros [tpu ids] _.
  apply raises_bind. intros _ _.
  apply raises_bind. intros [m o] _.
  destruct Hbad as [Hnone | Hv].
  - rewrite (forallb_has_key cfg cfg_save_keys k Hk Hnone). exact I.
  - apply raises_bind. intros _ _.
    apply raises_bind_l.
    exact (assert_not_None_raises cfg cfg_save_keys k Hk Hv).
Qed.

Lemma load_checkpoint_database (files : gmap string (gmap string Value))
  (t t' : Trainer) :
  load_checkpoint files t = Ok t' →
  database t' = database t ∧ rank t' = rank t ∧ config t' = config t.
Proof.
  unfold load_checkpoint. intros H.
  do 3 bind_step H. do 5 bind_step H.
  bind_step H. cbv zeta in H. bind_step H. bind_step H. bind_step H.
  bind_step H. bind_step H.
  inversion H; subst t'. repeat split.
Qed.

Lemma Trainer_init_store (env : Env) (cfg : gmap string Value) (t : Trainer) :
  Trainer_init env cfg = Ok t →
  truthy (dict_get cfg "use_mongodb" (USE_MONGODB env)) = false →
  database t = None ∧ is_Some (config t !! "exp_id").
Proof.
  unfold Trainer_init. intros H Hoff.
  apply bind_inv in H as (_ & _ & H). apply bind_inv in H as (_ & _ & H).
  apply bind_inv in H as ([tpu ids] & _ & H).
  apply bind_inv in H as (_ & _ & H).
  apply bind_inv in H as ([m o] & _ & H).
  apply bind_inv in H as (u & Hkeys & H). apply py_assert_inv in Hkeys.
  apply bind_inv in H as (_ & _ & H).
  rewrite Hoff in H. rewrite bind_Ok in H. cbv zeta in H.
  apply bind_inv in H as (_ & _ & H). apply bind_inv in H as (_ & _ & H).
  apply bind_inv in H as (resume & _ & H).
  assert (Hexp : is_Some (cfg !! "exp_id")).
  { cbn [forallb cfg_save_keys] in Hkeys.
    apply andb_true_iff in Hkeys as [_ Hkeys].
    apply andb_true_iff in Hkeys as [_ Hkeys].
    apply andb_true_iff in Hkeys as [Hkeys _].
    unfold has_key in Hkeys.
    destruct (cfg !! "exp_id"); [eauto | discriminate]. }
  destruct (is_not_None resume).
  - destruct tpu.
    + destruct resume; try discriminate.
      apply load_checkpoint_database in H as (Hd & _ & Hc).
      rewrite Hd, Hc. cbn [database config set_config].
      split; [reflexivity|].
      rewrite lookup_insert_ne by discriminate. exact Hexp.
    + apply load_checkpoint_database in H as (Hd & _ & Hc).
      rewrite Hd, Hc. split; [reflexivity | exact Hexp].
  - inversion H; subst t. split; [reflexivity | exact Hexp].
Qed.

(** C10.  Construction raises when one of db_name, coll_name, exp_id is
    missing from the configuration or is [None], whatever [use_mongodb]
    says, so no training starts.  When construction returns and the store
    is disabled, the trainer has no store: [_save_to_db] returns the
    trainer unchanged whenever it returns, it does return for the state
    and keys [save_checkpoint] gives it, and [close_db] changes
    nothing. *)
Theorem store_keys_and_disabled_store (env : Env) (cfg : gmap string Value) :
  (∀ k, k ∈ cfg_save_keys → cfg !! k = None ∨ cfg !! k = Some VNone →
        raises (SupervisedImageNetTrainer_init env cfg)) ∧
  (∀ t, SupervisedImageNetTrainer_init env cfg = Ok t →
        truthy (dict_get cfg "use_mongodb" (USE_MONGODB env)) = false →
        database t = None ∧
        (∀ cs keys t', _save_to_db t cs keys = Ok t' → t' = t) ∧
        (∀ e m o r b,
           _save_to_db t (curr_state_of e m o r b) save_keys_db = Ok t) ∧
        close_db t = t).
Proof.
  split.
  - intros k Hk Hbad. unfold SupervisedImageNetTrainer_init.
    apply raises_bind_l. exact (store_keys_required env cfg k Hk Hbad).
  - intros t H Hoff. unfold SupervisedImageNetTrainer_init in H.
    bind_step H. destruct (Trainer_init_store env cfg a Ha Hoff) as [Hd Hx].
    assert (Hdb : database t = None ∧ config t = config a).
    { inversion H; subst t. cbv zeta.
      destruct (hasattr (results a));
        [destruct (hasattr (best_acc a))
        |destruct (hasattr (best_acc (set_results (Some empty_results) a)))];
        cbn [database config set_best set_results]; rewrite Hd;
        split; reflexivity. }
    destruct Hdb as [Hdb Hcfg].
    split; [exact Hdb|]. split; [|split].
    + intros cs keys t' Hs. apply _save_to_db_inv in Hs as (rec & _ & ->).
      rewrite Hdb. reflexivity.
    + intros e m o r b. rewrite <- Hcfg in Hx. destruct Hx as [x Hx].
      rewrite (_save_to_db_ok t x e m o r b Hx), Hdb. reflexivity.
    + unfold close_db. rewrite Hdb. reflexivity.
Qed.

(** C10 on the sample configuration: without exp_id construction raises,
    although the store is switched off; with the three keys and the store
    switched off it returns a trainer without a store. *)
Lemma store_keys_and_disabled_store_witness :
  raises (SupervisedImageNetTrainer_init (sample_env ∅)
            (delete "exp_id"
               (<["use_mongodb" := VBool false]> (sample_config 3 10 VNone))))
  ∧
  ∃ t, SupervisedImageNetTrainer_init (sample_env ∅)
         (<["use_mongodb" := VBool false]> (sample_config 3 10 VNone)) = Ok t ∧
       database t = None ∧ close_db t = t.
Proof.
  split.
  - destruct (store_keys_and_disabled_store (sample_env ∅)
                (delete "exp_id"
                   (<["use_mongodb" := VBool false]>
                      (sample_config 3 10 VNone)))) as [H _].
    apply (H "exp_id").
    + unfold cfg_save_keys. do 2 apply list_elem_of_further.
      apply list_elem_of_here.
    + left. reflexivity.
  - destruct (SupervisedImageNetTrainer_init (sample_env ∅)
                (<["use_mongodb" := VBool false]> (sample_config 3 10 VNone)))
      as [t|e] eqn:Hinit; [|vm_compute in Hinit; discriminate].
    destruct (store_keys_and_disabled_store (sample_env ∅)
                (<["use_mongodb" := VBool false]> (sample_config 3 10 VNone)))
      as [_ H].
    destruct (H t Hinit) as (Hd & _ & _ & Hc).
    + reflexivity.
    + exists t. split; [reflexivity|]. split; assumption.
Defined.

(** ** The best value, over runs and restores *)

Lemma fresh_best (env : Env) (cfg : gmap string Value) (t : Trainer) :
  SupervisedImageNetTrainer_init env cfg = Ok t →
  cfg !! "resume_checkpoint" = Some VNone →
  best_acc t = Some initial_best_acc.
Proof.
  unfold SupervisedImageNetTrainer_init. intros H Hnone.
  apply bind_inv in H as (t0 & H0 & H).
  assert (Hb0 : best_acc t0 = None).
  { unfold Trainer_init in H0.
    apply bind_inv in H0 as (_ & _ & H0).
    apply bind_inv in H0 as (_ & _ & H0).
    apply bind_inv in H0 as ([tpu ids] & _ & H0).
    apply bind_inv in H0 as (_ & _ & H0).
    apply bind_inv in H0 as ([m o] & _ & H0).
    apply bind_inv in H0 as (_ & _ & H0).
    apply bind_inv in H0 as (_ & _ & H0).
    apply bind_inv in H0 as (db & _ & H0). cbv zeta in H0.
    apply bind_inv in H0 as (_ & _ & H0).
    apply bind_inv in H0 as (_ & _ & H0).
    rewrite (getitem_Some _ _ _ Hnone), bind_Ok in H0.
    cbn [is_not_None] in H0. inversion H0; reflexivity. }
  inversion H; subst t. cbv zeta.
  destruct (hasattr (results t0));
    cbn [best_acc set_results set_best]; rewrite Hb0;
    cbn [hasattr best_acc set_best]; reflexivity.
Qed.

Lemma resumed_best (E : Engine) (files : gmap string (gmap string Value))
  (t t' t'' : Trainer) (path : string) (e : Z) (m o : StateDict)
  (r : Results) (b : Q) (n : nat) (i : Z) :
  config t !! "resume_checkpoint" = Some (VStr path) →
  files !! path = Some (curr_state_of e m o r b) →
  device_set t → results t = None →
  load_checkpoint files t = Ok t' →
  train_loop E n i t' = Ok t'' →
  ∃ b', best_acc t'' = Some b' ∧ (b <= b')%Q.
Proof.
  intros Hp Hf Hd Hres Hload Hrun.
  rewrite (load_checkpoint_ok files t path _ e r m o b Hp Hf Hd Hres
             eq_refl eq_refl eq_refl eq_refl eq_refl) in Hload.
  inversion Hload; subst t'.
  eapply train_loop_best; [|exact Hrun]. reflexivity.
Qed.

(** C5.  [check_best_accuracy] is a pure function: the new best is the
    maximum of candidate and previous best, and the flag is the strict
    comparison, so a candidate that does not exceed the best leaves the
    best unchanged and is not flagged, a tie included.  The initial best,
    -1, lies below every accuracy, accuracies being at least 0, and it is
    the best value of a trainer constructed without a checkpoint.  Along
    any number of epochs the best value never decreases, and after a
    checkpoint is restored it never falls below the saved best. *)
Theorem best_tracker (x best : Q) :
  (fst (check_best_accuracy x best) == Qmax x best)%Q ∧
  (snd (check_best_accuracy x best) = true ↔ (best < x)%Q) ∧
  ((x <= best)%Q →
     (fst (check_best_accuracy x best) == best)%Q ∧
     snd (check_best_accuracy x best) = false) ∧
  (best <= fst (check_best_accuracy x best))%Q ∧
  ((0 <= x)%Q → (initial_best_acc < x)%Q) ∧
  (∀ (E : Engine) (n : nat) (i : Z) (t t' : Trainer),
     best_acc t = Some best → train_loop E n i t = Ok t' →
     ∃ b', best_acc t' = Some b' ∧ (best <= b')%Q) ∧
  (∀ (E : Engine) (files : gmap string (gmap string Value))
     (t t' t'' : Trainer) (path : string) (e : Z) (m o : StateDict)
     (r : Results) (n : nat) (i : Z),
     config t !! "resume_checkpoint" = Some (VStr path) →
     files !! path = Some (curr_state_of e m o r best) →
     device_set t → results t = None →
     load_checkpoint files t = Ok t' →
     train_loop E n i t' = Ok t'' →
     ∃ b', best_acc t'' = Some b' ∧ (best <= b')%Q) ∧
  (∀ (env : Env) (cfg : gmap string Value) (t : Trainer),
     SupervisedImageNetTrainer_init env cfg = Ok t →
     cfg !! "resume_checkpoint" = Some VNone →
     best_acc t = Some initial_best_acc).
Proof.
  unfold check_best_accuracy. cbn [fst snd].
  split; [reflexivity|]. split; [apply Qgtb_true|].
  split; [intros H; split; [apply Q.max_r; exact H | apply Qgtb_false; exact H]|].
  split; [apply Q.le_max_r|].
  split.
  { intros H. unfold initial_best_acc.
    apply Qlt_le_trans with (y := 0%Q); [reflexivity | exact H]. }
  split; [intros E n i t t'; apply train_loop_best|].
  split.
  { intros E files t t' t'' path e m o r n i.
    apply (resumed_best E files t t' t'' path e m o r best n i). }
  intros env cfg t. apply fresh_best.
Qed.

(** C5 at a tie and over a run: the candidate 3/4 against the best 3/4 is
    not flagged, the initial best lies below 3/4, and an epoch of the
    sample job ends with a best value of at least the initial one. *)
Lemma best_tracker_witness :
  ((fst (check_best_accuracy (3 # 4) (3 # 4)) == 3 # 4)%Q ∧
   snd (check_best_accuracy (3 # 4) (3 # 4)) = false) ∧
  (initial_best_acc < 3 # 4)%Q ∧
  ∃ t' b', train_loop sample_engine 1 0 (sample_trainer 3 10) = Ok t' ∧
           best_acc t' = Some b' ∧ (initial_best_acc <= b')%Q.
Proof.
  destruct (best_tracker (3 # 4) (3 # 4)) as (_ & _ & H3 & _ & H5 & _).
  destruct (best_tracker initial_best_acc initial_best_acc)
    as (_ & _ & _ & _ & _ & H6 & _).
  split; [|split].
  - apply H3. apply Qle_refl.
  - apply H5. discriminate.
  - destruct (train_loop sample_engine 1 0 (sample_trainer 3 10))
      as [t'|e] eqn:Hrun; [|vm_compute in Hrun; discriminate].
    destruct (H6 sample_engine 1%nat 0 (sample_trainer 3 10) t' eq_refl Hrun)
      as (b' & Hb' & Hle).
    exists t', b'. split; [reflexivity|]. split; assumption.
Defined.

(** * Further properties of the trainers *)

(** ** Runs that execute no epoch, and runs that cannot validate *)

(** X1.  A trainer whose [current_epoch] is already [num_epochs] or more,
    as after restoring the checkpoint of the final epoch, runs no epoch:
    [train] only closes the store, so no phase runs, nothing is saved and
    the history stays as it is. *)
Theorem finished_job_runs_nothing (E : Engine) (N : Z) (t : Trainer) :
  is_Some (config t !! "save_freq") →
  config t !! "num_epochs" = Some (VInt N) →
  N ≤ current_epoch t →
  train E t = Ok (close_db t) ∧
  snapshots (close_db t) = snapshots t ∧
  records (close_db t) = records t ∧
  results (close_db t) = results t ∧
  validated (close_db t) = validated t ∧
  current_epoch (close_db t) = current_epoch t.
Proof.
  intros [v Hv] HN Hle. split.
  - unfold train, check_key.
    rewrite (has_key_Some _ _ _ Hv), (has_key_Some _ _ _ HN),
      (getitem_Some _ _ _ HN).
    cbn [py_assert]. rewrite !bind_Ok. cbn [as_int]. rewrite bind_Ok.
    replace (Z.to_nat (N - current_epoch t)) with O by lia.
    reflexivity.
  - unfold close_db, records.
    destruct (database t) as [db|] eqn:Edb;
      [destruct (Nat.eqb (rank t) 0)|];
      cbn [snapshots database results validated current_epoch set_database
           mongo_sync_with_host mongo_records];
      rewrite ?Edb; repeat split.
Qed.

(** X1 on the sample job: a trainer already at epoch 10 of 10. *)
Lemma finished_job_runs_nothing_witness :
  train sample_engine (set_current_epoch 10 (sample_trainer 3 10))
  = Ok (close_db (set_current_epoch 10 (sample_trainer 3 10))).
Proof.
  destruct (finished_job_runs_nothing sample_engine 10
              (set_current_epoch 10 (sample_trainer 3 10))) as [H _].
  - eexists. reflexivity.
  - reflexivity.
  - cbn. lia.
  - exact H.
Defined.

Lemma train_one_epoch_runs (E : Engine) (t : Trainer) (r : Results)
  (params : Value) (B : Z) :
  config t !! "optimizer_params" = Some params →
  subscript params "train_batch_size" = Ok (VInt B) →
  world_size t ≠ 0%nat →
  can_log t →
  results t = Some r →
  train_one_epoch E t
  = Ok (let pa := phase_averages (use_tpu t) (world_size t) (rank t)
                    (train_batches E (current_epoch t)) in
        set_results (Some (append_train (fst (fst pa)) (snd (fst pa)) (snd pa) r))
          (set_states
             (Nat.iter (length (train_batches E (current_epoch t)))
                (optimizer_step E) (model t, optimizer t)) t)).
Proof.
  intros Hp HB Hws Hlog Hr.
  unfold train_one_epoch, train_batch_size. cbv zeta.
  rewrite (getitem_Some _ _ _ Hp), bind_Ok, HB, bind_Ok. cbn [as_int].
  rewrite bind_Ok.
  destruct (Nat.eqb (world_size t) 0) eqn:Ew;
    [apply Nat.eqb_eq in Ew; contradiction|].
  rewrite bind_Ok.
  rewrite (train_steps_ok E t _ _ Hlog), bind_Ok.
  fold (run_meters (use_tpu t) (world_size t) (rank t)
          (train_batches E (current_epoch t))).
  fold (phase_averages (use_tpu t) (world_size t) (rank t)
          (train_batches E (current_epoch t))).
  destruct (phase_averages _ _ _ _) as [[l a1] a5].
  cbn [results set_states]. rewrite Hr. reflexivity.
Qed.

(** X2.  [train] checks that save_freq is present, not that it can be
    divided by: with [save_freq = 0] and an epoch left to run, the
    training phase of that epoch runs to its end, [validate] then raises
    [ZeroDivisionError], and so does [train], before any checkpoint of the
    epoch is written. *)
Theorem zero_cadence_raises (E : Engine) (N : Z) (t : Trainer)
  (params : Value) (B : Z) :
  config t !! "save_freq" = Some (VInt 0) →
  config t !! "num_epochs" = Some (VInt N) →
  current_epoch t < N →
  config t !! "optimizer_params" = Some params →
  subscript params "train_batch_size" = Ok (VInt B) →
  world_size t ≠ 0%nat →
  can_log t →
  is_Some (results t) →
  (∃ t1, train_one_epoch E t = Ok t1 ∧
         validate E t1 = Raise ZeroDivisionError) ∧
  train E t = Raise ZeroDivisionError.
Proof.
  intros HF HN Hlt Hp HB Hws Hlog [r Hr].
  assert (Hval : ∀ t1, config t1 = config t →
                       validate E t1 = Raise ZeroDivisionError).
  { intros t1 Hcfg. unfold validate, cadence_hit. rewrite Hcfg.
    rewrite (getitem_Some _ _ _ HF), bind_Ok. reflexivity. }
  split.
  - eexists. split.
    + exact (train_one_epoch_runs E t r params B Hp HB Hws Hlog Hr).
    + apply Hval. reflexivity.
  - unfold train, check_key.
    rewrite (has_key_Some _ _ _ HF), (has_key_Some _ _ _ HN),
      (getitem_Some _ _ _ HN).
    cbn [py_assert]. rewrite !bind_Ok. cbn [as_int]. rewrite bind_Ok.
    destruct (Z.to_nat (N - current_epoch t)) as [|n] eqn:En; [lia|].
    cbn [train_loop]. unfold run_epoch.
    rewrite (train_one_epoch_runs E (set_current_epoch (current_epoch t) t) r
               params B Hp HB Hws Hlog Hr).
    rewrite bind_Ok. rewrite Hval by reflexivity. reflexivity.
Qed.

(** X2 on the sample job with the cadence set to zero. *)
Lemma zero_cadence_raises_witness :
  train sample_engine (sample_trainer 0 10) = Raise ZeroDivisionError.
Proof.
  destruct (zero_cadence_raises sample_engine 10 (sample_trainer 0 10)
              (VDict [("train_batch_size", VInt 8); ("val_batch_size", VInt 8)])
              8) as [_ H].
  - reflexivity.
  - reflexivity.
  - cbn. lia.
  - reflexivity.
  - reflexivity.
  - discriminate.
  - right. reflexivity.
  - eexists. reflexivity.
  - exact H.
Defined.

(** ** What any number of epochs keeps *)

Lemma after_epoch_syncs (F N i : Z) (x : Value) (t : Trainer)
  (r : Results) (b : Q) (s : StateDict * StateDict) (tr va : Q * Q * Q) :
  syncs (after_epoch F N i x t r b s tr va) = syncs t.
Proof.
  unfold syncs. cbn [database after_epoch].
  destruct (database t) as [db|]; [|reflexivity].
  destruct (gate F N i && Nat.eqb (rank t) 0); reflexivity.
Qed.

Lemma after_epoch_records (F N i : Z) (x : Value) (t : Trainer)
  (r : Results) (b : Q) (s : StateDict * StateDict) (tr va : Q * Q * Q) :
  records t `prefix_of` records (after_epoch F N i x t r b s tr va).
Proof.
  unfold records. cbn [database after_epoch].
  destruct (database t) as [db|]; [|reflexivity].
  destruct (gate F N i && Nat.eqb (rank t) 0); [|reflexivity].
  cbn [mongo_save mongo_records]. apply prefix_app_r. reflexivity.
Qed.

Lemma after_epoch_tagged (F N i : Z) (x : Value) (t : Trainer)
  (r : Results) (b : Q) (s : StateDict * StateDict) (tr va : Q * Q * Q) :
  tagged_epochs (after_epoch F N i x t r b s tr va)
  = tagged_epochs t ++ (if gate F N i then [i] else []).
Proof.
  unfold tagged_epochs. cbn [snapshots after_epoch].
  rewrite omap_app. f_equal.
  destruct (gate F N i); reflexivity.
Qed.

Lemma loop_keeps (E : Engine) (F N i : Z) (t : Trainer) (n : nat) :
  configured F N t → ready t →
  ∃ t', train_loop E n i t = Ok t' ∧
    configured F N t' ∧ ready t' ∧
    config t' = config t ∧ rank t' = rank t ∧ use_tpu t' = use_tpu t ∧
    world_size t' = world_size t ∧ gpu_ids t' = gpu_ids t ∧
    syncs t' = syncs t ∧ pushing t' = pushing t ∧
    records t `prefix_of` records t' ∧
    current_epoch t'
    = (if Nat.eqb n 0 then current_epoch t else i + Z.of_nat n - 1) ∧
    tagged_epochs t'
    = tagged_epochs t
      ++ filter (λ e, e mod F = 0 ∨ e = N - 1) (seqZ i (Z.of_nat n)) ∧
    validated t'
    = validated t
      ++ filter (λ e, e mod F = 0 ∨ e = N - 1) (seqZ i (Z.of_nat n)).
Proof.
  intros Hc Hr.
  pose (I := fun (k : nat) (t' : Trainer) =>
    configured F N t' ∧ ready t' ∧
    config t' = config t ∧ rank t' = rank t ∧ use_tpu t' = use_tpu t ∧
    world_size t' = world_size t ∧ gpu_ids t' = gpu_ids t ∧
    syncs t' = syncs t ∧ pushing t' = pushing t ∧
    records t `prefix_of` records t' ∧
    current_epoch t'
    = (if Nat.eqb k 0 then current_epoch t else i + Z.of_nat k - 1) ∧
    tagged_epochs t'
    = tagged_epochs t
      ++ filter (λ e, e mod F = 0 ∨ e = N - 1) (seqZ i (Z.of_nat k)) ∧
    validated t'
    = validated t
      ++ filter (λ e, e mod F = 0 ∨ e = N - 1) (seqZ i (Z.of_nat k))).
  destruct (train_loop_rule E F N i I) with (n := n) (k := O) (t := t)
    as [t' [Hrun HI]].
  - intros k t1 (H1 & H2 & _). split; assumption.
  - intros k t1 x r b s tr va
      (H1 & H2 & H3 & H4 & H5 & H6 & H7 & H8 & H9 & H10 & H11 & H12 & H13)
      Hx Hr1 Hb1.
    destruct (after_epoch_steady F N (i + Z.of_nat k) x t1 r b s tr va H1)
      as [G1 G2].
    split; [exact G1|]. split; [exact G2|].
    split; [exact H3|]. split; [exact H4|]. split; [exact H5|].
    split; [exact H6|]. split; [exact H7|].
    split; [rewrite after_epoch_syncs; exact H8|].
    split; [rewrite after_epoch_pushing; exact H9|].
    split; [etransitivity; [exact H10 | apply after_epoch_records]|].
    split; [cbn [current_epoch after_epoch Nat.eqb]; lia|].
    split.
    + rewrite after_epoch_tagged, H12, seqZ_S, filter_snoc_gate, app_assoc.
      reflexivity.
    + cbn [validated after_epoch].
      rewrite seqZ_S, filter_snoc_gate, app_assoc, <- H13.
      destruct (gate F N (i + Z.of_nat k));
        [reflexivity | rewrite app_nil_r; reflexivity].
  - split; [exact Hc|]. split; [exact Hr|].
    repeat (split; [reflexivity|]).
    rewrite seqZ_nil by reflexivity. rewrite filter_nil, !app_nil_r.
    split; reflexivity.
  - exists t'. rewrite Z.add_0_r in Hrun. cbn [Nat.add] in HI.
    split; [exact Hrun | exact HI].
Qed.

Lemma close_db_keeps (t : Trainer) :
  config (close_db t) = config t ∧ rank (close_db t) = rank t ∧
  use_tpu (close_db t) = use_tpu t ∧ world_size (close_db t) = world_size t ∧
  results (close_db t) = results t ∧ best_acc (close_db t) = best_acc t ∧
  current_epoch (close_db t) = current_epoch t ∧
  snapshots (close_db t) = snapshots t ∧
  validated (close_db t) = validated t ∧
  records (close_db t) = records t ∧
  syncs (close_db t) = (syncs t + if pushing t then 1 else 0)%nat.
Proof.
  unfold close_db, records, syncs, pushing.
  destruct (database t) as [db|] eqn:Edb.
  - destruct (Nat.eqb (rank t) 0);
      cbn [config rank use_tpu world_size results best_acc current_epoch
           snapshots validated database set_database mongo_sync_with_host
           mongo_records mongo_syncs];
      rewrite ?Edb; repeat split; try lia.
  - rewrite Edb. repeat split; try lia.
Qed.

(** ** The store over a whole run *)

(** X3.  Over a whole run the metadata store is closed exactly once, by
    the worker of rank 0 that has a store, after the last epoch; no epoch
    closes it, no other worker does, and the records it held before the
    run are still there, in place, at the end. *)
Theorem store_closed_once (E : Engine) (F N : Z) (t : Trainer) :
  configured F N t → ready t →
  ∃ t', train E t = Ok t' ∧
    syncs t' = (syncs t + if pushing t then 1 else 0)%nat ∧
    records t `prefix_of` records t' ∧
    (∀ n i, ∃ t1, train_loop E n i t = Ok t1 ∧ syncs t1 = syncs t).
Proof.
  intros Hc Hr. rewrite (train_unfold E F N t Hc).
  destruct (loop_keeps E F N (current_epoch t) t
              (Z.to_nat (N - current_epoch t)) Hc Hr)
    as (t1 & Hrun & _ & _ & _ & _ & _ & _ & _ & Hs & Hp & Hrec & _).
  rewrite Hrun, bind_Ok. exists (close_db t1). split; [reflexivity|].
  destruct (close_db_keeps t1)
    as (_ & _ & _ & _ & _ & _ & _ & _ & _ & Hrecs & Hsync).
  split; [rewrite Hsync, Hs, Hp; reflexivity|].
  split; [rewrite Hrecs; exact Hrec|].
  intros n i.
  destruct (loop_keeps E F N i t n Hc Hr)
    as (t2 & Hrun2 & _ & _ & _ & _ & _ & _ & _ & Hs2 & _).
  exists t2. split; assumption.
Qed.

(** X3 on the sample job: one close after ten epochs. *)
Lemma store_closed_once_witness :
  ∃ t', train sample_engine (sample_trainer 3 10) = Ok t' ∧ syncs t' = 1%nat.
Proof.
  destruct (store_closed_once sample_engine 3 10 (sample_trainer 3 10))
    as (t' & Hrun & Hs & _).
  - apply sample_configured. discriminate.
  - apply sample_ready.
  - exists t'. split; [exact Hrun | exact Hs].
Defined.

Lemma configured_transfer (F N : Z) (t t' : Trainer) :
  config t' = config t → world_size t' = world_size t →
  use_tpu t' = use_tpu t → rank t' = rank t →
  configured F N t → configured F N t'.
Proof.
  intros Hc Hw Hu Hr. unfold configured, can_log.
  rewrite Hc, Hw, Hu, Hr. tauto.
Qed.

Lemma close_db_configured (F N : Z) (t : Trainer) :
  configured F N t → ready t →
  configured F N (close_db t) ∧ ready (close_db t).
Proof.
  intros Hc Hr.
  destruct (close_db_keeps t) as (H1 & H2 & H3 & H4 & H5 & H6 & _).
  split.
  - exact (configured_transfer F N t (close_db t) H1 H4 H3 H2 Hc).
  - unfold ready. rewrite H5, H6. exact Hr.
Qed.

(** ** Calling [train] again *)

(** X4.  [train] leaves [current_epoch] at the index of the last epoch it
    ran, [num_epochs - 1], not at [num_epochs].  A second call of [train]
    on the same trainer therefore runs the final epoch once more: it
    writes one more checkpoint, again for epoch [num_epochs - 1]. *)
Theorem second_train_repeats_last_epoch (E : Engine) (F N : Z) (t : Trainer) :
  configured F N t → ready t → current_epoch t < N →
  ∃ t', train E t = Ok t' ∧ current_epoch t' = N - 1 ∧
    ∃ t'', train E t' = Ok t'' ∧
      snapshot_epochs t'' = snapshot_epochs t' ++ [Some (VInt (N - 1))] ∧
      current_epoch t'' = N - 1.
Proof.
  intros Hc Hr Hlt. rewrite (train_unfold E F N t Hc).
  destruct (loop_keeps E F N (current_epoch t) t
              (Z.to_nat (N - current_epoch t)) Hc Hr)
    as (t1 & Hrun & Hc1 & Hr1 & _ & _ & _ & _ & _ & _ & _ & _ & Hce & _).
  rewrite Hrun, bind_Ok. exists (close_db t1). split; [reflexivity|].
  destruct (close_db_keeps t1) as (_ & _ & _ & _ & _ & _ & Hcur & _).
  assert (Hlast : current_epoch (close_db t1) = N - 1).
  { rewrite Hcur, Hce.
    destruct (Nat.eqb (Z.to_nat (N - current_epoch t)) 0) eqn:E0.
    - apply Nat.eqb_eq in E0. lia.
    - lia. }
  split; [exact Hlast|].
  destruct (close_db_configured F N t1 Hc1 Hr1) as [Hc2 Hr2].
  rewrite (train_unfold E F N (close_db t1) Hc2), Hlast.
  replace (Z.to_nat (N - (N - 1))) with 1%nat by lia.
  destruct (loop_keeps E F N (N - 1) (close_db t1) 1 Hc2 Hr2)
    as (t2 & Hrun2 & _ & _ & _ & _ & _ & _ & _ & _ & _ & _ & Hce2 & _).
  destruct (stores_loop E F N (N - 1) (close_db t1) 1 Hc2 Hr2)
    as (t2' & Hrun2' & _ & Hs2 & _).
  rewrite Hrun2 in Hrun2'. inversion Hrun2'; subst t2'.
  rewrite Hrun2, bind_Ok. exists (close_db t2). split; [reflexivity|].
  destruct (close_db_keeps t2) as (_ & _ & _ & _ & _ & _ & Hcur2 & Hsn2 & _).
  split.
  - unfold snapshot_epochs in *. rewrite Hsn2, Hs2. reflexivity.
  - rewrite Hcur2, Hce2. cbn [Nat.eqb Z.of_nat]. lia.
Qed.

(** X4 on the sample job: after ten epochs the trainer stands at epoch 9,
    and a second call runs epoch 9 again. *)
Lemma second_train_repeats_last_epoch_witness :
  ∃ t' t'', train sample_engine (sample_trainer 3 10) = Ok t' ∧
    current_epoch t' = 9 ∧ train sample_engine t' = Ok t'' ∧
    length (snapshot_epochs t'') = 11%nat.
Proof.
  destruct (second_train_repeats_last_epoch sample_engine 3 10
              (sample_trainer 3 10))
    as (t' & Hrun & Hce & t'' & Hrun2 & Hs & _).
  - apply sample_configured. discriminate.
  - apply sample_ready.
  - cbn. lia.
  - exists t', t''. split; [exact Hrun|]. split; [exact Hce|].
    split; [exact Hrun2|].
    rewrite Hs, length_app. cbn [length].
    destruct (resumed_run sample_engine 3 10 (sample_trainer 3 10))
      as (t1 & Hrun1 & Hs1).
    + apply sample_configured. discriminate.
    + apply sample_ready.
    + rewrite Hrun in Hrun1. inversion Hrun1; subst t1.
      rewrite Hs1. reflexivity.
Defined.

(** ** One cadence for validation, tagged saves and pushes *)

(** X5.  The local save is given a [save_epoch] in exactly the epochs in
    which validation ran, and on the worker that pushes these are also the
    epochs of the records pushed: the three follow one condition, so a
    tagged checkpoint always belongs to a validated epoch. *)
Theorem tagged_saves_follow_validation (E : Engine) (F N i : Z)
  (t : Trainer) (n : nat) :
  configured F N t → ready t →
  ∃ t' hits, train_loop E n i t = Ok t' ∧
    hits = filter (λ e, e mod F = 0 ∨ e = N - 1) (seqZ i (Z.of_nat n)) ∧
    tagged_epochs t' = tagged_epochs t ++ hits ∧
    validated t' = validated t ++ hits ∧
    (pushing t = true →
     record_epochs t'
     = record_epochs t ++ ((fun e => Some (VInt e)) <$> hits)).
Proof.
  intros Hc Hr.
  destruct (loop_keeps E F N i t n Hc Hr)
    as (t1 & Hrun & _ & _ & _ & _ & _ & _ & _ & _ & _ & _ & _ & Htag & Hval).
  destruct (stores_loop E F N i t n Hc Hr) as (t2 & Hrun2 & _ & _ & Hrec).
  rewrite Hrun in Hrun2. inversion Hrun2; subst t2.
  exists t1. eexists. split; [exact Hrun|]. split; [reflexivity|].
  split; [exact Htag|]. split; [exact Hval|].
  intros Hp. rewrite Hp in Hrec. exact Hrec.
Qed.

(** X5 on the sample job: the tagged saves of ten epochs are those of the
    epochs 0, 3, 6 and 9. *)
Lemma tagged_saves_follow_validation_witness :
  ∃ t', train_loop sample_engine 10 0 (sample_trainer 3 10) = Ok t' ∧
    tagged_epochs t' = [0; 3; 6; 9] ∧ validated t' = [0; 3; 6; 9].
Proof.
  destruct (tagged_saves_follow_validation sample_engine 3 10 0
              (sample_trainer 3 10) 10)
    as (t' & hits & Hrun & Hhits & Htag & Hval & _).
  - apply sample_configured. discriminate.
  - apply sample_ready.
  - exists t'. split; [exact Hrun|]. rewrite Htag, Hval, Hhits.
    split; reflexivity.
Defined.

(** ** The best value as a running maximum *)

Lemma Qmax_cases (x y : Q) : Qmax x y = x ∨ Qmax x y = y.
Proof.
  unfold Qmax, GenericMinMax.gmax. destruct (x ?= y)%Q; auto.
Qed.

Lemma best_over_snoc (b0 x : Q) (new : list Q) :
  best_over b0 (new ++ [x]) = fst (check_best_accuracy x (best_over b0 new)).
Proof. unfold best_over. rewrite fold_left_app. reflexivity. Qed.

Lemma best_over_bounds (new : list Q) :
  ∀ b0 : Q,
    Forall (λ x, (x <= best_over b0 new)%Q) new ∧
    (b0 <= best_over b0 new)%Q ∧
    (best_over b0 new = b0 ∨ best_over b0 new ∈ new).
Proof.
  induction new as [|x new IH]; intros b0.
  - split; [constructor|]. split; [apply Qle_refl | left; reflexivity].
  - change (best_over b0 (x :: new)) with (best_over (Qmax x b0) new).
    destruct (IH (Qmax x b0)) as (Hall & Hle & Hin).
    split; [|split].
    + constructor; [|exact Hall].
      eapply Qle_trans; [apply Q.le_max_l | exact Hle].
    + eapply Qle_trans; [apply Q.le_max_r | exact Hle].
    + destruct Hin as [Heq | Hin].
      * rewrite Heq. destruct (Qmax_cases x b0) as [-> | ->].
        -- right. apply list_elem_of_here.
        -- left. reflexivity.
      * right. apply list_elem_of_further. exact Hin.
Qed.

(** X6.  Over any number of epochs the best value is the running maximum
    of the validation top-1 averages: it is what [check_best_accuracy]
    leaves after the averages appended to the history since the start,
    taken in order; it bounds each of them and the value the run started
    with, and it is one of these values. *)
Theorem best_is_running_maximum (E : Engine) (F N i : Z) (t : Trainer)
  (r0 : Results) (b0 : Q) (n : nat) :
  configured F N t → results t = Some r0 → best_acc t = Some b0 →
  ∃ t' r' new, train_loop E n i t = Ok t' ∧
    results t' = Some r' ∧
    val_series (accs_top1 r') = val_series (accs_top1 r0) ++ new ∧
    best_acc t' = Some (best_over b0 new) ∧
    Forall (λ x, (x <= best_over b0 new)%Q) new ∧
    (b0 <= best_over b0 new)%Q ∧
    (best_over b0 new = b0 ∨ best_over b0 new ∈ new).
Proof.
  intros Hc Hr Hb.
  pose (I := fun (k : nat) (t' : Trainer) =>
    configured F N t' ∧ ready t' ∧
    ∃ r' new, results t' = Some r' ∧
      val_series (accs_top1 r') = val_series (accs_top1 r0) ++ new ∧
      best_acc t' = Some (best_over b0 new)).
  destruct (train_loop_rule E F N i I) with (n := n) (k := O) (t := t)
    as [t' [Hrun (_ & _ & r' & new & Hr' & Hv & Hb')]].
  - intros k t1 (H1 & H2 & _). split; assumption.
  - intros k t1 x r b s tr va (H1 & H2 & r' & new & Hr' & Hv & Hb') Hx Hr1 Hb1.
    destruct (after_epoch_steady F N (i + Z.of_nat k) x t1 r b s tr va H1)
      as [G1 G2].
    split; [exact G1|]. split; [exact G2|].
    rewrite Hr1 in Hr'. inversion Hr'; subst r'.
    rewrite Hb1 in Hb'. inversion Hb'; subst b.
    cbn [results best_acc after_epoch].
    destruct (gate F N (i + Z.of_nat k)).
    + eexists. exists (new ++ [snd (fst va)]).
      split; [reflexivity|]. split.
      * cbn [append_val append_train accs_top1 val_series].
        rewrite Hv, app_assoc. reflexivity.
      * rewrite best_over_snoc. reflexivity.
    + eexists. exists new. split; [reflexivity|]. split.
      * cbn [append_train accs_top1 val_series]. exact Hv.
      * reflexivity.
  - split; [exact Hc|]. split; [split; eauto|].
    exists r0, []. split; [exact Hr|]. split.
    + rewrite app_nil_r. reflexivity.
    + exact Hb.
  - exists t', r', new. rewrite Z.add_0_r in Hrun.
    split; [exact Hrun|]. split; [exact Hr'|]. split; [exact Hv|].
    split; [exact Hb'|]. apply best_over_bounds.
Qed.

(** X6 on the sample job: after ten epochs the best value is 9/10, the
    largest of the four validation averages 0, 3/10, 6/10 and 9/10. *)
Lemma best_is_running_maximum_witness :
  ∃ t' b, train_loop sample_engine 10 0 (sample_trainer 3 10) = Ok t' ∧
    best_acc t' = Some b ∧ (b == 9 # 10)%Q.
Proof.
  destruct (best_is_running_maximum sample_engine 3 10 0
              (sample_trainer 3 10) empty_results initial_best_acc 10)
    as (t' & r' & new & Hrun & Hr' & Hv & Hb & _).
  - apply sample_configured. discriminate.
  - reflexivity.
  - reflexivity.
  - exists t'. eexists. split; [exact Hrun|]. split; [exact Hb|].
    assert (Hrun' := Hrun). vm_compute in Hrun'.
    inversion Hrun'; subst t'. clear Hrun Hrun'.
    vm_compute in Hr'. inversion Hr'; subst r'. clear Hr'.
    vm_compute in Hv. inversion Hv; subst new. reflexivity.
Defined.

(** ** What a checkpoint holds *)

(** X7.  Whenever an epoch returns, the state it handed to the local save
    is the state the trainer is left in: the epoch just run, the model and
    optimizer as they are after the epoch's training, the history with the
    epoch's entries, the best value after the epoch's validation, and the
    flag the trainer now holds.  Nothing the epoch did is missing from its
    checkpoint. *)
Theorem checkpoint_reflects_epoch_end (E : Engine) (i : Z) (t t' : Trainer) :
  run_epoch E i t = Ok t' →
  ∃ c r b,
    snapshots t' = snapshots t ++ [c] ∧
    results t' = Some r ∧ best_acc t' = Some b ∧ current_epoch t' = i ∧
    sc_state c = curr_state_of i (model t') (optimizer t') r b ∧
    sc_is_best c = is_best t' ∧
    sc_rank c = rank t' ∧ sc_tpu c = use_tpu t'.
Proof.
  intros H.
  apply run_epoch_inv in H as (t1 & t2 & H1 & H2 & H3).
  apply train_one_epoch_inv in H1 as (r1 & l & a1 & a5 & s & _ & _ & ->).
  apply validate_inv in H2 as (hit & _ & H2).
  apply save_checkpoint_inv in H3
    as (r & b & hit3 & t3 & Hr & Hb & _ & Hdb & ->).
  assert (Ht3 : t3 = set_database (database t3) t2).
  { destruct hit3; [|subst t3; destruct t2; reflexivity].
    apply _save_to_db_frame in Hdb as [Hdb _]. exact Hdb. }
  assert (Ht2 : snapshots t2 = snapshots t ∧ current_epoch t2 = i).
  { destruct hit.
    - destruct H2 as (r2 & b2 & vl & va1 & va5 & _ & _ & _ & ->).
      split; reflexivity.
    - subst t2. split; reflexivity. }
  destruct Ht2 as [Hsn Hce].
  eexists. exists r, b. rewrite Ht3.
  cbn [snapshots results best_acc current_epoch model optimizer is_best rank
       use_tpu add_snapshot set_database sc_state sc_is_best sc_rank sc_tpu].
  rewrite Hsn, Hce. repeat split; assumption.
Qed.

(** X7 at epoch 0 of the sample job. *)
Lemma checkpoint_reflects_epoch_end_witness :
  ∃ t' c, run_epoch sample_engine 0 (sample_trainer 3 10) = Ok t' ∧
    snapshots t' = [c] ∧ sc_is_best c = is_best t'.
Proof.
  destruct (run_epoch sample_engine 0 (sample_trainer 3 10)) as [t'|e]
    eqn:Hrun; [|vm_compute in Hrun; discriminate].
  destruct (checkpoint_reflects_epoch_end sample_engine 0
              (sample_trainer 3 10) t' Hrun)
    as (c & r & b & Hsn & _ & _ & _ & _ & Hflag & _).
  exists t', c. split; [reflexivity|]. split; [exact Hsn | exact Hflag].
Defined.

(** ** The progress message of the other GPU workers *)

Lemma log_step_other_worker (t : Trainer) (step : Z) :
  use_tpu t = false → rank t ≠ 0%nat →
  log_step t step
  = if step mod 10 =? 0 then Raise UnboundLocalError else Ok tt.
Proof.
  intros Htpu Hrk. unfold log_step. rewrite Htpu.
  destruct (Nat.eqb (rank t) 0) eqn:E0;
    [apply Nat.eqb_eq in E0; contradiction|].
  reflexivity.
Qed.

Lemma train_steps_raises (E : Engine) (t : Trainer) (nb : Z)
  (bs : list Batch) :
  use_tpu t = false → rank t ≠ 0%nat →
  ∀ (i : Z) (s : StateDict * StateDict) (ms : Meters),
    (∃ j : nat, (j < length bs)%nat ∧
                (current_epoch t * nb + (i + Z.of_nat j)) mod 10 = 0) →
    train_steps E t nb i bs s ms = Raise UnboundLocalError.
Proof.
  intros Htpu Hrk. induction bs as [|b bs IH]; intros i s ms (j & Hj & Hmod).
  - cbn in Hj. lia.
  - cbn [train_steps]. cbv zeta.
    rewrite (log_step_other_worker t _ Htpu Hrk).
    destruct ((current_epoch t * nb + i) mod 10 =? 0) eqn:E0;
      [reflexivity|].
    rewrite bind_Ok. apply IH.
    destruct j as [|j].
    + apply Z.eqb_neq in E0. rewrite Z.add_0_r in Hmod. contradiction.
    + exists j. split; [cbn in Hj; lia|].
      replace (i + 1 + Z.of_nat j) with (i + Z.of_nat (S j)) by lia.
      exact Hmod.
Qed.

Lemma train_steps_passes (E : Engine) (t : Trainer) (nb : Z)
  (bs : list Batch) :
  use_tpu t = false → rank t ≠ 0%nat →
  ∀ (i : Z) (s : StateDict * StateDict) (ms : Meters),
    (∀ j : nat, (j < length bs)%nat →
                (current_epoch t * nb + (i + Z.of_nat j)) mod 10 ≠ 0) →
    train_steps E t nb i bs s ms
    = Ok (Nat.iter (length bs) (optimizer_step E) s,
          fold_left (meters_step (use_tpu t) (world_size t) (rank t)) bs ms).
Proof.
  intros Htpu Hrk. induction bs as [|b bs IH]; intros i s ms Hno;
    [reflexivity|].
  cbn [train_steps]. cbv zeta.
  rewrite (log_step_other_worker t _ Htpu Hrk).
  destruct ((current_epoch t * nb + i) mod 10 =? 0) eqn:E0.
  - apply Z.eqb_eq in E0. exfalso. apply (Hno O); [cbn; lia|].
    rewrite Z.add_0_r. exact E0.
  - rewrite bind_Ok, IH.
    + cbn [length fold_left]. rewrite iter_shift. reflexivity.
    + intros j Hj.
      replace (i + 1 + Z.of_nat j) with (i + Z.of_nat (S j)) by lia.
      apply Hno. cbn. lia.
Qed.

Lemma multiple_of_ten_within (c : Z) :
  ∃ j : nat, (j < 10)%nat ∧ (c + Z.of_nat j) mod 10 = 0.
Proof.
  exists (Z.to_nat ((- c) mod 10)).
  pose proof (Z.mod_pos_bound (- c) 10 ltac:(lia)) as Hb.
  pose proof (Z.div_mod (- c) 10 ltac:(lia)) as Hdm.
  split; [lia|]. rewrite Z2Nat.id by lia.
  replace (c + (- c) mod 10) with ((- ((- c) / 10)) * 10) by lia.
  apply Z.mod_mul. lia.
Qed.

(** X8.  Without TPU a worker of rank other than 0 takes the [else]
    branch of the progress message, which formats [tracker.rate()] at
    every step whose global index is a multiple of 10; [tracker] is bound
    only on TPU.  So on such a worker [train_one_epoch] raises
    [UnboundLocalError] as soon as the epoch has a step with such an
    index: always in epoch 0 of a loader that is not empty, and in every
    epoch of a loader of ten batches or more.  It returns only from an
    epoch none of whose step indices is a multiple of 10. *)
Theorem other_gpu_workers_stop_at_logging (E : Engine) (t : Trainer) (B : Z) :
  use_tpu t = false → rank t ≠ 0%nat → train_batch_size t = Ok B →
  ((∃ j : nat,
      (j < length (train_batches E (current_epoch t)))%nat ∧
      (current_epoch t * Z.of_nat (length (train_batches E (current_epoch t)))
       + Z.of_nat j) mod 10 = 0) →
   train_one_epoch E t = Raise UnboundLocalError) ∧
  (current_epoch t = 0 → train_batches E (current_epoch t) ≠ [] →
   train_one_epoch E t = Raise UnboundLocalError) ∧
  ((10 ≤ length (train_batches E (current_epoch t)))%nat →
   train_one_epoch E t = Raise UnboundLocalError) ∧
  ((∀ j : nat,
      (j < length (train_batches E (current_epoch t)))%nat →
      (current_epoch t * Z.of_nat (length (train_batches E (current_epoch t)))
       + Z.of_nat j) mod 10 ≠ 0) →
   is_Some (results t) →
   ∃ t', train_one_epoch E t = Ok t').
Proof.
  intros Htpu Hrk HB.
  assert (Hraise :
    (∃ j : nat,
       (j < length (train_batches E (current_epoch t)))%nat ∧
       (current_epoch t * Z.of_nat (length (train_batches E (current_epoch t)))
        + Z.of_nat j) mod 10 = 0) →
    train_one_epoch E t = Raise UnboundLocalError).
  { intros (j & Hj & Hmod). unfold train_one_epoch. cbv zeta.
    rewrite HB, bind_Ok.
    rewrite (train_steps_raises E t _ _ Htpu Hrk); [reflexivity|].
    exists j. split; [exact Hj|]. rewrite Z.add_0_l. exact Hmod. }
  split; [exact Hraise|]. split; [|split].
  - intros H0 Hne. apply Hraise. exists O. split.
    + destruct (train_batches E (current_epoch t)); [contradiction | cbn; lia].
    + rewrite H0. reflexivity.
  - intros Hten. apply Hraise.
    destruct (multiple_of_ten_within
                (current_epoch t
                 * Z.of_nat (length (train_batches E (current_epoch t)))))
      as (j & Hj & Hmod).
    exists j. split; [lia | exact Hmod].
  - intros Hno [r Hr]. unfold train_one_epoch. cbv zeta.
    rewrite HB, bind_Ok.
    rewrite (train_steps_passes E t _ _ Htpu Hrk).
    + rewrite bind_Ok. destruct (averages_of _ _ _ _ _) as [[l a1] a5].
      cbn [results set_states]. rewrite Hr. cbn [getattr]. rewrite bind_Ok.
      eexists. reflexivity.
    + intros j Hj. rewrite Z.add_0_l. apply Hno. exact Hj.
Qed.

(** X8 on the second worker of the sample job: epoch 0 raises at its
    first step, and epoch 1, whose steps are 3, 4 and 5, returns. *)
Lemma other_gpu_workers_stop_at_logging_witness :
  train_one_epoch sample_engine (sample_trainer_rank1 3 10)
  = Raise UnboundLocalError ∧
  ∃ t', train_one_epoch sample_engine
          (set_current_epoch 1 (sample_trainer_rank1 3 10)) = Ok t'.
Proof.
  split.
  - destruct (other_gpu_workers_stop_at_logging sample_engine
                (sample_trainer_rank1 3 10) 4) as (_ & H & _).
    + reflexivity.
    + discriminate.
    + reflexivity.
    + apply H; [reflexivity | discriminate].
  - destruct (other_gpu_workers_stop_at_logging sample_engine
                (set_current_epoch 1 (sample_trainer_rank1 3 10)) 4)
      as (_ & _ & _ & H).
    + reflexivity.
    + discriminate.
    + reflexivity.
    + apply H.
      * intros j Hj. cbn in Hj.
        destruct j as [|[|[|j]]]; [discriminate | discriminate | discriminate
                                  | lia].
      * eexists. reflexivity.
Defined.

(** ** [_save_to_db] on any state and any keys *)

Lemma dict_select_missing (cs : gmap string Value) (keys : list string)
  (k : string) :
  k ∈ keys → cs !! k = None → dict_select cs keys = Raise KeyError.
Proof.
  intros Hk Hnone. induction keys as [|k' ks IH].
  - apply elem_of_nil in Hk. contradiction.
  - cbn [dict_select]. unfold getitem at 1.
    destruct (cs !! k') as [v|] eqn:Ek'; [|reflexivity].
    rewrite bind_Ok.
    apply elem_of_cons in Hk as [-> | Hk]; [congruence|].
    rewrite (IH Hk). reflexivity.
Qed.

Lemma dict_select_present (cs : gmap string Value) (keys : list string) :
  (∀ k, k ∈ keys → is_Some (cs !! k)) →
  ∃ m, dict_select cs keys = Ok m ∧
    dom m = (list_to_set keys : gset string) ∧
    (∀ k, k ∈ keys → m !! k = cs !! k).
Proof.
  induction keys as [|k' ks IH]; intros Hall.
  - exists ∅. split; [reflexivity|]. split; [apply dom_empty_L|].
    intros k Hk. apply elem_of_nil in Hk. contradiction.
  - destruct (Hall k' (list_elem_of_here _ _)) as [v Hv].
    destruct IH as (m & Hm & Hdom & Hlook).
    { intros k Hk. apply Hall. apply list_elem_of_further. exact Hk. }
    exists (<[k' := v]> m). split; [|split].
    + cbn [dict_select]. rewrite (getitem_Some _ _ _ Hv), bind_Ok, Hm.
      reflexivity.
    + rewrite dom_insert_L, Hdom. reflexivity.
    + intros k Hk. destruct (decide (k = k')) as [-> | Hne].
      * rewrite lookup_insert_eq. symmetry. exact Hv.
      * rewrite lookup_insert_ne by congruence.
        apply elem_of_cons in Hk as [Hk | Hk]; [contradiction|].
        apply Hlook. exact Hk.
Qed.

(** X9.  [_save_to_db] builds the record before it looks at the rank or at
    the store, so on every worker, with or without a store, it raises
    [KeyError] when the configuration has no exp_id or when the state
    lacks one of the keys to save; with all of them present it returns on
    every worker. *)
Theorem save_to_db_needs_every_key (t : Trainer) (cs : gmap string Value)
  (keys : list string) :
  (config t !! "exp_id" = None → _save_to_db t cs keys = Raise KeyError) ∧
  (∀ k, k ∈ keys → cs !! k = None →
        _save_to_db t cs keys = Raise KeyError) ∧
  (is_Some (config t !! "exp_id") →
   (∀ k, k ∈ keys → is_Some (cs !! k)) →
   ∃ t', _save_to_db t cs keys = Ok t').
Proof.
  split; [|split].
  - intros Hnone. unfold _save_to_db, db_record, getitem.
    rewrite Hnone. reflexivity.
  - intros k Hk Hnone. unfold _save_to_db, db_record.
    unfold getitem at 1.
    destruct (config t !! "exp_id"); [|reflexivity].
    rewrite bind_Ok, (dict_select_missing cs keys k Hk Hnone). reflexivity.
  - intros [x Hx] Hall.
    destruct (dict_select_present cs keys Hall) as (m & Hm & _).
    unfold _save_to_db, db_record.
    rewrite (getitem_Some _ _ _ Hx), bind_Ok, Hm, !bind_Ok.
    destruct (database t); [destruct (Nat.eqb (rank t) 0)|]; eexists;
      reflexivity.
Qed.

(** X9 on the second sample worker, which never pushes: a key the state
    does not have still raises. *)
Lemma save_to_db_needs_every_key_witness :
  _save_to_db (sample_trainer_rank1 3 10) sample_checkpoint ["epoch"; "lr"]
  = Raise KeyError ∧
  ∃ t', _save_to_db (sample_trainer_rank1 3 10) sample_checkpoint ["epoch"]
        = Ok t'.
Proof.
  destruct (save_to_db_needs_every_key (sample_trainer_rank1 3 10)
              sample_checkpoint ["epoch"; "lr"]) as (_ & H2 & _).
  destruct (save_to_db_needs_every_key (sample_trainer_rank1 3 10)
              sample_checkpoint ["epoch"]) as (_ & _ & H3).
  split.
  - apply (H2 "lr"); [|reflexivity].
    apply list_elem_of_further, list_elem_of_here.
  - apply H3.
    + eexists. reflexivity.
    + intros k Hk. apply elem_of_cons in Hk as [-> | Hk].
      * eexists. reflexivity.
      * apply elem_of_nil in Hk. contradiction.
Defined.

(** X10.  The record rank 0 pushes holds, for every key to save, the
    value the state has for it, and the configured exp_id; its keys are
    exp_id and the keys to save and no other.  When exp_id is itself among
    the keys to save, the value of the state replaces the configured
    one. *)
Theorem pushed_record_content (t : Trainer) (db : MongoInterface)
  (x : Value) (cs : gmap string Value) (keys : list string) :
  rank t = 0%nat → database t = Some db →
  config t !! "exp_id" = Some x →
  (∀ k, k ∈ keys → is_Some (cs !! k)) →
  ∃ record,
    _save_to_db t cs keys = Ok (set_database (Some (mongo_save db record)) t) ∧
    dom record = ({["exp_id"]} ∪ list_to_set keys : gset string) ∧
    (∀ k, k ∈ keys → record !! k = cs !! k) ∧
    ("exp_id" ∉ keys → record !! "exp_id" = Some x).
Proof.
  intros Hrk Hdb Hx Hall.
  destruct (dict_select_present cs keys Hall) as (m & Hm & Hdom & Hlook).
  exists (dict_update {["exp_id" := x]} m). split; [|split; [|split]].
  - unfold _save_to_db, db_record.
    rewrite (getitem_Some _ _ _ Hx), bind_Ok, Hm, !bind_Ok, Hdb, Hrk.
    reflexivity.
  - unfold dict_update. rewrite dom_union_L, dom_singleton_L, Hdom.
    apply union_comm_L.
  - intros k Hk. unfold dict_update.
    destruct (Hall k Hk) as [v Hv].
    assert (Hmv : m !! k = Some v) by (rewrite (Hlook k Hk); exact Hv).
    rewrite (lookup_union_Some_l _ _ _ _ Hmv). symmetry. exact Hv.
  - intros Hnot. unfold dict_update.
    assert (Hm_none : m !! "exp_id" = None).
    { apply not_elem_of_dom. rewrite Hdom.
      intros Hin. apply elem_of_list_to_set in Hin. contradiction. }
    rewrite lookup_union_r by exact Hm_none.
    apply lookup_singleton_eq.
Qed.

(** X10 on the first sample worker, with exp_id among the keys to save. *)
Lemma pushed_record_content_witness :
  ∃ record,
    _save_to_db (sample_trainer 3 10)
      (<["exp_id" := VStr "other"]> sample_checkpoint) ["epoch"; "exp_id"]
    = Ok (set_database (Some (mongo_save (mkMongo [] 0) record))
            (sample_trainer 3 10)) ∧
    record !! "exp_id" = Some (VStr "other").
Proof.
  destruct (pushed_record_content (sample_trainer 3 10) (mkMongo [] 0)
              (VStr "exp0") (<["exp_id" := VStr "other"]> sample_checkpoint)
              ["epoch"; "exp_id"])
    as (record & Hrun & _ & Hlook & _).
  - reflexivity.
  - reflexivity.
  - reflexivity.
  - intros k Hk. apply elem_of_cons in Hk as [-> | Hk];
      [eexists; reflexivity|].
    apply elem_of_cons in Hk as [-> | Hk]; [eexists; reflexivity|].
    apply elem_of_nil in Hk. contradiction.
  - exists record. split; [exact Hrun|].
    rewrite (Hlook "exp_id").
    + reflexivity.
    + apply list_elem_of_further, list_elem_of_here.
Defined.

(** ** Construction, read backwards *)

Lemma load_checkpoint_inv (files : gmap string (gmap string Value))
  (t t' : Trainer) :
  load_checkpoint files t = Ok t' →
  ∃ path cpt e r m o b,
    config t !! "resume_checkpoint" = Some (VStr path) ∧
    files !! path = Some cpt ∧
    (use_tpu t = true ∨ ∃ id, gpu_ids t = Some [id]) ∧
    (∀ k, k ∈ required_keys → is_Some (cpt !! k)) ∧
    getitem cpt "epoch" ≫= as_int = Ok e ∧
    getitem cpt "results" ≫= as_results = Ok r ∧
    getitem cpt "state_dict" ≫= as_state = Ok m ∧
    getitem cpt "optimizer" ≫= as_state = Ok o ∧
    getitem cpt "curr_best_acc" ≫= as_float = Ok b ∧
    results t = None ∧
    t' = set_best (Some b) (is_best t)
           (set_states (m, o)
              (set_results (Some r) (set_current_epoch (e + 1) t))).
Proof.
  unfold load_checkpoint. intros H.
  apply bind_inv in H as (_ & _ & H).
  apply bind_inv in H as (p & Hp & H). apply getitem_inv in Hp.
  apply bind_inv in H as (cpt & Hcpt & H).
  destruct p as [| | | |path| | | |]; try discriminate Hcpt.
  destruct (files !! path) as [cpt'|] eqn:Hf; [|discriminate Hcpt].
  assert (Hdev : (use_tpu t = true ∨ ∃ id, gpu_ids t = Some [id]) ∧ cpt' = cpt).
  { destruct (use_tpu t) eqn:Htpu.
    - inversion Hcpt. split; [left; reflexivity | reflexivity].
    - apply bind_inv in Hcpt as (ids & Hids & Hcpt).
      apply getattr_inv in Hids.
      apply bind_inv in Hcpt as (u & Hlen & Hcpt).
      apply py_assert_inv in Hlen. apply Nat.eqb_eq in Hlen.
      inversion Hcpt. split; [|reflexivity]. right.
      destruct ids as [|id [|id' ids]]; try discriminate Hlen.
      exists id. exact Hids. }
  destruct Hdev as [Hdev ->].
  apply bind_inv in H as (u1 & H1 & H). apply py_assert_inv in H1.
  apply bind_inv in H as (u2 & H2 & H). apply py_assert_inv in H2.
  apply bind_inv in H as (u3 & H3 & H). apply py_assert_inv in H3.
  apply bind_inv in H as (u4 & H4 & H). apply py_assert_inv in H4.
  apply bind_inv in H as (u5 & H5 & H). apply py_assert_inv in H5.
  apply bind_inv in H as (e & He & H). cbv zeta in H.
  apply bind_inv in H as (u6 & H6 & H). apply py_assert_inv in H6.
  apply bind_inv in H as (r & Hr & H).
  apply bind_inv in H as (m & Hm & H).
  apply bind_inv in H as (o & Ho & H).
  apply bind_inv in H as (b & Hb & H).
  exists path, cpt, e, r, m, o, b.
  split; [exact Hp|]. split; [exact Hf|]. split; [exact Hdev|].
  split.
  { assert (Hkey : ∀ k, has_key cpt k = true → is_Some (cpt !! k)).
    { intros k Hk. unfold has_key in Hk.
      destruct (cpt !! k); [eauto | discriminate]. }
    intros k Hk. unfold required_keys in Hk.
    repeat (apply elem_of_cons in Hk as [-> | Hk]; [apply Hkey; assumption|]).
    apply elem_of_nil in Hk. contradiction. }
  split; [exact He|]. split; [exact Hr|]. split; [exact Hm|].
  split; [exact Ho|]. split; [exact Hb|]. split.
  - destruct t. cbn in H6 |- *.
    match goal with |- ?x = None => destruct x end;
      [discriminate H6 | reflexivity].
  - inversion H. destruct t. reflexivity.
Qed.

(** X11.  A checkpoint is restored into a trainer under construction
    only: [load_checkpoint] asserts that the trainer has no history yet,
    so on a trainer that has one, as every constructed
    [SupervisedImageNetTrainer] has, it never returns, and with a complete
    checkpoint at the configured path it raises [AssertionError]. *)
Theorem restore_only_during_construction
  (files : gmap string (gmap string Value)) (t : Trainer) :
  is_Some (results t) →
  raises (load_checkpoint files t) ∧
  (∀ path cpt e,
     config t !! "resume_checkpoint" = Some (VStr path) →
     files !! path = Some cpt → device_set t →
     (∀ k, k ∈ required_keys → is_Some (cpt !! k)) →
     cpt !! "epoch" = Some (VInt e) →
     load_checkpoint files t = Raise AssertionError).
Proof.
  intros [r Hr]. split.
  - destruct (load_checkpoint files t) as [t'|e] eqn:H; [|exact I].
    apply load_checkpoint_inv in H
      as (path & cpt & e & r' & m & o & b & _ & _ & _ & _ & _ & _ & _ & _ & _
          & Hnone & _).
    congruence.
  - intros path cpt e Hp Hf Hd Hall He.
    rewrite (load_checkpoint_open files t path cpt Hp Hf Hd).
    assert (Hkey : ∀ k, k ∈ required_keys → has_key cpt k = true).
    { intros k Hk. destruct (Hall k Hk) as [v Hv].
      exact (has_key_Some _ _ _ Hv). }
    unfold required_keys in Hkey.
    rewrite (Hkey "epoch") by apply list_elem_of_here.
    rewrite (Hkey "results")
      by (apply list_elem_of_further, list_elem_of_here).
    rewrite (Hkey "state_dict")
      by (do 2 apply list_elem_of_further; apply list_elem_of_here).
    rewrite (Hkey "optimizer")
      by (do 3 apply list_elem_of_further; apply list_elem_of_here).
    rewrite (Hkey "curr_best_acc")
      by (do 4 apply list_elem_of_further; apply list_elem_of_here).
    cbn [py_assert]. rewrite !bind_Ok.
    rewrite (getitem_Some _ _ _ He), bind_Ok. cbn [as_int].
    rewrite bind_Ok. cbv zeta. cbn [results set_current_epoch].
    rewrite Hr. reflexivity.
Qed.

(** X11 on the constructed sample trainer, pointed at a complete
    checkpoint. *)
Lemma restore_only_during_construction_witness :
  load_checkpoint {["ckpt" := sample_checkpoint]}
    (set_config (sample_config 3 10 (VStr "ckpt")) (sample_trainer 3 10))
  = Raise AssertionError.
Proof.
  destruct (restore_only_during_construction
              {["ckpt" := sample_checkpoint]}
              (set_config (sample_config 3 10 (VStr "ckpt"))
                 (sample_trainer 3 10))) as [_ H].
  - eexists. reflexivity.
  - apply (H "ckpt" sample_checkpoint 0).
    + reflexivity.
    + reflexivity.
    + right. exists 0. reflexivity.
    + intros k Hk. unfold required_keys in Hk.
      repeat (apply elem_of_cons in Hk as [-> | Hk];
              [eexists; reflexivity|]).
      apply elem_of_nil in Hk. contradiction.
    + reflexivity.
Defined.



Lemma as_results_inv (d : gmap string Value) (k : string) (r : Results) :
  getitem d k ≫= as_results = Ok r → d !! k = Some (VResults r).
Proof.
  intros H. apply bind_inv in H as (v & Hv & H). apply getitem_inv in Hv.
  destruct v; try discriminate H. inversion H; subst. exact Hv.
Qed.

Lemma as_state_inv (d : gmap string Value) (k : string) (s : StateDict) :
  getitem d k ≫= as_state = Ok s → d !! k = Some (VState s).
Proof.
  intros H. apply bind_inv in H as (v & Hv & H). apply getitem_inv in Hv.
  destruct v; try discriminate H. inversion H; subst. exact Hv.
Qed.

Lemma is_not_None_inv (v : Value) : is_not_None v = true → v ≠ VNone.
Proof. intros H ->. discriminate H. Qed.

Lemma assert_not_None_inv (cfg : gmap string Value) (keys : list string) :
  assert_not_None cfg keys = Ok tt →
  ∀ k, k ∈ keys → ∃ v, cfg !! k = Some v ∧ v ≠ VNone.
Proof.
  induction keys as [|k' ks IH]; intros H k Hk.
  - apply elem_of_nil in Hk. contradiction.
  - cbn [assert_not_None] in H.
    apply bind_inv in H as (v & Hv & H). apply getitem_inv in Hv.
    apply bind_inv in H as (u & Hn & H). apply py_assert_inv in Hn.
    apply elem_of_cons in Hk as [-> | Hk].
    + exists v. split; [exact Hv | exact (is_not_None_inv v Hn)].
    + destruct u. exact (IH H k Hk).
Qed.

Lemma check_key_inv (cfg : gmap string Value) (k : string) (u : unit) :
  check_key cfg k = Ok u → is_Some (cfg !! k).
Proof.
  unfold check_key. intros H. apply py_assert_inv in H.
  unfold has_key in H. destruct (cfg !! k); [eauto | discriminate].
Qed.

Lemma _set_device_inv (env : Env) (cfg : gmap string Value) (u : bool)
  (ids : option (list Z)) :
  _set_device env cfg = Ok (u, ids) →
  ∃ tpu gpus,
    cfg !! "tpu" = Some tpu ∧ cfg !! "gpus" = Some gpus ∧
    u = truthy tpu ∧ truthy gpus = negb u ∧
    (if u then ids = None
     else env_cuda env = true ∧ ∃ id, gpus = VList [id] ∧ ids = Some [id]).
Proof.
  unfold _set_device. intros H.
  apply bind_inv in H as (_ & _ & H). apply bind_inv in H as (_ & _ & H).
  apply bind_inv in H as (tpu & Ht & H). apply getitem_inv in Ht.
  apply bind_inv in H as (gpus & Hg & H). apply getitem_inv in Hg.
  exists tpu, gpus. split; [exact Ht|]. split; [exact Hg|].
  destruct (truthy tpu) eqn:Etpu.
  - apply bind_inv in H as (? & Hn & H). apply py_assert_inv in Hn.
    inversion H; subst u ids.
    split; [reflexivity|]. split; [|reflexivity].
    destruct (truthy gpus); [discriminate Hn | reflexivity].
  - destruct (truthy gpus) eqn:Egpus; [|discriminate H].
    apply bind_inv in H as (? & Hc & H). apply py_assert_inv in Hc.
    apply bind_inv in H as (_ & _ & H).
    destruct gpus as [| | | | |l| | |]; try discriminate H.
    apply bind_inv in H as (? & Hl & H). apply py_assert_inv in Hl.
    apply Nat.eqb_eq in Hl. inversion H; subst u ids.
    split; [reflexivity|]. split; [reflexivity|]. split; [exact Hc|].
    destruct l as [|id [|id' l]]; try discriminate Hl.
    exists id. split; reflexivity.
Qed.

(** What a returning [Trainer.__init__] went through. *)
Lemma Trainer_init_inv (env : Env) (cfg : gmap string Value) (t : Trainer) :
  Trainer_init env cfg = Ok t →
  ∃ tpu ids m o db resume,
    _set_device env cfg = Ok (tpu, ids) ∧
    env_initialize env cfg = Ok (m, o) ∧
    (∀ k, k ∈ cfg_save_keys → ∃ v, cfg !! k = Some v ∧ v ≠ VNone) ∧
    (if truthy (dict_get cfg "use_mongodb" (USE_MONGODB env))
     then (∃ p, cfg !! "port" = Some p ∧ p ≠ VNone) ∧
          db = Some (mkMongo [] 0)
     else db = None) ∧
    is_Some (cfg !! "filepath") ∧
    cfg !! "resume_checkpoint" = Some resume ∧
    ((resume = VNone ∧
      t = mkTrainer cfg tpu (env_rank env) (env_world_size env) ids m o db 0
            None None false [] []) ∨
     (resume ≠ VNone ∧
      ∃ cfg',
        load_checkpoint (env_files env)
          (mkTrainer cfg' tpu (env_rank env) (env_world_size env) ids m o db
             0 None None false [] []) = Ok t ∧
        (if tpu
         then ∃ f, resume = VStr f ∧
                   cfg' = <["resume_checkpoint" :=
                              VStr (env_download env f (env_rank env))]> cfg
         else cfg' = cfg))).
Proof.
  unfold Trainer_init. intros H.
  apply bind_inv in H as (_ & _ & H). apply bind_inv in H as (_ & _ & H).
  apply bind_inv in H as ([tpu ids] & Hdev & H).
  apply bind_inv in H as (_ & _ & H).
  apply bind_inv in H as ([m o] & Hini & H).
  apply bind_inv in H as (_ & _ & H).
  apply bind_inv in H as ([] & Hnn & H).
  apply bind_inv in H as (db & Hdb & H). cbv zeta in H.
  apply bind_inv in H as (fp & Hfp & H). apply getitem_inv in Hfp.
  apply bind_inv in H as (_ & _ & H).
  apply bind_inv in H as (resume & Hres & H). apply getitem_inv in Hres.
  exists tpu, ids, m, o, db, resume.
  split; [exact Hdev|]. split; [exact Hini|].
  split; [exact (assert_not_None_inv cfg cfg_save_keys Hnn)|].
  split.
  { destruct (truthy (dict_get cfg "use_mongodb" (USE_MONGODB env))).
    - apply bind_inv in Hdb as (_ & _ & Hdb).
      apply bind_inv in Hdb as (p & Hp & Hdb). apply getitem_inv in Hp.
      apply bind_inv in Hdb as (? & Hn & Hdb). apply py_assert_inv in Hn.
      inversion Hdb. split; [|reflexivity].
      exists p. split; [exact Hp | exact (is_not_None_inv p Hn)].
    - inversion Hdb. reflexivity. }
  split; [eauto|]. split; [exact Hres|].
  destruct (is_not_None resume) eqn:En.
  - right. split; [exact (is_not_None_inv resume En)|].
    destruct tpu.
    + destruct resume as [| | | |f| | | |]; try discriminate H.
      eexists. split; [exact H|]. exists f. split; reflexivity.
    + exists cfg. split; [exact H | reflexivity].
  - left. destruct resume; try discriminate En.
    split; [reflexivity|]. inversion H. reflexivity.
Qed.

(** X13.  [_set_device] returns exactly when one of [tpu] and [gpus] is
    truthy and the other is not: with both it raises [AssertionError],
    with neither [ValueError] (the CPU is not supported), and a GPU run
    needs CUDA and a list of exactly one GPU identifier.  Whenever it
    returns, [use_tpu] is the truth value of [tpu], and without a TPU
    [gpu_ids] is the one-element list from the configuration. *)
Theorem device_selection (env : Env) (cfg : gmap string Value)
  (tpu gpus : Value) :
  cfg !! "tpu" = Some tpu → cfg !! "gpus" = Some gpus →
  (truthy tpu = true →
     _set_device env cfg
     = if truthy gpus then Raise AssertionError else Ok (true, None)) ∧
  (truthy tpu = false → truthy gpus = false →
     _set_device env cfg = Raise ValueError) ∧
  (truthy tpu = false → truthy gpus = true → env_cuda env = false →
     _set_device env cfg = Raise AssertionError) ∧
  (∀ ids, truthy tpu = false → env_cuda env = true → gpus = VList ids →
     _set_device env cfg
     = match ids with
       | [] => Raise ValueError
       | [id] => Ok (false, Some [id])
       | _ => Raise AssertionError
       end) ∧
  (∀ u ids, _set_device env cfg = Ok (u, ids) →
     u = truthy tpu ∧ truthy gpus = negb u ∧
     (if u then ids = None
      else env_cuda env = true ∧ ∃ id, gpus = VList [id] ∧ ids = Some [id])).
Proof.
  intros Ht Hg.
  assert (Hopen : _set_device env cfg
    = (if truthy tpu then py_assert (negb (truthy gpus));; Ok (true, None)
       else if truthy gpus then
         py_assert (env_cuda env);;
         py_assert (negb (truthy tpu));;
         match gpus with
         | VList ids =>
             py_assert (Nat.eqb (length ids) 1);; Ok (false, Some ids)
         | _ => Raise TypeError
         end
       else Raise ValueError)).
  { unfold _set_device, check_key.
    rewrite (has_key_Some _ _ _ Ht), (has_key_Some _ _ _ Hg).
    cbn [py_assert]. rewrite !bind_Ok.
    rewrite (getitem_Some _ _ _ Ht), bind_Ok.
    rewrite (getitem_Some _ _ _ Hg), bind_Ok. reflexivity. }
  split; [|split; [|split; [|split]]].
  - intros E. rewrite Hopen, E. destruct (truthy gpus); reflexivity.
  - intros E1 E2. rewrite Hopen, E1, E2. reflexivity.
  - intros E1 E2 Ec. rewrite Hopen, E1, E2, Ec. reflexivity.
  - intros ids E1 Ec ->. rewrite Hopen, E1, Ec.
    destruct ids as [|id [|id' ids]]; reflexivity.
  - intros u ids H.
    apply _set_device_inv in H
      as (tpu' & gpus' & Ht' & Hg' & Hu & Hn & Hids).
    rewrite Ht in Ht'. rewrite Hg in Hg'.
    inversion Ht'; inversion Hg'; subst tpu' gpus'.
    split; [exact Hu|]. split; [exact Hn | exact Hids].
Qed.

(** X13 on a configuration that asks for a TPU and for GPU 0. *)
Lemma device_selection_witness :
  _set_device (sample_env ∅)
    (<["tpu" := VBool true]> (sample_config 3 10 VNone))
  = Raise AssertionError.
Proof.
  destruct (device_selection (sample_env ∅)
              (<["tpu" := VBool true]> (sample_config 3 10 VNone))
              (VBool true) (VList [0])) as [H _].
  - reflexivity.
  - reflexivity.
  - exact (H eq_refl).
Defined.

(** X14.  What [Trainer.__init__] leaves behind whenever it returns.  The
    device is set, rank and world size are the environment's, nothing has
    been saved, pushed or validated and the store has not been closed;
    every configured value is the given one except possibly
    [resume_checkpoint]; db_name, coll_name and exp_id are present and
    not [None].  Without a checkpoint to resume from, the epoch is 0 and
    there is neither history nor best value yet; with one, the file at
    the configured path (on a TPU: at the path the download returned)
    exists and gives the epoch, which is the saved one plus one, the
    history and the two state dicts. *)
Theorem construction_outcome (env : Env) (cfg : gmap string Value)
  (t : Trainer) :
  Trainer_init env cfg = Ok t →
  device_set t ∧
  rank t = env_rank env ∧ world_size t = env_world_size env ∧
  (∃ tpu, cfg !! "tpu" = Some tpu ∧ use_tpu t = truthy tpu) ∧
  snapshots t = [] ∧ validated t = [] ∧ records t = [] ∧ syncs t = O ∧
  is_best t = false ∧
  (∀ k, k ≠ "resume_checkpoint" → config t !! k = cfg !! k) ∧
  (∀ k, k ∈ cfg_save_keys → ∃ v, cfg !! k = Some v ∧ v ≠ VNone) ∧
  ((cfg !! "resume_checkpoint" = Some VNone ∧ config t = cfg ∧
    current_epoch t = 0 ∧ results t = None ∧ best_acc t = None ∧
    env_initialize env cfg = Ok (model t, optimizer t)) ∨
   (∃ path cpt e r,
      config t !! "resume_checkpoint" = Some (VStr path) ∧
      (if use_tpu t
       then ∃ f, cfg !! "resume_checkpoint" = Some (VStr f) ∧
                 path = env_download env f (env_rank env)
       else config t = cfg) ∧
      env_files env !! path = Some cpt ∧
      getitem cpt "epoch" ≫= as_int = Ok e ∧ current_epoch t = e + 1 ∧
      cpt !! "results" = Some (VResults r) ∧ results t = Some r ∧
      cpt !! "state_dict" = Some (VState (model t)) ∧
      cpt !! "optimizer" = Some (VState (optimizer t)) ∧
      is_Some (best_acc t))).
Proof.
  intros H. apply Trainer_init_inv in H
    as (tpu & ids & m & o & db & resume & Hdev & Hini & Hkeys & Hdb & _
        & Hres & Hcase).
  apply _set_device_inv in Hdev
    as (vt & vg & Hvt & _ & Hu & _ & Hids).
  assert (Hrec : match db with Some d => mongo_records d | None => [] end
                 = [] ∧
                 match db with Some d => mongo_syncs d | None => O end = O).
  { destruct (truthy (dict_get cfg "use_mongodb" (USE_MONGODB env)));
      [destruct Hdb as [_ ->] | rewrite Hdb]; split; reflexivity. }
  destruct Hrec as [Hrec Hsyn].
  assert (Hds : tpu = true ∨ ∃ id, ids = Some [id]).
  { destruct tpu; [left; reflexivity|].
    destruct Hids as (_ & id & _ & ->). right. exists id. reflexivity. }
  destruct Hcase as [[-> ->] | [Hnn (cfg' & Hload & Hcfg')]].
  - unfold device_set, records, syncs. cbn.
    split; [exact Hds|]. split; [reflexivity|]. split; [reflexivity|].
    split; [exists vt; split; [exact Hvt | exact Hu]|].
    split; [reflexivity|]. split; [reflexivity|].
    split; [exact Hrec|]. split; [exact Hsyn|]. split; [reflexivity|].
    split; [reflexivity|]. split; [exact Hkeys|].
    left. split; [exact Hres|]. split; [reflexivity|].
    split; [reflexivity|]. split; [reflexivity|]. split; [reflexivity|].
    exact Hini.
  - apply load_checkpoint_inv in Hload
      as (path & cpt & e & r & m' & o' & b & Hp & Hf & _ & _ & He & Hr & Hm
          & Ho & _ & _ & ->).
    cbn in Hp. unfold device_set, records, syncs. cbn.
    split; [exact Hds|]. split; [reflexivity|]. split; [reflexivity|].
    split; [exists vt; split; [exact Hvt | exact Hu]|].
    split; [reflexivity|]. split; [reflexivity|].
    split; [exact Hrec|]. split; [exact Hsyn|]. split; [reflexivity|].
    split.
    { intros k Hk. destruct tpu.
      - destruct Hcfg' as (f & _ & ->).
        apply lookup_insert_ne. congruence.
      - rewrite Hcfg'. reflexivity. }
    split; [exact Hkeys|].
    right. exists path, cpt, e, r.
    split; [exact Hp|]. split.
    { destruct tpu.
      - destruct Hcfg' as (f & -> & ->). exists f.
        split; [exact Hres|].
        rewrite lookup_insert_eq in Hp. inversion Hp. reflexivity.
      - exact Hcfg'. }
    split; [exact Hf|]. split; [exact He|]. split; [reflexivity|].
    split; [exact (as_results_inv _ _ _ Hr)|]. split; [reflexivity|].
    split; [exact (as_state_inv _ _ _ Hm)|].
    split; [exact (as_state_inv _ _ _ Ho)|].
    eexists. reflexivity.
Qed.

(** X14 on the sample configuration resuming from the sample
    checkpoint. *)
Lemma construction_outcome_witness :
  device_set
    (set_best (Some 0%Q) false
       (set_states (3, 3)
          (set_results (Some sample_history)
             (set_current_epoch 1 (resuming_trainer "ckpt"))))) ∧
  records
    (set_best (Some 0%Q) false
       (set_states (3, 3)
          (set_results (Some sample_history)
             (set_current_epoch 1 (resuming_trainer "ckpt"))))) = [].
Proof.
  destruct (construction_outcome
              (sample_env {["ckpt" := sample_checkpoint]})
              (sample_config 3 10 (VStr "ckpt"))
              (set_best (Some 0%Q) false
                 (set_states (3, 3)
                    (set_results (Some sample_history)
                       (set_current_epoch 1 (resuming_trainer "ckpt"))))))
    as (Hd & _ & _ & _ & _ & _ & Hr & _).
  - reflexivity.
  - split; [exact Hd | exact Hr].
Defined.

Lemma SupervisedImageNetTrainer_init_inv (env : Env)
  (cfg : gmap string Value) (t : Trainer) :
  SupervisedImageNetTrainer_init env cfg = Ok t →
  ∃ t0, Trainer_init env cfg = Ok t0 ∧
    t = mkTrainer (config t0) (use_tpu t0) (rank t0) (world_size t0)
          (gpu_ids t0) (model t0) (optimizer t0) (database t0)
          (current_epoch t0)
          (Some (default empty_results (results t0)))
          (Some (default initial_best_acc (best_acc t0)))
          false (snapshots t0) (validated t0).
Proof.
  unfold SupervisedImageNetTrainer_init. intros H.
  apply bind_inv in H as (t0 & H0 & H).
  exists t0. split; [exact H0|]. cbv zeta in H. inversion H.
  destruct t0 as [c u r w g m o d e [res|] [b|] ib sn va]; reflexivity.
Qed.

(** X15.  A [SupervisedImageNetTrainer] that finished construction is
    either fresh or resumed.  Fresh ([resume_checkpoint] is [None]): it
    starts at epoch 0 with six empty history lists and a best accuracy of
    -1.  Resumed: it starts at the checkpoint's epoch plus one with the
    checkpoint's history and best accuracy, which the constructor does
    not overwrite.  In both cases the flag [is_best] is [False] and
    nothing has been saved or validated. *)
Theorem fresh_or_resumed (env : Env) (cfg : gmap string Value) (t : Trainer) :
  SupervisedImageNetTrainer_init env cfg = Ok t →
  ready t ∧ is_best t = false ∧ snapshots t = [] ∧ validated t = [] ∧
  ((cfg !! "resume_checkpoint" = Some VNone ∧
    current_epoch t = 0 ∧ results t = Some empty_results ∧
    best_acc t = Some initial_best_acc) ∨
   (∃ path cpt e r b,
      config t !! "resume_checkpoint" = Some (VStr path) ∧
      env_files env !! path = Some cpt ∧
      getitem cpt "epoch" ≫= as_int = Ok e ∧
      cpt !! "results" = Some (VResults r) ∧
      getitem cpt "curr_best_acc" ≫= as_float = Ok b ∧
      current_epoch t = e + 1 ∧ results t = Some r ∧
      best_acc t = Some b)).
Proof.
  intros H. apply SupervisedImageNetTrainer_init_inv in H as (t0 & H0 & ->).
  apply Trainer_init_inv in H0
    as (tpu & ids & m & o & db & resume & _ & _ & _ & _ & _ & Hres & Hcase).
  destruct Hcase as [[-> ->] | [_ (cfg' & Hload & _)]].
  - cbn. split; [split; eexists; reflexivity|].
    split; [reflexivity|]. split; [reflexivity|]. split; [reflexivity|].
    left. split; [exact Hres|]. repeat split.
  - apply load_checkpoint_inv in Hload
      as (path & cpt & e & r & m' & o' & b & Hp & Hf & _ & _ & He & Hr & _
          & _ & Hb & _ & ->).
    cbn in Hp. cbn.
    split; [split; eexists; reflexivity|].
    split; [reflexivity|]. split; [reflexivity|]. split; [reflexivity|].
    right. exists path, cpt, e, r, b.
    split; [exact Hp|]. split; [exact Hf|]. split; [exact He|].
    split; [exact (as_results_inv _ _ _ Hr)|]. split; [exact Hb|].
    repeat split.
Qed.

(** X15 on the sample configuration without a checkpoint. *)
Lemma fresh_or_resumed_witness :
  ready (sample_trainer 3 10) ∧ is_best (sample_trainer 3 10) = false.
Proof.
  destruct (fresh_or_resumed (sample_env ∅) (sample_config 3 10 VNone)
              (sample_trainer 3 10)) as (Hr & Hb & _).
  - reflexivity.
  - split; [exact Hr | exact Hb].
Defined.

(** What the two constructors keep of each other. *)
Lemma constructors_keep (env : Env) (cfg : gmap string Value)
  (t : Trainer) :
  SupervisedImageNetTrainer_init env cfg = Ok t →
  ∃ t0, Trainer_init env cfg = Ok t0 ∧
    (∀ k, k ≠ "resume_checkpoint" → config t !! k = cfg !! k) ∧
    rank t = env_rank env ∧ world_size t = env_world_size env ∧
    ready t ∧ validated t = [] ∧ syncs t = O.
Proof.
  intros H. apply SupervisedImageNetTrainer_init_inv in H as (t0 & H0 & ->).
  exists t0. split; [exact H0|].
  pose proof H0 as Hinv. apply Trainer_init_inv in Hinv
    as (tpu & ids & m & o & db & resume & _ & _ & _ & Hdb & _ & _ & Hcase).
  assert (Hsyn : match db with Some d => mongo_syncs d | None => O end = O).
  { destruct (truthy (dict_get cfg "use_mongodb" (USE_MONGODB env)));
      [destruct Hdb as [_ ->] | rewrite Hdb]; reflexivity. }
  destruct Hcase as [[_ ->] | [_ (cfg' & Hload & Hcfg')]].
  - unfold syncs. cbn. split; [reflexivity|]. split; [reflexivity|].
    split; [reflexivity|]. split; [split; eexists; reflexivity|].
    split; [reflexivity | exact Hsyn].
  - apply load_checkpoint_inv in Hload
      as (? & ? & ? & ? & ? & ? & ? & _ & _ & _ & _ & _ & _ & _ & _ & _ & _
          & ->).
    unfold syncs. cbn. split.
    { intros k Hk. destruct tpu.
      - destruct Hcfg' as (f & _ & ->).
        apply lookup_insert_ne. congruence.
      - rewrite Hcfg'. reflexivity. }
    split; [reflexivity|]. split; [reflexivity|].
    split; [split; eexists; reflexivity|].
    split; [reflexivity | exact Hsyn].
Qed.

(** X16.  A constructed trainer trains to the end.  If the configuration
    holds an integer [save_freq] other than 0, an integer [num_epochs]
    and an integer training batch size, the world size is not 0, and the
    worker uses a TPU or has rank 0, then [train] returns on the trainer
    the constructor built: the epochs from the starting epoch up to
    [num_epochs - 1] are run, those at the cadence are validated, and a
    worker of rank 0 with a store closes it once. *)
Theorem constructed_trainer_trains (E : Engine) (env : Env)
  (cfg : gmap string Value) (t : Trainer) (F N B : Z) (params : Value) :
  SupervisedImageNetTrainer_init env cfg = Ok t →
  cfg !! "save_freq" = Some (VInt F) → F ≠ 0 →
  cfg !! "num_epochs" = Some (VInt N) →
  cfg !! "optimizer_params" = Some params →
  subscript params "train_batch_size" = Ok (VInt B) →
  env_world_size env ≠ O →
  use_tpu t = true ∨ env_rank env = O →
  ∃ t', train E t = Ok t' ∧
    validated t'
    = filter (λ e, e mod F = 0 ∨ e = N - 1)
        (seqZ (current_epoch t) (N - current_epoch t)) ∧
    (current_epoch t < N → current_epoch t' = N - 1) ∧
    syncs t' = (if pushing t then 1 else 0)%nat.
Proof.
  intros H HF HF0 HN Hpar HB Hw Hlog.
  destruct (constructors_keep env cfg t H)
    as (t0 & H0 & Hcfg & Hrank & Hworld & Hready & Hval & Hsyn).
  assert (Hc : configured F N t).
  { unfold configured, can_log.
    rewrite !Hcfg by discriminate. rewrite Hworld, Hrank.
    split; [exact HF|]. split; [exact HN|].
    split.
    { apply Trainer_init_inv in H0
        as (? & ? & ? & ? & ? & ? & _ & _ & Hkeys & _).
      destruct (Hkeys "exp_id") as (v & Hv & _); [|eauto].
      unfold cfg_save_keys. do 2 apply list_elem_of_further.
      apply list_elem_of_here. }
    split; [exact HF0|].
    split; [exists params, B; split; assumption|].
    split; [exact Hw | exact Hlog]. }
  rewrite (train_unfold E F N t Hc).
  destruct (loop_keeps E F N (current_epoch t) t
              (Z.to_nat (N - current_epoch t)) Hc Hready)
    as (t1 & Hrun & _ & _ & _ & _ & _ & _ & _ & Hs & Hp & _ & Hce & _ & Hv).
  rewrite Hrun, bind_Ok. exists (close_db t1). split; [reflexivity|].
  destruct (close_db_keeps t1)
    as (_ & _ & _ & _ & _ & _ & Hce' & _ & Hv' & _ & Hsync).
  split.
  { rewrite Hv', Hv, Hval, seqZ_to_nat. reflexivity. }
  split.
  { intros Hlt. rewrite Hce', Hce.
    destruct (Nat.eqb (Z.to_nat (N - current_epoch t)) 0) eqn:En.
    - apply Nat.eqb_eq in En. lia.
    - lia. }
  rewrite Hsync, Hs, Hp, Hsyn. reflexivity.
Qed.

(** X16 on the sample job, constructed and run for ten epochs. *)
Lemma constructed_trainer_trains_witness :
  ∃ t', train sample_engine (sample_trainer 3 10) = Ok t' ∧
        validated t' = [0; 3; 6; 9] ∧ syncs t' = 1%nat.
Proof.
  destruct (constructed_trainer_trains sample_engine (sample_env ∅)
              (sample_config 3 10 VNone) (sample_trainer 3 10) 3 10 8
              (VDict [("train_batch_size", VInt 8);
                      ("val_batch_size", VInt 8)]))
    as (t' & Hrun & Hv & _ & Hs).
  - reflexivity.
  - reflexivity.
  - discriminate.
  - reflexivity.
  - reflexivity.
  - reflexivity.
  - discriminate.
  - right. reflexivity.
  - exists t'. split; [exact Hrun|]. split; [|exact Hs].
    rewrite Hv. reflexivity.
Defined.

(** X17.  With the metadata store enabled ([use_mongodb] truthy, or
    absent with a truthy default), construction raises unless the
    configuration holds a [port] that is not [None]; when it returns, the
    trainer has a store that holds no record and has not been closed.
    Restoring a checkpoint does not touch it. *)
Theorem enabled_store_needs_port (env : Env) (cfg : gmap string Value) :
  truthy (dict_get cfg "use_mongodb" (USE_MONGODB env)) = true →
  (cfg !! "port" = None ∨ cfg !! "port" = Some VNone →
     raises (SupervisedImageNetTrainer_init env cfg)) ∧
  (∀ t, SupervisedImageNetTrainer_init env cfg = Ok t →
     database t = Some (mkMongo [] 0) ∧
     pushing t = Nat.eqb (env_rank env) 0 ∧
     ∃ p, cfg !! "port" = Some p ∧ p ≠ VNone).
Proof.
  intros Hon.
  assert (Hinv : ∀ t, SupervisedImageNetTrainer_init env cfg = Ok t →
     database t = Some (mkMongo [] 0) ∧
     pushing t = Nat.eqb (env_rank env) 0 ∧
     ∃ p, cfg !! "port" = Some p ∧ p ≠ VNone).
  { intros t H.
    apply SupervisedImageNetTrainer_init_inv in H as (t0 & H0 & ->).
    apply Trainer_init_inv in H0
      as (tpu & ids & m & o & db & resume & _ & _ & _ & Hdb & _ & _ & Hcase).
    rewrite Hon in Hdb. destruct Hdb as [Hport ->].
    destruct Hcase as [[_ ->] | [_ (cfg' & Hload & _)]].
    - unfold pushing. cbn. split; [reflexivity|]. split; [reflexivity|].
      exact Hport.
    - apply load_checkpoint_inv in Hload
        as (? & ? & ? & ? & ? & ? & ? & _ & _ & _ & _ & _ & _ & _ & _ & _ & _
            & ->).
      unfold pushing. cbn. split; [reflexivity|]. split; [reflexivity|].
      exact Hport. }
  split; [|exact Hinv].
  intros Hbad.
  destruct (SupervisedImageNetTrainer_init env cfg) as [t|e] eqn:H;
    [|exact I].
  destruct (Hinv t eq_refl) as (_ & _ & p & Hp & Hnn).
  destruct Hbad as [Hb | Hb]; rewrite Hb in Hp; inversion Hp; subst p.
  contradiction.
Qed.

(** X17 on the sample configuration with its port removed. *)
Lemma enabled_store_needs_port_witness :
  raises (SupervisedImageNetTrainer_init (sample_env ∅)
            (delete "port" (sample_config 3 10 VNone))).
Proof.
  destruct (enabled_store_needs_port (sample_env ∅)
              (delete "port" (sample_config 3 10 VNone))) as [H _].
  - reflexivity.
  - apply H. left. reflexivity.
Defined.

(** * The data loaders *)

Lemma obind_inv {A B : Type} (m : Outcome A) (f : A → Outcome B) (b : B) :
  m ≫= f = Returns b → ∃ a, m = Returns a ∧ f a = Returns b.
Proof.
  destruct m as [a|e]; intros H; [|discriminate H].
  exists a. split; [reflexivity | exact H].
Qed.

Lemma lift_inv {A : Type} (m : Result A) (a : A) :
  lift m = Returns a → m = Ok a.
Proof. destruct m; intros H; inversion H; reflexivity. Qed.

Lemma item_inv {A : Type} (d : gmap string A) (k : string) (v : A) :
  item d k = Ok v → d !! k = Some v.
Proof.
  unfold item. destruct (d !! k); intros H; inversion H; reflexivity.
Qed.

Lemma item_Some {A : Type} (d : gmap string A) (k : string) (v : A) :
  d !! k = Some v → item d k = Ok v.
Proof. unfold item. intros ->. reflexivity. Qed.

Lemma in_keys_Some {A : Type} (d : gmap string A) (k : string) (v : A) :
  d !! k = Some v → in_keys d k = true.
Proof. unfold in_keys. intros ->. reflexivity. Qed.

Lemma in_keys_None {A : Type} (d : gmap string A) (k : string) :
  d !! k = None → in_keys d k = false.
Proof. unfold in_keys. intros ->. reflexivity. Qed.

Lemma in_keys_inv {A : Type} (d : gmap string A) (k : string) :
  in_keys d k = true → is_Some (d !! k).
Proof. unfold in_keys. destruct (d !! k); [eauto | discriminate]. Qed.

Lemma param_mod_is_zero_inv (p : ParamValue) (W : nat) :
  (param_mod_is_zero p W ≫= py_assert) = Ok tt →
  W ≠ O ∧ ∃ n, param_int p = Ok n ∧ n mod Z.of_nat W = 0.
Proof.
  unfold param_mod_is_zero. intros H.
  apply bind_inv in H as (ok & Hok & H). apply py_assert_inv in H. subst ok.
  apply bind_inv in Hok as (n & Hn & Hok).
  destruct (Nat.eqb W 0) eqn:EW; [discriminate Hok|].
  apply Nat.eqb_neq in EW. split; [exact EW|].
  exists n. split; [exact Hn|]. inversion Hok as [Hz].
  apply Z.eqb_eq in Hz. exact Hz.
Qed.

Lemma param_floordiv_ok (p : ParamValue) (W : nat) (n : Z) :
  W ≠ O → param_int p = Ok n →
  param_floordiv p W = Ok (PVal (VInt (n / Z.of_nat W))).
Proof.
  intros HW Hn. unfold param_floordiv. rewrite Hn, bind_Ok.
  apply Nat.eqb_neq in HW. rewrite HW. reflexivity.
Qed.

(** What [wrap_dataloaders] went through when it returns. *)
Lemma wrap_dataloaders_inv (f : LoaderFunc) (params : gmap string ParamValue)
  (tr : gmap string (option Transform)) (device : Device) (r W : nat)
  (tl vl : option Loader) (params' : gmap string ParamValue) :
  wrap_dataloaders f params tr device r W = Returns (tl, vl, params') →
  W ≠ O ∧
  ∃ b n,
    params !! "train_batch_size" = Some b ∧ param_int b = Ok n ∧
    n mod Z.of_nat W = 0 ∧
    match params !! "val_batch_size" with
    | Some bv =>
        ∃ m, param_int bv = Ok m ∧ m mod Z.of_nat W = 0 ∧
             params'
             = <["val_batch_size" := PVal (VInt (m / Z.of_nat W))]>
                 (<["train_batch_size" := PVal (VInt (n / Z.of_nat W))]>
                    params)
    | None =>
        params' = <["train_batch_size" := PVal (VInt (n / Z.of_nat W))]> params
    end ∧
    ∃ l1 l2,
      f params' tr r W (String.eqb (device_type device) "xla")
      = Returns (l1, l2) ∧
      (tl, vl)
      = if String.eqb (device_type device) "xla" then
          (Some (MpDeviceLoader l1 device),
           (λ l, MpDeviceLoader (Some l) device) <$> l2)
        else (Plain <$> l1, Plain <$> l2).
Proof.
  unfold wrap_dataloaders. cbv zeta. intros H.
  apply obind_inv in H as ([] & H1 & H). apply lift_inv in H1.
  apply bind_inv in H1 as (b & Hb & H1). apply item_inv in Hb.
  apply param_mod_is_zero_inv in H1 as (HW & n & Hn & Hmod).
  apply obind_inv in H as ([] & H2 & H). apply lift_inv in H2.
  apply obind_inv in H as (p1 & H3 & H). apply lift_inv in H3.
  rewrite (item_Some _ _ _ Hb), bind_Ok in H3.
  rewrite (param_floordiv_ok b W n HW Hn), bind_Ok in H3.
  inversion H3; subst p1. clear H3.
  apply obind_inv in H as (p2 & H4 & H). apply lift_inv in H4.
  split; [exact HW|]. exists b, n.
  split; [exact Hb|]. split; [exact Hn|]. split; [exact Hmod|].
  assert (Hp2 : match params !! "val_batch_size" with
    | Some bv =>
        ∃ m, param_int bv = Ok m ∧ m mod Z.of_nat W = 0 ∧
             p2 = <["val_batch_size" := PVal (VInt (m / Z.of_nat W))]>
                    (<["train_batch_size" := PVal (VInt (n / Z.of_nat W))]>
                       params)
    | None =>
        p2 = <["train_batch_size" := PVal (VInt (n / Z.of_nat W))]> params
    end).
  { destruct (params !! "val_batch_size") as [bv|] eqn:Ev.
    - rewrite (in_keys_Some _ _ _ Ev) in H2.
      rewrite (item_Some _ _ _ Ev), bind_Ok in H2.
      apply param_mod_is_zero_inv in H2 as (_ & m & Hm & Hmm).
      assert (Ev1 : <["train_batch_size" := PVal (VInt (n / Z.of_nat W))]>
                      params !! "val_batch_size" = Some bv).
      { rewrite lookup_insert_ne by discriminate. exact Ev. }
      rewrite (in_keys_Some _ _ _ Ev1) in H4.
      rewrite (item_Some _ _ _ Ev1), bind_Ok in H4.
      rewrite (param_floordiv_ok bv W m HW Hm), bind_Ok in H4.
      inversion H4. exists m. split; [exact Hm|]. split; [exact Hmm|].
      reflexivity.
    - assert (Ev1 : <["train_batch_size" := PVal (VInt (n / Z.of_nat W))]>
                      params !! "val_batch_size" = None).
      { rewrite lookup_insert_ne by discriminate. exact Ev. }
      rewrite (in_keys_None _ _ Ev1) in H4. inversion H4. reflexivity. }
  apply obind_inv in H as ([l1 l2] & Hf & H).
  assert (Hout : params' = p2 ∧
    (tl, vl)
    = if String.eqb (device_type device) "xla" then
        (Some (MpDeviceLoader l1 device),
         (λ l, MpDeviceLoader (Some l) device) <$> l2)
      else (Plain <$> l1, Plain <$> l2)).
  { destruct (String.eqb (device_type device) "xla");
      inversion H; subst; split; reflexivity. }
  destruct Hout as [-> Hout].
  split; [exact Hp2|]. exists l1, l2. split; [exact Hf | exact Hout].
Qed.

Lemma param_mod_is_zero_int (B : Z) (W : nat) :
  param_mod_is_zero (PVal (VInt B)) W
  = if Nat.eqb W 0 then Raise ZeroDivisionError
    else Ok (B mod Z.of_nat W =? 0).
Proof. reflexivity. Qed.

(** X18.  [wrap_dataloaders] gives every worker an equal share of the
    batch.  With an integer [train_batch_size] of [B] and [W] workers it
    raises [ZeroDivisionError] for [W = 0] and [AssertionError] when [W]
    does not divide [B], or does not divide an integer [val_batch_size];
    it never rounds.  When it returns, the loader function was called
    with [params] in which the two batch sizes are the exact quotients,
    so that quotient times [W] is the configured size, and every other
    parameter is as given; the dictionary is left in that state. *)
Theorem equal_shares (f : LoaderFunc) (params : gmap string ParamValue)
  (tr : gmap string (option Transform)) (device : Device) (r W : nat)
  (B : Z) :
  params !! "train_batch_size" = Some (PVal (VInt B)) →
  (W = O →
     wrap_dataloaders f params tr device r W
     = Throws (Builtin ZeroDivisionError)) ∧
  (W ≠ O → B mod Z.of_nat W ≠ 0 →
     wrap_dataloaders f params tr device r W
     = Throws (Builtin AssertionError)) ∧
  (∀ V, params !! "val_batch_size" = Some (PVal (VInt V)) →
     W ≠ O → V mod Z.of_nat W ≠ 0 →
     wrap_dataloaders f params tr device r W
     = Throws (Builtin AssertionError)) ∧
  (∀ tl vl params',
     wrap_dataloaders f params tr device r W = Returns (tl, vl, params') →
     params' !! "train_batch_size" = Some (PVal (VInt (B / Z.of_nat W))) ∧
     B / Z.of_nat W * Z.of_nat W = B ∧
     (∀ V, params !! "val_batch_size" = Some (PVal (VInt V)) →
        params' !! "val_batch_size" = Some (PVal (VInt (V / Z.of_nat W))) ∧
        V / Z.of_nat W * Z.of_nat W = V) ∧
     (∀ k, k ≠ "train_batch_size" → k ≠ "val_batch_size" →
        params' !! k = params !! k) ∧
     ∃ l1 l2,
       f params' tr r W (String.eqb (device_type device) "xla")
       = Returns (l1, l2)).
Proof.
  intros HB.
  assert (Hexact : ∀ n, Z.of_nat W ≠ 0 → n mod Z.of_nat W = 0 →
                        n / Z.of_nat W * Z.of_nat W = n).
  { intros n HW Hn. pose proof (Z.div_mod n (Z.of_nat W) HW). lia. }
  split; [|split; [|split]].
  - intros ->. unfold wrap_dataloaders. cbv zeta.
    rewrite (item_Some _ _ _ HB). reflexivity.
  - intros HW Hmod. unfold wrap_dataloaders. cbv zeta.
    rewrite (item_Some _ _ _ HB), !bind_Ok, param_mod_is_zero_int.
    apply Nat.eqb_neq in HW. rewrite HW, !bind_Ok.
    apply Z.eqb_neq in Hmod. rewrite Hmod. reflexivity.
  - intros V HV HW Hmod. unfold wrap_dataloaders. cbv zeta.
    rewrite (item_Some _ _ _ HB), !bind_Ok, param_mod_is_zero_int.
    pose proof HW as HW'. apply Nat.eqb_neq in HW'. rewrite HW', !bind_Ok.
    destruct (B mod Z.of_nat W =? 0); [|reflexivity].
    cbn [py_assert lift]. cbn [mbind Outcome_bind].
    rewrite (in_keys_Some _ _ _ HV), (item_Some _ _ _ HV), !bind_Ok.
    rewrite param_mod_is_zero_int, HW', !bind_Ok.
    apply Z.eqb_neq in Hmod. rewrite Hmod. reflexivity.
  - intros tl vl params' H.
    apply wrap_dataloaders_inv in H
      as (HW & b & n & Hb & Hn & Hmod & Hval & l1 & l2 & Hf & _).
    rewrite HB in Hb. inversion Hb; subst b.
    cbn [param_int as_int] in Hn. inversion Hn; subst n.
    assert (HWz : Z.of_nat W ≠ 0) by lia.
    destruct (params !! "val_batch_size") as [bv|] eqn:Ev.
    + destruct Hval as (m & Hm & Hmm & ->).
      split.
      { rewrite lookup_insert_ne by discriminate.
        apply lookup_insert_eq. }
      split; [exact (Hexact B HWz Hmod)|].
      split.
      { intros V HV. inversion HV; subst bv.
        cbn [param_int as_int] in Hm. inversion Hm; subst m.
        split; [apply lookup_insert_eq | exact (Hexact V HWz Hmm)]. }
      split.
      { intros k Hk1 Hk2. rewrite !lookup_insert_ne by congruence.
        reflexivity. }
      exists l1, l2. exact Hf.
    + subst params'.
      split; [apply lookup_insert_eq|].
      split; [exact (Hexact B HWz Hmod)|].
      split; [intros V HV; discriminate HV|].
      split.
      { intros k Hk1 Hk2. rewrite lookup_insert_ne by congruence.
        reflexivity. }
      exists l1, l2. exact Hf.
Qed.

(** X18 on the sample: a batch of 8 cannot be shared by 3 workers. *)
Lemma equal_shares_witness :
  wrap_dataloaders (get_imagenet_loaders sample_imports) sample_params
    (sample_transforms None) (mkDevice "cuda" (Some 0)) 0 3
  = Throws (Builtin AssertionError).
Proof.
  destruct (equal_shares (get_imagenet_loaders sample_imports) sample_params
              (sample_transforms None) (mkDevice "cuda" (Some 0)) 0 3 8)
    as (_ & H & _).
  - reflexivity.
  - apply H; [discriminate | discriminate].
Defined.

Lemma _acquire_dataloader_inv (d : Dataset) (train : bool)
  (bs nw : ParamValue) (r W : nat) (dl : ParamValue) (tpu : bool)
  (c : option string) (l : DataLoader) :
  _acquire_dataloader d train bs nw r W dl tpu c = Returns l →
  cls_is_Dataset (ds_class d) = true ∧
  l = mkDataLoader d bs (mkSampler d W r train) c nw
        (if tpu then None else Some true) false dl.
Proof.
  unfold _acquire_dataloader. intros H.
  apply obind_inv in H as ([] & Ha & H). apply lift_inv in Ha.
  apply py_assert_inv in Ha. inversion H. split; [exact Ha | reflexivity].
Qed.

Lemma construct_inv (I : Imports) (d d' : Dataset) :
  construct I d = Returns d' → d' = d ∧ dataset_init I d = None.
Proof.
  unfold construct. destruct (dataset_init I d); intros H; inversion H.
  split; reflexivity.
Qed.

Lemma lift_assert_inv (b : bool) (u : unit) :
  lift (py_assert b) = Returns u → b = true.
Proof. intros H. apply lift_inv in H. exact (py_assert_inv _ _ H). Qed.

(** What the shared body went through when it returns. *)
Lemma imagenet_loaders_inv (I : Imports) (globals : list (string * Acquire))
  (acquire : string) (params : gmap string ParamValue)
  (tr : gmap string (option Transform)) (r W : nat) (tpu : bool)
  (l1 l2 : option DataLoader) :
  imagenet_loaders I globals acquire params tr r W tpu = Returns (l1, l2) →
  ∃ f tb vb nw cls dir ttr vtr vd,
    global globals acquire = Returns f ∧
    params !! "train_batch_size" = Some tb ∧
    params !! "val_batch_size" = Some vb ∧
    params !! "num_workers" = Some nw ∧
    params !! "dataset_class" = Some (PClass cls) ∧
    cls_is_ImageNetBase cls = true ∧
    params !! "image_dir" = Some dir ∧
    tr !! "train" = Some ttr ∧ tr !! "val" = Some vtr ∧
    dataset_init I (mkDataset cls false dir vtr) = None ∧
    f (mkDataset cls false dir vtr) false vb nw r W
      (default (PVal (VBool false)) (params !! "drop_last")) tpu None
    = Returns vd ∧
    l2 = Some vd ∧
    match ttr with
    | Some x =>
        ∃ td, l1 = Some td ∧
          dataset_init I (mkDataset cls true dir (Some x)) = None ∧
          f (mkDataset cls true dir (Some x)) true tb nw r W
            (default (PVal (VBool false)) (params !! "drop_last")) tpu None
          = Returns td
    | None => l1 = None
    end.
Proof.
  unfold imagenet_loaders. intros H.
  do 7 (apply obind_inv in H as (? & _ & H)).
  apply obind_inv in H as (tb & Htb & H).
  apply lift_inv, item_inv in Htb.
  apply obind_inv in H as (vb & Hvb & H).
  apply lift_inv, item_inv in Hvb.
  apply obind_inv in H as (nw & Hnw & H).
  apply lift_inv, item_inv in Hnw.
  cbv zeta in H.
  apply obind_inv in H as (dc & Hdc & H).
  apply lift_inv, item_inv in Hdc.
  apply obind_inv in H as (cls & Hcls & H).
  destruct dc as [v|c]; [discriminate Hcls|]. inversion Hcls; subst c.
  apply obind_inv in H as (? & Hsub & H). apply lift_assert_inv in Hsub.
  apply obind_inv in H as (dir & Hdir & H).
  apply lift_inv, item_inv in Hdir.
  apply obind_inv in H as (ttr & Httr & H).
  apply lift_inv, item_inv in Httr.
  apply obind_inv in H as (vtr & Hvtr & H).
  apply lift_inv, item_inv in Hvtr.
  apply obind_inv in H as (train_set & Hts & H).
  apply obind_inv in H as (val_set & Hvs & H).
  apply construct_inv in Hvs as [-> Hvs].
  apply obind_inv in H as (train_loader & Htl & H).
  apply obind_inv in H as (f & Hf & H).
  apply obind_inv in H as (vd & Hvd & H).
  inversion H; subst l1 l2.
  exists f, tb, vb, nw, cls, dir, ttr, vtr, vd.
  split; [exact Hf|]. split; [exact Htb|]. split; [exact Hvb|].
  split; [exact Hnw|]. split; [exact Hdc|]. split; [exact Hsub|].
  split; [exact Hdir|]. split; [exact Httr|]. split; [exact Hvtr|].
  split; [exact Hvs|]. split; [exact Hvd|]. split; [reflexivity|].
  destruct ttr as [ttx|].
  - apply obind_inv in Hts as (d & Hd & Hts).
    apply construct_inv in Hd as [-> Hd]. inversion Hts; subst train_set.
    apply obind_inv in Htl as (f' & Hf' & Htl).
    rewrite Hf in Hf'. inversion Hf'; subst f'.
    apply obind_inv in Htl as (td & Htd & Htl). inversion Htl.
    exists td. split; [reflexivity|]. split; [exact Hd | exact Htd].
  - inversion Hts; subst train_set. inversion Htl. reflexivity.
Qed.

(** X19.  The loaders [wrap_dataloaders] returns when it is given
    [get_imagenet_loaders].  There is always a validation loader, over a
    dataset that is not the training one, whose sampler does not
    shuffle.  There is a training loader exactly when
    [my_transforms["train"]] is not [None], and its sampler shuffles;
    without training transforms the training loader is [None], except on
    a TPU, where it is a device loader around [None].  No loader shuffles
    by itself, every sampler is the one of worker [rank] among
    [world_size], memory is pinned exactly without TPU, and the batch
    sizes of the loaders are the per-worker ones [params] holds after the
    call. *)
Theorem loaders_as_configured (I : Imports)
  (params : gmap string ParamValue) (tr : gmap string (option Transform))
  (device : Device) (r W : nat) (tl vl : option Loader)
  (params' : gmap string ParamValue) :
  wrap_dataloaders (get_imagenet_loaders I) params tr device r W
  = Returns (tl, vl, params') →
  (∃ vd,
     vl = Some (if String.eqb (device_type device) "xla"
                then MpDeviceLoader (Some vd) device else Plain vd) ∧
     ds_is_train (dl_dataset vd) = false ∧
     tr !! "val" = Some (ds_image_transforms (dl_dataset vd)) ∧
     sampler_shuffle (dl_sampler vd) = false ∧ dl_shuffle vd = false ∧
     sampler_dataset (dl_sampler vd) = dl_dataset vd ∧
     sampler_rank (dl_sampler vd) = r ∧
     sampler_num_replicas (dl_sampler vd) = W ∧
     dl_pin_memory vd
     = (if String.eqb (device_type device) "xla" then None else Some true) ∧
     params' !! "val_batch_size" = Some (dl_batch_size vd)) ∧
  match tr !! "train" with
  | Some (Some x) =>
      ∃ td,
        tl = Some (if String.eqb (device_type device) "xla"
                   then MpDeviceLoader (Some td) device else Plain td) ∧
        ds_is_train (dl_dataset td) = true ∧
        ds_image_transforms (dl_dataset td) = Some x ∧
        sampler_shuffle (dl_sampler td) = true ∧ dl_shuffle td = false ∧
        sampler_dataset (dl_sampler td) = dl_dataset td ∧
        sampler_rank (dl_sampler td) = r ∧
        sampler_num_replicas (dl_sampler td) = W ∧
        dl_pin_memory td
        = (if String.eqb (device_type device) "xla" then None
           else Some true) ∧
        params' !! "train_batch_size" = Some (dl_batch_size td)
  | _ =>
      tl = if String.eqb (device_type device) "xla"
           then Some (MpDeviceLoader None device) else None
  end.
Proof.
  intros H. apply wrap_dataloaders_inv in H
    as (_ & _ & _ & _ & _ & _ & _ & l1 & l2 & Hf & Hout).
  unfold get_imagenet_loaders in Hf.
  apply imagenet_loaders_inv in Hf
    as (f & tb & vb & nw & cls & dir & ttr & vtr & vd & Hg & Htb & Hvb & _
        & _ & _ & _ & Httr & Hvtr & _ & Hvd & -> & Htrain).
  cbn in Hg. inversion Hg; subst f. clear Hg.
  apply _acquire_dataloader_inv in Hvd as [_ Hvd].
  split.
  - exists vd. split.
    { revert Hout. destruct (String.eqb (device_type device) "xla");
        intros Hout; inversion Hout; reflexivity. }
    subst vd. cbn. repeat split; assumption.
  - rewrite Httr. destruct ttr as [x|].
    + destruct Htrain as (td & -> & _ & Htd).
      apply _acquire_dataloader_inv in Htd as [_ Htd].
      exists td. split.
      { revert Hout. destruct (String.eqb (device_type device) "xla");
          intros Hout; inversion Hout; reflexivity. }
      subst td. cbn. repeat split; assumption.
    + subst l1. revert Hout.
      destruct (String.eqb (device_type device) "xla");
        intros Hout; inversion Hout; reflexivity.
Qed.

(** X19 on the sample, for validation only on a TPU: the training loader
    is a device loader around nothing. *)
Lemma loaders_as_configured_witness :
  ∃ tl vl params',
    wrap_dataloaders (get_imagenet_loaders sample_imports) sample_params
      (sample_transforms None) (mkDevice "xla" (Some 0)) 0 2
    = Returns (tl, vl, params') ∧
    tl = Some (MpDeviceLoader None (mkDevice "xla" (Some 0))).
Proof.
  destruct (wrap_dataloaders (get_imagenet_loaders sample_imports)
              sample_params (sample_transforms None)
              (mkDevice "xla" (Some 0)) 0 2)
    as [[[tl vl] params']|e] eqn:Hrun; [|vm_compute in Hrun; discriminate].
  exists tl, vl, params'. split; [reflexivity|].
  destruct (loaders_as_configured _ _ _ _ _ _ _ _ _ Hrun) as [_ H].
  exact H.
Defined.

Lemma imagenet_loaders_missing (I : Imports)
  (globals : list (string * Acquire)) (acquire : string)
  (params : gmap string ParamValue) (tr : gmap string (option Transform))
  (r W : nat) (tpu : bool) :
  (∃ k, k ∈ ["image_dir"; "dataset_class"; "train_batch_size";
             "val_batch_size"; "num_workers"] ∧ params !! k = None) ∨
  (∃ k, k ∈ ["train"; "val"] ∧ tr !! k = None) →
  imagenet_loaders I globals acquire params tr r W tpu
  = Throws (Builtin AssertionError).
Proof.
  intros Hmiss. unfold imagenet_loaders.
  assert (Hone :
    in_keys params "image_dir" && in_keys params "dataset_class"
    && in_keys params "train_batch_size" && in_keys params "val_batch_size"
    && in_keys params "num_workers" && in_keys tr "train"
    && in_keys tr "val" = false).
  { destruct Hmiss as [(k & Hk & Hnone) | (k & Hk & Hnone)].
    - repeat (apply elem_of_cons in Hk as [-> | Hk];
              [rewrite (in_keys_None _ _ Hnone);
               rewrite ?andb_false_r; reflexivity|]).
      apply elem_of_nil in Hk. contradiction.
    - repeat (apply elem_of_cons in Hk as [-> | Hk];
              [rewrite (in_keys_None _ _ Hnone);
               rewrite ?andb_false_r; reflexivity|]).
      apply elem_of_nil in Hk. contradiction. }
  destruct (in_keys params "image_dir"); [|reflexivity].
  destruct (in_keys params "dataset_class"); [|reflexivity].
  destruct (in_keys params "train_batch_size"); [|reflexivity].
  destruct (in_keys params "val_batch_size"); [|reflexivity].
  destruct (in_keys params "num_workers"); [|reflexivity].
  destruct (in_keys tr "train"); [|reflexivity].
  destruct (in_keys tr "val"); [discriminate Hone | reflexivity].
Qed.

Lemma wrap_dataloaders_no_val (f : LoaderFunc)
  (params : gmap string ParamValue) (tr : gmap string (option Transform))
  (device : Device) (r W : nat) (B : Z) (e : Exn) :
  params !! "train_batch_size" = Some (PVal (VInt B)) →
  params !! "val_batch_size" = None →
  W ≠ O → B mod Z.of_nat W = 0 →
  f (<["train_batch_size" := PVal (VInt (B / Z.of_nat W))]> params) tr r W
    (String.eqb (device_type device) "xla") = Throws e →
  wrap_dataloaders f params tr device r W = Throws e.
Proof.
  intros HB HV HW Hmod Hf. unfold wrap_dataloaders. cbv zeta.
  rewrite (item_Some _ _ _ HB), !bind_Ok, param_mod_is_zero_int.
  pose proof HW as HW'. apply Nat.eqb_neq in HW'. rewrite HW', !bind_Ok.
  apply Z.eqb_eq in Hmod. rewrite Hmod.
  cbn [py_assert lift]. cbn [mbind Outcome_bind].
  rewrite (in_keys_None _ _ HV). cbn [lift]. cbn [mbind Outcome_bind].
  rewrite (param_floordiv_ok (PVal (VInt B)) W B HW eq_refl), !bind_Ok.
  cbn [lift]. cbn [mbind Outcome_bind].
  assert (HV1 : <["train_batch_size" := PVal (VInt (B / Z.of_nat W))]> params
                !! "val_batch_size" = None).
  { rewrite lookup_insert_ne by discriminate. exact HV. }
  rewrite (in_keys_None _ _ HV1). cbn [lift]. cbn [mbind Outcome_bind].
  rewrite Hf. reflexivity.
Qed.

(** X20.  Which parameters the loaders need.  [get_imagenet_loaders]
    raises [AssertionError] when one of image_dir, dataset_class,
    train_batch_size, val_batch_size and num_workers is missing from
    [params], or train or val from [my_transforms], whatever the
    datasets would do.  Under [wrap_dataloaders] a missing
    train_batch_size is a [KeyError] instead, and val_batch_size, which
    [wrap_dataloaders] itself treats as optional, is still required:
    without it the call raises [AssertionError] after the training batch
    size was divided. *)
Theorem required_parameters (I : Imports) (params : gmap string ParamValue)
  (tr : gmap string (option Transform)) (device : Device) (r W : nat) :
  (∀ k tpu,
     k ∈ ["image_dir"; "dataset_class"; "train_batch_size";
          "val_batch_size"; "num_workers"] →
     params !! k = None →
     get_imagenet_loaders I params tr r W tpu
     = Throws (Builtin AssertionError)) ∧
  (∀ k tpu, k ∈ ["train"; "val"] → tr !! k = None →
     get_imagenet_loaders I params tr r W tpu
     = Throws (Builtin AssertionError)) ∧
  (params !! "train_batch_size" = None →
     wrap_dataloaders (get_imagenet_loaders I) params tr device r W
     = Throws (Builtin KeyError)) ∧
  (∀ B, params !! "train_batch_size" = Some (PVal (VInt B)) →
     params !! "val_batch_size" = None →
     W ≠ O → B mod Z.of_nat W = 0 →
     wrap_dataloaders (get_imagenet_loaders I) params tr device r W
     = Throws (Builtin AssertionError)).
Proof.
  split; [|split; [|split]].
  - intros k tpu Hk Hnone. unfold get_imagenet_loaders.
    apply imagenet_loaders_missing.
    left. exists k. split; assumption.
  - intros k tpu Hk Hnone. unfold get_imagenet_loaders.
    apply imagenet_loaders_missing.
    right. exists k. split; assumption.
  - intros Hnone. unfold wrap_dataloaders, item. rewrite Hnone.
    reflexivity.
  - intros B HB HV HW Hmod.
    apply (wrap_dataloaders_no_val _ _ _ _ _ _ B _ HB HV HW Hmod).
    unfold get_imagenet_loaders.
    apply imagenet_loaders_missing. left. exists "val_batch_size". split.
    + do 3 apply list_elem_of_further. apply list_elem_of_here.
    + rewrite lookup_insert_ne by discriminate. exact HV.
Qed.

(** X20 on the sample parameters without a validation batch size. *)
Lemma required_parameters_witness :
  wrap_dataloaders (get_imagenet_loaders sample_imports)
    (delete "val_batch_size" sample_params) (sample_transforms None)
    (mkDevice "cuda" (Some 0)) 0 2
  = Throws (Builtin AssertionError).
Proof.
  destruct (required_parameters sample_imports
              (delete "val_batch_size" sample_params)
              (sample_transforms None) (mkDevice "cuda" (Some 0)) 0 2)
    as (_ & _ & _ & H).
  apply (H 8).
  - reflexivity.
  - reflexivity.
  - discriminate.
  - reflexivity.
Defined.

(** What [initialize_dataloader] went through when it returns. *)
Lemma initialize_dataloader_inv (I : Imports) (f : LoaderFunc) (t : Trainer)
  (device : Device) (name : string) (tl vl : option Loader) :
  initialize_dataloader I f t device name = Returns (tl, vl) →
  ∃ op tb vb nw mt x y params',
    config t !! "optimizer_params" = Some op ∧
    subscript op "train_batch_size" = Ok tb ∧
    subscript op "val_batch_size" = Ok vb ∧
    config t !! "dataloader_workers" = Some nw ∧
    MODEL_TRANSFORMS I !! name = Some mt ∧
    mt !! "train" = Some x ∧ mt !! "val" = Some y ∧
    wrap_dataloaders f
      (<["num_workers" := PVal nw]>
         (<["val_batch_size" := PVal vb]>
            (<["train_batch_size" := PVal tb]>
               (<["image_dir" :=
                    PVal (dict_get (config t) "image_dir"
                            (IMAGENET_DATA_DIR I))]>
                  (<["dataset_class" := PClass (ImageNetSupervised I)]>
                     ∅)))))
      (<["val" := Some y]> (<["train" := Some x]> ∅))
      device (rank t) (world_size t)
    = Returns (tl, vl, params').
Proof.
  unfold initialize_dataloader. intros H.
  apply obind_inv in H as (? & _ & H). apply obind_inv in H as (? & _ & H).
  apply obind_inv in H as (op & Hop & H).
  apply lift_inv, getitem_inv in Hop.
  apply obind_inv in H as (keys & _ & H).
  apply obind_inv in H as (? & _ & H). apply obind_inv in H as (? & _ & H).
  cbv zeta in H.
  apply obind_inv in H as (tb & Htb & H). apply lift_inv in Htb.
  apply obind_inv in H as (vb & Hvb & H). apply lift_inv in Hvb.
  apply obind_inv in H as (nw & Hnw & H).
  apply lift_inv, getitem_inv in Hnw.
  apply obind_inv in H as (mt & Hmt & H). apply lift_inv, item_inv in Hmt.
  apply obind_inv in H as (tx & Htx & H). apply lift_inv, item_inv in Htx.
  apply obind_inv in H as (mt' & Hmt' & H).
  apply lift_inv, item_inv in Hmt'.
  rewrite Hmt in Hmt'. inversion Hmt'; subst mt'.
  apply obind_inv in H as (ty & Hty & H). apply lift_inv, item_inv in Hty.
  apply obind_inv in H as ([[tl' vl'] params'] & Hw & H).
  inversion H; subst tl' vl'.
  exists op, tb, vb, nw, mt, tx, ty, params'.
  repeat (split; [assumption|]). exact Hw.
Qed.

Lemma method_never_returns (I : Imports) (params : gmap string ParamValue)
  (tr : gmap string (option Transform)) (r W : nat) (tpu : bool)
  (res : option DataLoader * option DataLoader) :
  SupervisedImageNetTrainer_get_imagenet_loaders I params tr r W tpu
  ≠ Returns res.
Proof.
  destruct res as [l1 l2]. intros H.
  unfold SupervisedImageNetTrainer_get_imagenet_loaders in H.
  apply imagenet_loaders_inv in H as (f & ? & ? & ? & ? & ? & ? & ? & ? & Hg
                                      & _).
  discriminate Hg.
Qed.

(** X21.  [SupervisedImageNetTrainer.get_imagenet_loaders] never returns.
    It builds its loaders through the name [_acquire_data_loader], which
    its module does not bind (the import is [_acquire_dataloader]): when
    the parameters pass its assertions and the datasets are built, it
    raises [NameError], with or without training transforms.  So
    [initialize_dataloader] never returns either as long as the class
    uses its own method, whatever the trainer, the device and the
    model. *)
Theorem trainer_loaders_unbound_name (I : Imports) :
  (∀ params tr r W tpu res,
     SupervisedImageNetTrainer_get_imagenet_loaders I params tr r W tpu
     ≠ Returns res) ∧
  (∀ params tr r W tpu tb vb nw cls dir ttr vtr,
     params !! "train_batch_size" = Some tb →
     params !! "val_batch_size" = Some vb →
     params !! "num_workers" = Some nw →
     params !! "dataset_class" = Some (PClass cls) →
     cls_is_ImageNetBase cls = true →
     params !! "image_dir" = Some dir →
     tr !! "train" = Some ttr → tr !! "val" = Some vtr →
     (∀ d, dataset_init I d = None) →
     SupervisedImageNetTrainer_get_imagenet_loaders I params tr r W tpu
     = Throws (NameError "_acquire_data_loader")) ∧
  (∀ t device name res,
     initialize_dataloader I
       (SupervisedImageNetTrainer_get_imagenet_loaders I) t device name
     ≠ Returns res).
Proof.
  split; [|split].
  - intros params tr r W tpu res. apply method_never_returns.
  - intros params tr r W tpu tb vb nw cls dir ttr vtr
      Htb Hvb Hnw Hdc Hsub Hdir Httr Hvtr Hinit.
    unfold SupervisedImageNetTrainer_get_imagenet_loaders, imagenet_loaders.
    rewrite (in_keys_Some _ _ _ Hdir), (in_keys_Some _ _ _ Hdc),
      (in_keys_Some _ _ _ Htb), (in_keys_Some _ _ _ Hvb),
      (in_keys_Some _ _ _ Hnw), (in_keys_Some _ _ _ Httr),
      (in_keys_Some _ _ _ Hvtr).
    rewrite (item_Some _ _ _ Hdir), (item_Some _ _ _ Hdc),
      (item_Some _ _ _ Htb), (item_Some _ _ _ Hvb),
      (item_Some _ _ _ Hnw), (item_Some _ _ _ Httr),
      (item_Some _ _ _ Hvtr).
    cbn [py_assert lift]. cbn [mbind Outcome_bind]. rewrite Hsub.
    cbn [py_assert lift]. cbn [mbind Outcome_bind].
    unfold construct. rewrite !Hinit.
    destruct ttr as [x|]; reflexivity.
  - intros t device name [tl vl] H.
    apply initialize_dataloader_inv in H
      as (? & ? & ? & ? & ? & ? & ? & params' & _ & _ & _ & _ & _ & _ & _
          & Hw).
    apply wrap_dataloaders_inv in Hw
      as (_ & _ & _ & _ & _ & _ & _ & l1 & l2 & Hf & _).
    exact (method_never_returns I _ _ _ _ _ _ Hf).
Qed.

(** X21 on the sample: the trainer's own loaders for the sample
    parameters. *)
Lemma trainer_loaders_unbound_name_witness :
  SupervisedImageNetTrainer_get_imagenet_loaders sample_imports sample_params
    (sample_transforms (Some ["ToTensor"])) 0%nat 2%nat false
  = Throws (NameError "_acquire_data_loader").
Proof.
  destruct (trainer_loaders_unbound_name sample_imports) as (_ & H & _).
  apply (H sample_params (sample_transforms (Some ["ToTensor"])) 0%nat 2%nat
           false (PVal (VInt 8)) (PVal (VInt 6)) (PVal (VInt 4))
           (ImageNetSupervised sample_imports) (PVal (VStr "/data/imagenet"))
           (Some ["ToTensor"]) (Some ["CenterCrop"; "ToTensor"]));
    try reflexivity.
Defined.

(** X22.  Whenever [initialize_dataloader] returns, with whatever loader
    function the class binds, the loader function was given the batch
    size that [train_one_epoch] computes for itself from the
    configuration: the configured [train_batch_size] divided by the world
    size, exactly.  It was also given the class [ImageNetSupervised], the
    configured image directory or the default one, and the two transform
    pipelines of the model. *)
Theorem loader_and_epoch_batch_sizes_agree (I : Imports) (f : LoaderFunc)
  (t : Trainer) (device : Device) (name : string) (tl vl : option Loader) :
  initialize_dataloader I f t device name = Returns (tl, vl) →
  ∃ b params' tr l1 l2,
    f params' tr (rank t) (world_size t)
      (String.eqb (device_type device) "xla") = Returns (l1, l2) ∧
    params' !! "train_batch_size" = Some (PVal (VInt b)) ∧
    train_batch_size t = Ok b ∧
    (∃ op, config t !! "optimizer_params" = Some op ∧
           subscript op "train_batch_size" ≫= as_int
           = Ok (b * Z.of_nat (world_size t))) ∧
    params' !! "dataset_class" = Some (PClass (ImageNetSupervised I)) ∧
    params' !! "image_dir"
    = Some (PVal (dict_get (config t) "image_dir" (IMAGENET_DATA_DIR I))) ∧
    ∃ mt x y,
      MODEL_TRANSFORMS I !! name = Some mt ∧
      mt !! "train" = Some x ∧ mt !! "val" = Some y ∧
      tr !! "train" = Some (Some x) ∧ tr !! "val" = Some (Some y).
Proof.
  intros H. apply initialize_dataloader_inv in H
    as (op & tb & vb & nw & mt & x & y & params' & Hop & Htb & Hvb & Hnw
        & Hmt & Hx & Hy & Hw).
  apply wrap_dataloaders_inv in Hw
    as (HW & b & n & Hb & Hn & Hmod & Hval & l1 & l2 & Hf & _).
  rewrite lookup_insert_ne in Hb by discriminate.
  rewrite lookup_insert_ne in Hb by discriminate.
  rewrite lookup_insert_eq in Hb. inversion Hb; subst b.
  cbn [param_int] in Hn.
  rewrite lookup_insert_ne in Hval by discriminate.
  rewrite lookup_insert_eq in Hval.
  destruct Hval as (m & _ & _ & ->).
  exists (n / Z.of_nat (world_size t)). eexists. eexists. exists l1, l2.
  split; [exact Hf|].
  split.
  { rewrite lookup_insert_ne by discriminate. apply lookup_insert_eq. }
  split.
  { unfold train_batch_size.
    rewrite (getitem_Some _ _ _ Hop), bind_Ok, Htb, bind_Ok, Hn, bind_Ok.
    apply Nat.eqb_neq in HW. rewrite HW. reflexivity. }
  split.
  { exists op. split; [exact Hop|]. rewrite Htb, bind_Ok, Hn.
    f_equal. assert (HWz : Z.of_nat (world_size t) ≠ 0) by lia.
    pose proof (Z.div_mod n (Z.of_nat (world_size t)) HWz). lia. }
  split.
  { rewrite !lookup_insert_ne by discriminate. apply lookup_insert_eq. }
  split.
  { rewrite !lookup_insert_ne by discriminate. apply lookup_insert_eq. }
  exists mt, x, y. split; [exact Hmt|]. split; [exact Hx|].
  split; [exact Hy|]. split.
  - rewrite lookup_insert_ne by discriminate. apply lookup_insert_eq.
  - apply lookup_insert_eq.
Qed.

(** X22 on the sample trainer, with the loader function of
    training_dataloader_utils.py in place of the method: 8 examples over
    two workers. *)
Lemma loader_and_epoch_batch_sizes_agree_witness :
  ∃ tl vl b,
    initialize_dataloader sample_imports (get_imagenet_loaders sample_imports)
      (set_config (<["dataloader_workers" := VInt 4]>
                     (sample_config 3 10 VNone)) (sample_trainer 3 10))
      (mkDevice "cuda" (Some 0)) "resnet18" = Returns (tl, vl) ∧
    train_batch_size
      (set_config (<["dataloader_workers" := VInt 4]>
                     (sample_config 3 10 VNone)) (sample_trainer 3 10))
    = Ok b ∧
    (b * 2 = 8)%Z.
Proof.
  destruct (initialize_dataloader sample_imports
              (get_imagenet_loaders sample_imports)
              (set_config (<["dataloader_workers" := VInt 4]>
                             (sample_config 3 10 VNone))
                 (sample_trainer 3 10))
              (mkDevice "cuda" (Some 0)) "resnet18")
    as [[tl vl]|e] eqn:Hrun; [|vm_compute in Hrun; discriminate].
  destruct (loader_and_epoch_batch_sizes_agree _ _ _ _ _ _ _ Hrun)
    as (b & params' & tr & l1 & l2 & _ & _ & Hb & (op & Hop & Hcfg) & _).
  exists tl, vl, b. split; [reflexivity|]. split; [exact Hb|].
  vm_compute in Hop. inversion Hop; subst op.
  change (Ok 8 = Ok (b * 2)) in Hcfg. inversion Hcfg as [Hz]. lia.
Defined.

(** X23.  The loaders of [wrap_dataloaders] and the epoch loop fit
    together.  When the trainer's [use_tpu] says what the device is, the
    sampler [train] reaches through the training loader at the start of
    an epoch is the shuffling sampler of this worker, with and without
    TPU.  With loaders built for validation only
    ([my_transforms["train"]] is [None]) there is no such sampler and the
    access raises [AttributeError], on a TPU as well, where the training
    loader is not [None]. *)
Theorem epoch_loop_reaches_sampler (I : Imports)
  (params : gmap string ParamValue) (tr : gmap string (option Transform))
  (device : Device) (r W : nat) (tl vl : option Loader)
  (params' : gmap string ParamValue) (ttr : option Transform) :
  wrap_dataloaders (get_imagenet_loaders I) params tr device r W
  = Returns (tl, vl, params') →
  tr !! "train" = Some ttr →
  match ttr with
  | Some x =>
      ∃ s, epoch_sampler (String.eqb (device_type device) "xla") tl = Ok s ∧
           sampler_shuffle s = true ∧ sampler_rank s = r ∧
           sampler_num_replicas s = W ∧
           ds_is_train (sampler_dataset s) = true ∧
           ds_image_transforms (sampler_dataset s) = Some x
  | None =>
      epoch_sampler (String.eqb (device_type device) "xla") tl
      = Raise AttributeError
  end.
Proof.
  intros H Httr. apply wrap_dataloaders_inv in H
    as (_ & _ & _ & _ & _ & _ & _ & l1 & l2 & Hf & Hout).
  unfold get_imagenet_loaders in Hf.
  apply imagenet_loaders_inv in Hf
    as (f & tb & vb & nw & cls & dir & ttr' & vtr & vd & Hg & _ & _ & _
        & _ & _ & _ & Httr' & _ & _ & _ & _ & Htrain).
  cbn in Hg. inversion Hg; subst f. clear Hg.
  rewrite Httr in Httr'. inversion Httr'; subst ttr'.
  destruct ttr as [x|].
  - destruct Htrain as (td & -> & _ & Htd).
    apply _acquire_dataloader_inv in Htd as [_ Htd].
    exists (dl_sampler td). split.
    { revert Hout. destruct (String.eqb (device_type device) "xla");
        intros Hout; inversion Hout; reflexivity. }
    subst td. cbn. repeat split.
  - subst l1. revert Hout.
    destruct (String.eqb (device_type device) "xla");
      intros Hout; inversion Hout; reflexivity.
Qed.

(** X23 on the sample, for validation only on a TPU. *)
Lemma epoch_loop_reaches_sampler_witness :
  ∃ tl vl params',
    wrap_dataloaders (get_imagenet_loaders sample_imports) sample_params
      (sample_transforms None) (mkDevice "xla" (Some 0)) 1 2
    = Returns (tl, vl, params') ∧
    is_Some tl ∧ epoch_sampler true tl = Raise AttributeError.
Proof.
  destruct (wrap_dataloaders (get_imagenet_loaders sample_imports)
              sample_params (sample_transforms None)
              (mkDevice "xla" (Some 0)) 1 2)
    as [[[tl vl] params']|e] eqn:Hrun; [|vm_compute in Hrun; discriminate].
  exists tl, vl, params'. split; [reflexivity|].
  pose proof (epoch_loop_reaches_sampler _ _ _ _ _ _ _ _ _ None Hrun eq_refl)
    as H.
  split; [|exact H].
  vm_compute in Hrun. inversion Hrun. eexists. reflexivity.
Defined.
